(** * NBA dashboard pipeline: bronze fetch, silver flattening, bulk load

    A shallow embedding of the Python sources

    - [scripts/bronze_layer_1.py]  (scoreboard fetch),
    - [plugins/bronze_layer_2.py]  (batched boxscore fetch with retry),
    - [scripts/silver_layer_1.py]  (six extractors, per-file processing,
      chunked warehouse load),

    followed by the properties of the ingestion and flattening core.

    Python values decoded from JSON are an inductive type; a [dict] is an
    association list in insertion order (iteration over a dict and the
    column order of a record are observable), the object store is a finite
    map from blob names to parquet frames.  Exceptions are explicit: every
    Python function is a function into [result], so that "does not raise"
    is a statement and not a typing accident. *)

From Stdlib Require Import ZArith QArith String Ascii List Lia.
From Stdlib Require Import Floats.SpecFloat.
From stdpp Require Import base option list gmap strings fin_maps pretty sorting.

Local Open Scope string_scope.
#[local] Set Warnings "-register-all,-abstract-large-number".

(** ** Python values, exceptions and the operations the scripts use *)

Module Py.

(** The values [json.loads] can produce, which are also the values a
    flattened record holds.  [PFloat] carries an IEEE value ([nan] and the
    infinities are accepted by [json.loads]). *)
Inductive pyval : Type :=
| PNone
| PBool (b : bool)
| PInt (z : Z)
| PFloat (f : spec_float)
| PStr (s : string)
| PList (l : list pyval)
| PDict (m : list (string * pyval)).

(** Exception classes that occur in the scripts.  [KeyboardInterrupt] and
    [SystemExit] derive from [BaseException] only and so escape an
    [except Exception] clause. *)
Inductive exn : Type :=
| AttributeError | TypeError | KeyError | IndexError | ValueError
| JSONDecodeError | NotFound | HTTPError | ConnectionError | UploadError
| LoadError | PicklingError | KeyboardInterrupt | SystemExit.

Definition is_Exception (e : exn) : bool :=
  match e with
  | KeyboardInterrupt | SystemExit => false
  | _ => true
  end.

Inductive result (A : Type) : Type :=
| Ok (a : A)
| Raise (e : exn).
Arguments Ok {A} a.
Arguments Raise {A} e.

#[export] Instance result_ret : MRet result := fun A a => Ok a.
#[export] Instance result_bind : MBind result := fun A B f r =>
  match r with
  | Ok a => f a
  | Raise e => Raise e
  end.

Definition returns {A} (r : result A) : Prop := exists a, r = Ok a.

(** [for x in xs: body(x)] inside the error monad: stops at the first
    exception. *)
Fixpoint mapM {A B} (f : A -> result B) (xs : list A) : result (list B) :=
  match xs with
  | [] => Ok []
  | x :: xs' => y ← f x; ys ← mapM f xs'; Ok (y :: ys)
  end.

(** *** dict operations *)

Fixpoint dict_lookup (k : string) (m : list (string * pyval)) : option pyval :=
  match m with
  | [] => None
  | (k', v) :: m' => if String.eqb k k' then Some v else dict_lookup k m'
  end.

(** [m[k] = v] : replace in place when the key exists, append otherwise. *)
Fixpoint dict_set (k : string) (v : pyval) (m : list (string * pyval))
  : list (string * pyval) :=
  match m with
  | [] => [(k, v)]
  | (k', v') :: m' =>
      if String.eqb k k' then (k', v) :: m' else (k', v') :: dict_set k v m'
  end.


(** A dict display [{k1: e1, ..., kn: en}]: the value expressions are
    evaluated left to right, the first exception aborts the display; the
    items are then stored one by one (a repeated key keeps its first
    position and its last value). *)
Definition dict_of_items (kvs : list (string * pyval)) : list (string * pyval) :=
  fold_left (fun m kv => dict_set (fst kv) (snd kv) m) kvs [].

Definition dict_display (entries : list (string * result pyval))
  : result pyval :=
  kvs ← mapM (fun ke => v ← snd ke; Ok (fst ke, v)) entries;
  Ok (PDict (dict_of_items kvs)).

(** *** Attribute and item access *)

(** [x.get(k)]: only a dict has [get]; a missing key gives [None]. *)
Definition py_get (x : pyval) (k : string) : result pyval :=
  match x with
  | PDict m => Ok (default PNone (dict_lookup k m))
  | _ => Raise AttributeError
  end.

(** [x[k]] with a string key. *)
Definition py_getitem (x : pyval) (k : string) : result pyval :=
  match x with
  | PDict m =>
      match dict_lookup k m with
      | Some v => Ok v
      | None => Raise KeyError
      end
  | _ => Raise TypeError
  end.

Fixpoint string_chars (s : string) : list pyval :=
  match s with
  | EmptyString => []
  | String c s' => PStr (String c EmptyString) :: string_chars s'
  end.

(** [x[i]] with a non-negative integer index. *)
Definition py_getitem_int (x : pyval) (i : nat) : result pyval :=
  match x with
  | PList l =>
      match l !! i with
      | Some v => Ok v
      | None => Raise IndexError
      end
  | PStr s =>
      match string_chars s !! i with
      | Some v => Ok v
      | None => Raise IndexError
      end
  | PDict _ => Raise KeyError
  | _ => Raise TypeError
  end.

(** Truth value of an object in a condition. *)
Definition truthy (x : pyval) : bool :=
  match x with
  | PNone => false
  | PBool b => b
  | PInt z => negb (Z.eqb z 0)
  | PFloat (S754_zero _) => false
  | PFloat _ => true
  | PStr EmptyString => false
  | PStr _ => true
  | PList [] => false
  | PList _ => true
  | PDict [] => false
  | PDict _ => true
  end.

(** The sequence a [for] loop walks over: list elements, dict keys in
    insertion order, the characters of a string. *)
Definition py_iter (x : pyval) : result (list pyval) :=
  match x with
  | PList l => Ok l
  | PDict m => Ok (map (fun kv => PStr (fst kv)) m)
  | PStr s => Ok (string_chars s)
  | _ => Raise TypeError
  end.

(** [x == s] for a string literal [s]. *)
Definition py_eq_str (x : pyval) (s : string) : bool :=
  match x with
  | PStr t => String.eqb t s
  | _ => false
  end.

Fixpoint list_index_str (s : string) (l : list pyval) : option nat :=
  match l with
  | [] => None
  | x :: l' => if py_eq_str x s then Some 0 else S <$> list_index_str s l'
  end.

(** [x.index(s)] : position of the first element equal to [s] in a list,
    of the first occurrence of [s] in a string. *)
Definition py_index (x : pyval) (s : string) : result nat :=
  match x with
  | PList l =>
      match list_index_str s l with
      | Some i => Ok i
      | None => Raise ValueError
      end
  | PStr t =>
      match String.index 0 s t with
      | Some i => Ok i
      | None => Raise ValueError
      end
  | _ => Raise AttributeError
  end.

(** *** Strings *)

(** [s.split(sep)] for a one-character separator. *)
Fixpoint str_split (sep : ascii) (s : string) : list string :=
  match s with
  | EmptyString => [EmptyString]
  | String c s' =>
      if Ascii.eqb c sep then EmptyString :: str_split sep s'
      else match str_split sep s' with
           | [] => [String c EmptyString]
           | seg :: rest => String c seg :: rest
           end
  end.

Definition startswith (s p : string) : bool := String.prefix p s.

Fixpoint zeros (n : nat) : string :=
  match n with
  | O => EmptyString
  | S n' => String "0" (zeros n')
  end.

(** [len(s)]: the number of characters of the text.  A string holds the
    UTF-8 bytes of its text; every character is one byte that is not a
    continuation byte ([10xxxxxx]), followed by its continuation bytes. *)
Definition is_continuation_byte (c : ascii) : bool :=
  let n := nat_of_ascii c in (128 <=? n)%nat && (n <? 192)%nat.

Fixpoint py_len (s : string) : nat :=
  match s with
  | EmptyString => 0
  | String c s' => (if is_continuation_byte c then 0 else 1) + py_len s'
  end.

(** [s.zfill(width)]: pad with zeros on the left, after a leading sign,
    up to [width] characters. *)
Definition zfill (width : nat) (s : string) : string :=
  let pad := zeros (width - py_len s) in
  match s with
  | String c s' =>
      if Ascii.eqb c "+" || Ascii.eqb c "-" then String c (pad ++ s')
      else pad ++ s
  | EmptyString => pad
  end.

(** *** Slices and ranges *)

(** [range(start, stop, step)] for a positive step. *)
Definition py_range (start stop step : nat) : list nat :=
  map (fun k => start + k * step) (seq 0 ((stop - start + (step - 1)) / step)).

(** [l[i:j]] for [0 <= i <= j]; out-of-range bounds are clipped. *)
Definition slice {A} (l : list A) (i j : nat) : list A := take (j - i) (drop i l).

End Py.

(** ** Silver layer: [scripts/silver_layer_1.py] *)

Module Silver.
Import Py.

(** *** The body of a [try] block that fills the local list [records]

    A computation reads and extends [records] and may raise; the records
    appended before the exception stay in the list. *)
Definition body (A : Type) : Type := list pyval -> result A * list pyval.

#[export] Instance body_ret : MRet body := fun A a records => (Ok a, records).
#[export] Instance body_bind : MBind body := fun A B f c records =>
  match c records with
  | (Ok a, records') => f a records'
  | (Raise e, records') => (Raise e, records')
  end.

(** An expression evaluated inside the block. *)
Definition eval {A} (r : result A) : body A := fun records => (r, records).

(** [records.append(record)] *)
Definition append (record : pyval) : body unit :=
  fun records => (Ok tt, (records ++ [record])%list).

Definition pass : body unit := mret tt.

(** [for x in xs: f x] *)
Fixpoint for_each {A} (xs : list A) (f : A -> body unit) : body unit :=
  match xs with
  | [] => pass
  | x :: xs' => f x;; for_each xs' f
  end.

(** [enumerate(xs)] *)
Definition enumerate {A} (xs : list A) : list (nat * A) := imap pair xs.

(** The frame shared by the six extractors:
[[
    records = []
    try:
        <block>
    except Exception as e:
        print(...)
    return records
]]
    An exception outside [Exception] is not caught. *)
Definition try_except_return_records (block : body unit) : result (list pyval) :=
  match block [] with
  | (Ok _, records) => Ok records
  | (Raise e, records) => if is_Exception e then Ok records else Raise e
  end.

Definition extract_meta_data (data source_file game_date : pyval)
  : result (list pyval) :=
  try_except_return_records (
    meta ← eval (py_get data "meta");
    if truthy meta then
      record ← eval (dict_display [
         ("block_type", Ok (PStr "meta"));
         ("version", py_get meta "version");
         ("request", py_get meta "request");
         ("time", py_get meta "time");
         ("source_file", Ok source_file);
         ("game_date", Ok game_date)]);
      append record
    else pass).

Definition extract_game_header (data source_file game_date : pyval)
  : result (list pyval) :=
  try_except_return_records (
    boxscore ← eval (py_get data "boxScoreTraditional");
    if truthy boxscore then
      record ← eval (dict_display [
         ("block_type", Ok (PStr "game_header"));
         ("game_id", py_get boxscore "gameId");
         ("away_team_id", py_get boxscore "awayTeamId");
         ("home_team_id", py_get boxscore "homeTeamId");
         ("source_file", Ok source_file);
         ("game_date", Ok game_date)]);
      append record
    else pass).

Definition extract_team_info (data source_file game_date : pyval)
  : result (list pyval) :=
  try_except_return_records (
    boxscore ← eval (py_get data "boxScoreTraditional");
    game_id ← eval (py_get boxscore "gameId");
    home_team ← eval (py_get boxscore "homeTeam");
    (if truthy home_team then
       record ← eval (dict_display [
         ("block_type", Ok (PStr "team_info"));
         ("game_id", Ok game_id);
         ("team_id", py_get home_team "teamId");
         ("team_city", py_get home_team "teamCity");
         ("team_name", py_get home_team "teamName");
         ("team_tricode", py_get home_team "teamTricode");
         ("team_slug", py_get home_team "teamSlug");
         ("is_home_team", Ok (PBool true));
         ("source_file", Ok source_file);
         ("game_date", Ok game_date)]);
       append record
     else pass);;
    away_team ← eval (py_get boxscore "awayTeam");
    if truthy away_team then
      record ← eval (dict_display [
         ("block_type", Ok (PStr "team_info"));
         ("game_id", Ok game_id);
         ("team_id", py_get away_team "teamId");
         ("team_city", py_get away_team "teamCity");
         ("team_name", py_get away_team "teamName");
         ("team_tricode", py_get away_team "teamTricode");
         ("team_slug", py_get away_team "teamSlug");
         ("is_home_team", Ok (PBool false));
         ("source_file", Ok source_file);
         ("game_date", Ok game_date)]);
      append record
    else pass).

Definition extract_team_statistics (data source_file game_date : pyval)
  : result (list pyval) :=
  try_except_return_records (
    boxscore ← eval (py_get data "boxScoreTraditional");
    game_id ← eval (py_get boxscore "gameId");
    home_team ← eval (py_get boxscore "homeTeam");
    home_stats ← eval (py_get home_team "statistics");
    (if truthy home_stats then
       record ← eval (dict_display [
         ("block_type", Ok (PStr "team_statistics"));
         ("game_id", Ok game_id);
         ("team_id", py_get home_team "teamId");
         ("is_home_team", Ok (PBool true));
         ("minutes", py_get home_stats "minutes");
         ("field_goals_made", py_get home_stats "fieldGoalsMade");
         ("field_goals_attempted", py_get home_stats "fieldGoalsAttempted");
         ("field_goals_percentage", py_get home_stats "fieldGoalsPercentage");
         ("three_pointers_made", py_get home_stats "threePointersMade");
         ("three_pointers_attempted", py_get home_stats "threePointersAttempted");
         ("three_pointers_percentage", py_get home_stats "threePointersPercentage");
         ("free_throws_made", py_get home_stats "freeThrowsMade");
         ("free_throws_attempted", py_get home_stats "freeThrowsAttempted");
         ("free_throws_percentage", py_get home_stats "freeThrowsPercentage");
         ("rebounds_offensive", py_get home_stats "reboundsOffensive");
         ("rebounds_defensive", py_get home_stats "reboundsDefensive");
         ("rebounds_total", py_get home_stats "reboundsTotal");
         ("assists", py_get home_stats "assists");
         ("steals", py_get home_stats "steals");
         ("blocks", py_get home_stats "blocks");
         ("turnovers", py_get home_stats "turnovers");
         ("fouls_personal", py_get home_stats "foulsPersonal");
         ("points", py_get home_stats "points");
         ("plus_minus_points", py_get home_stats "plusMinusPoints");
         ("source_file", Ok source_file);
         ("game_date", Ok game_date)]);
       append record
     else pass);;
    away_team ← eval (py_get boxscore "awayTeam");
    away_stats ← eval (py_get away_team "statistics");
    if truthy away_stats then
      record ← eval (dict_display [
         ("block_type", Ok (PStr "team_statistics"));
         ("game_id", Ok game_id);
         ("team_id", py_get away_team "teamId");
         ("is_home_team", Ok (PBool false));
         ("minutes", py_get away_stats "minutes");
         ("field_goals_made", py_get away_stats "fieldGoalsMade");
         ("field_goals_attempted", py_get away_stats "fieldGoalsAttempted");
         ("field_goals_percentage", py_get away_stats "fieldGoalsPercentage");
         ("three_pointers_made", py_get away_stats "threePointersMade");
         ("three_pointers_attempted", py_get away_stats "threePointersAttempted");
         ("three_pointers_percentage", py_get away_stats "threePointersPercentage");
         ("free_throws_made", py_get away_stats "freeThrowsMade");
         ("free_throws_attempted", py_get away_stats "freeThrowsAttempted");
         ("free_throws_percentage", py_get away_stats "freeThrowsPercentage");
         ("rebounds_offensive", py_get away_stats "reboundsOffensive");
         ("rebounds_defensive", py_get away_stats "reboundsDefensive");
         ("rebounds_total", py_get away_stats "reboundsTotal");
         ("assists", py_get away_stats "assists");
         ("steals", py_get away_stats "steals");
         ("blocks", py_get away_stats "blocks");
         ("turnovers", py_get away_stats "turnovers");
         ("fouls_personal", py_get away_stats "foulsPersonal");
         ("points", py_get away_stats "points");
         ("plus_minus_points", py_get away_stats "plusMinusPoints");
         ("source_file", Ok source_file);
         ("game_date", Ok game_date)]);
      append record
    else pass).

Definition extract_team_starters (data source_file game_date : pyval)
  : result (list pyval) :=
  try_except_return_records (
    boxscore ← eval (py_get data "boxScoreTraditional");
    game_id ← eval (py_get boxscore "gameId");
    home_team ← eval (py_get boxscore "homeTeam");
    home_starters ← eval (py_get home_team "starters");
    (if truthy home_starters then
       record ← eval (dict_display [
         ("block_type", Ok (PStr "team_starters"));
         ("game_id", Ok game_id);
         ("team_id", py_get home_team "teamId");
         ("is_home_team", Ok (PBool true));
         ("minutes", py_get home_starters "minutes");
         ("field_goals_made", py_get home_starters "fieldGoalsMade");
         ("field_goals_attempted", py_get home_starters "fieldGoalsAttempted");
         ("field_goals_percentage", py_get home_starters "fieldGoalsPercentage");
         ("three_pointers_made", py_get home_starters "threePointersMade");
         ("three_pointers_attempted", py_get home_starters "threePointersAttempted");
         ("three_pointers_percentage", py_get home_starters "threePointersPercentage");
         ("free_throws_made", py_get home_starters "freeThrowsMade");
         ("free_throws_attempted", py_get home_starters "freeThrowsAttempted");
         ("free_throws_percentage", py_get home_starters "freeThrowsPercentage");
         ("rebounds_offensive", py_get home_starters "reboundsOffensive");
         ("rebounds_defensive", py_get home_starters "reboundsDefensive");
         ("rebounds_total", py_get home_starters "reboundsTotal");
         ("assists", py_get home_starters "assists");
         ("steals", py_get home_starters "steals");
         ("blocks", py_get home_starters "blocks");
         ("turnovers", py_get home_starters "turnovers");
         ("fouls_personal", py_get home_starters "foulsPersonal");
         ("points", py_get home_starters "points");
         ("source_file", Ok source_file);
         ("game_date", Ok game_date)]);
       append record
     else pass);;
    away_team ← eval (py_get boxscore "awayTeam");
    away_starters ← eval (py_get away_team "starters");
    if truthy away_starters then
      record ← eval (dict_display [
         ("block_type", Ok (PStr "team_starters"));
         ("game_id", Ok game_id);
         ("team_id", py_get away_team "teamId");
         ("is_home_team", Ok (PBool false));
         ("minutes", py_get away_starters "minutes");
         ("field_goals_made", py_get away_starters "fieldGoalsMade");
         ("field_goals_attempted", py_get away_starters "fieldGoalsAttempted");
         ("field_goals_percentage", py_get away_starters "fieldGoalsPercentage");
         ("three_pointers_made", py_get away_starters "threePointersMade");
         ("three_pointers_attempted", py_get away_starters "threePointersAttempted");
         ("three_pointers_percentage", py_get away_starters "threePointersPercentage");
         ("free_throws_made", py_get away_starters "freeThrowsMade");
         ("free_throws_attempted", py_get away_starters "freeThrowsAttempted");
         ("free_throws_percentage", py_get away_starters "freeThrowsPercentage");
         ("rebounds_offensive", py_get away_starters "reboundsOffensive");
         ("rebounds_defensive", py_get away_starters "reboundsDefensive");
         ("rebounds_total", py_get away_starters "reboundsTotal");
         ("assists", py_get away_starters "assists");
         ("steals", py_get away_starters "steals");
         ("blocks", py_get away_starters "blocks");
         ("turnovers", py_get away_starters "turnovers");
         ("fouls_personal", py_get away_starters "foulsPersonal");
         ("points", py_get away_starters "points");
         ("source_file", Ok source_file);
         ("game_date", Ok game_date)]);
      append record
    else pass).

(** The record of one home roster entry (the body of the first loop). *)
Definition home_player_record (game_id home_team_id source_file game_date : pyval)
  (i : nat) (player : pyval) : result pyval :=
  stats ← py_get player "statistics";
  dict_display [
         ("block_type", Ok (PStr "player_statistics"));
         ("game_id", Ok game_id);
         ("team_id", Ok home_team_id);
         ("is_home_team", Ok (PBool true));
         ("player_index", Ok (PInt (Z.of_nat i)));
         ("person_id", py_get player "personId");
         ("first_name", py_get player "firstName");
         ("family_name", py_get player "familyName");
         ("name_i", py_get player "nameI");
         ("player_slug", py_get player "playerSlug");
         ("position", py_get player "position");
         ("comment", py_get player "comment");
         ("jersey_num", py_get player "jerseyNum");
         ("minutes", py_get stats "minutes");
         ("field_goals_made", py_get stats "fieldGoalsMade");
         ("field_goals_attempted", py_get stats "fieldGoalsAttempted");
         ("field_goals_percentage", py_get stats "fieldGoalsPercentage");
         ("three_pointers_made", py_get stats "threePointersMade");
         ("three_pointers_attempted", py_get stats "threePointersAttempted");
         ("three_pointers_percentage", py_get stats "threePointersPercentage");
         ("free_throws_made", py_get stats "freeThrowsMade");
         ("free_throws_attempted", py_get stats "freeThrowsAttempted");
         ("free_throws_percentage", py_get stats "freeThrowsPercentage");
         ("rebounds_offensive", py_get stats "reboundsOffensive");
         ("rebounds_defensive", py_get stats "reboundsDefensive");
         ("rebounds_total", py_get stats "reboundsTotal");
         ("assists", py_get stats "assists");
         ("steals", py_get stats "steals");
         ("blocks", py_get stats "blocks");
         ("turnovers", py_get stats "turnovers");
         ("fouls_personal", py_get stats "foulsPersonal");
         ("points", py_get stats "points");
         ("plus_minus_points", py_get stats "plusMinusPoints");
         ("source_file", Ok source_file);
         ("game_date", Ok game_date)].

(** The record of one away roster entry (the body of the second loop). *)
Definition away_player_record (game_id away_team_id source_file game_date : pyval)
  (i : nat) (player : pyval) : result pyval :=
  stats ← py_get player "statistics";
  dict_display [
         ("block_type", Ok (PStr "player_statistics"));
         ("game_id", Ok game_id);
         ("team_id", Ok away_team_id);
         ("is_home_team", Ok (PBool false));
         ("player_index", Ok (PInt (Z.of_nat i)));
         ("person_id", py_get player "personId");
         ("first_name", py_get player "firstName");
         ("family_name", py_get player "familyName");
         ("name_i", py_get player "nameI");
         ("player_slug", py_get player "playerSlug");
         ("position", py_get player "position");
         ("comment", py_get player "comment");
         ("jersey_num", py_get player "jerseyNum");
         ("minutes", py_get stats "minutes");
         ("field_goals_made", py_get stats "fieldGoalsMade");
         ("field_goals_attempted", py_get stats "fieldGoalsAttempted");
         ("field_goals_percentage", py_get stats "fieldGoalsPercentage");
         ("three_pointers_made", py_get stats "threePointersMade");
         ("three_pointers_attempted", py_get stats "threePointersAttempted");
         ("three_pointers_percentage", py_get stats "threePointersPercentage");
         ("free_throws_made", py_get stats "freeThrowsMade");
         ("free_throws_attempted", py_get stats "freeThrowsAttempted");
         ("free_throws_percentage", py_get stats "freeThrowsPercentage");
         ("rebounds_offensive", py_get stats "reboundsOffensive");
         ("rebounds_defensive", py_get stats "reboundsDefensive");
         ("rebounds_total", py_get stats "reboundsTotal");
         ("assists", py_get stats "assists");
         ("steals", py_get stats "steals");
         ("blocks", py_get stats "blocks");
         ("turnovers", py_get stats "turnovers");
         ("fouls_personal", py_get stats "foulsPersonal");
         ("points", py_get stats "points");
         ("plus_minus_points", py_get stats "plusMinusPoints");
         ("source_file", Ok source_file);
         ("game_date", Ok game_date)].

Definition extract_player_statistics (data source_file game_date : pyval)
  : result (list pyval) :=
  try_except_return_records (
    boxscore ← eval (py_get data "boxScoreTraditional");
    game_id ← eval (py_get boxscore "gameId");
    home_team ← eval (py_get boxscore "homeTeam");
    home_team_id ← eval (py_get home_team "teamId");
    home_players ← eval (players ← py_get home_team "players"; py_iter players);
    for_each (enumerate home_players) (fun ip =>
      record ← eval (home_player_record game_id home_team_id
                       source_file game_date (fst ip) (snd ip));
      append record);;
    away_team ← eval (py_get boxscore "awayTeam");
    away_team_id ← eval (py_get away_team "teamId");
    away_players ← eval (players ← py_get away_team "players"; py_iter players);
    for_each (enumerate away_players) (fun ip =>
      record ← eval (away_player_record game_id away_team_id
                       source_file game_date (fst ip) (snd ip));
      append record)).

(** *** Snapshot objects

    A text cell is known up to what [json.loads] makes of it: either the
    serialisation [json.dumps d] of a value, or a text that is not JSON. *)
Inductive raw_text : Type :=
| Dumps (d : pyval)
| NotJson (s : string).

Definition json_dumps (d : pyval) : raw_text := Dumps d.

Definition json_loads (t : raw_text) : result pyval :=
  match t with
  | Dumps d => Ok d
  | NotJson _ => Raise JSONDecodeError
  end.

(** A parquet object read back as a DataFrame: its rows, each a map from
    column names to cells. *)
Definition frame : Type := list (gmap string raw_text).

(** [df.iloc[i]] and [row[column]] *)
Definition iloc (df : frame) (i : nat) : result (gmap string raw_text) :=
  match df !! i with
  | Some row => Ok row
  | None => Raise IndexError
  end.

Definition column (row : gmap string raw_text) (name : string) : result raw_text :=
  match row !! name with
  | Some cell => Ok cell
  | None => Raise KeyError
  end.

(** The object store: bucket name, then blob name. *)
Definition gcs : Type := gmap string (gmap string frame).

(** [client.bucket(b).blob(n).download_to_file(buffer); pd.read_parquet(buffer)] *)
Definition download_parquet (storage_client : gcs) (bucket_name blob_name : string)
  : result frame :=
  match storage_client !! bucket_name ≫= (fun bucket => bucket !! blob_name) with
  | Some df => Ok df
  | None => Raise NotFound
  end.

(** The order in which the store lists object names: byte by byte. *)
Definition name_le (a b : string) : Prop := String.leb a b = true.

#[export] Instance name_le_dec a b : Decision (name_le a b) :=
  decide (String.leb a b = true).

(** [list(client.bucket(b).list_blobs(prefix=p))], as blob names, in the
    order in which the store lists them. *)
Definition list_blobs (storage_client : gcs) (bucket_name pfx : string)
  : result (list string) :=
  match storage_client !! bucket_name with
  | Some bucket =>
      Ok (merge_sort name_le
            (filter (fun name => startswith name pfx = true)
               (map fst (map_to_list bucket))))
  | None => Raise NotFound
  end.

(** *** [process_single_file] *)

(** [xs[i]] on a list of strings. *)
Definition str_list_getitem (xs : list string) (i : nat) : result string :=
  match xs !! i with
  | Some x => Ok x
  | None => Raise IndexError
  end.

(** One turn of the loop over the path components; [None] is Python's
    [None]. *)
Definition date_component_step
  (ymd : option string * option string * option string) (part : string)
  : result (option string * option string * option string) :=
  let '(year, month, day) := ymd in
  if startswith part "year=" then
    y ← str_list_getitem (str_split "=" part) 1; Ok (Some y, month, day)
  else if startswith part "month=" then
    m ← str_list_getitem (str_split "=" part) 1; Ok (year, Some m, day)
  else if startswith part "day=" then
    d ← str_list_getitem (str_split "=" part) 1; Ok (year, month, Some d)
  else Ok (year, month, day).

Fixpoint date_components
  (ymd : option string * option string * option string) (parts : list string)
  : result (option string * option string * option string) :=
  match parts with
  | [] => Ok ymd
  | part :: parts' => ymd' ← date_component_step ymd part; date_components ymd' parts'
  end.

Definition str_truthy (s : option string) : bool :=
  match s with
  | Some (String _ _) => true
  | _ => false
  end.

Definition str_value (s : option string) : string := default EmptyString s.

(** [game_date = year + "-" + month.zfill(2) + "-" + day.zfill(2)] under
    [if year and month and day], [None] otherwise. *)
Definition format_game_date (ymd : option string * option string * option string)
  : pyval :=
  let '(year, month, day) := ymd in
  if str_truthy year && str_truthy month && str_truthy day
  then PStr (str_value year ++ "-" ++ zfill 2 (str_value month)
               ++ "-" ++ zfill 2 (str_value day))
  else PNone.

Definition parse_game_date (blob_name : string) : result pyval :=
  let parts := str_split "/" blob_name in
  ymd ← date_components (None, None, None) parts;
  Ok (format_game_date ymd).

(** The six extractor calls on one decoded document. *)
Definition extract_all (data source_file game_date : pyval) : result (list pyval) :=
  let all_records := [] in
  r ← extract_meta_data data source_file game_date;
  let all_records := (all_records ++ r)%list in
  r ← extract_game_header data source_file game_date;
  let all_records := (all_records ++ r)%list in
  r ← extract_team_info data source_file game_date;
  let all_records := (all_records ++ r)%list in
  r ← extract_team_statistics data source_file game_date;
  let all_records := (all_records ++ r)%list in
  r ← extract_team_starters data source_file game_date;
  let all_records := (all_records ++ r)%list in
  r ← extract_player_statistics data source_file game_date;
  let all_records := (all_records ++ r)%list in
  Ok all_records.

Definition process_single_file (storage_client : gcs) (bucket_name blob_name : string)
  : result (list pyval) :=
  parquet_dataframe ← download_parquet storage_client bucket_name blob_name;
  row ← iloc parquet_dataframe 0;
  raw_json_string ← column row "raw_response";
  data ← json_loads raw_json_string;
  game_date ← parse_game_date blob_name;
  extract_all data (PStr blob_name) game_date.

(** *** [NBASilverProcessor] *)

(** The processor after [__init__]; the environment supplies the names.
    [client_pickles] says whether [self.storage_client] can be handed to
    the worker processes of [joblib]: the client of [google.cloud.storage]
    that [__init__] builds refuses to be pickled ([PicklingError]); a
    client that pickles, or a [joblib] that falls back to running the
    tasks in the caller, gives [true]. *)
Record NBASilverProcessor : Type := {
  storage_client : gcs;
  project : string;
  bucket_name : string;
  dataset_name : string;
  table_name : string;
  date_parameter : string;
  date_path : string;
  client_pickles : bool
}.

(** [Parallel(n_jobs=4, prefer="processes")(delayed(f)(..., x) for x in xs)]:
    every task is pickled with its arguments for a worker process, so
    the call raises [PicklingError] as soon as there is one task whose
    arguments do not pickle.  Otherwise there is one result per task, in
    the order of the tasks, and an exception in a task is raised again in
    the caller. *)
Definition Parallel {A B} (picklable : bool) (f : A -> result B) (xs : list A)
  : result (list B) :=
  match xs with
  | [] => Ok []
  | _ => if picklable then mapM f xs else Raise PicklingError
  end.

Definition process_yesterdays_games (self : NBASilverProcessor)
  : result (list pyval) :=
  blobs ← list_blobs (storage_client self) (bucket_name self) (date_path self);
  match blobs with
  | [] => Ok []
  | _ =>
      parallel_results ←
        Parallel (client_pickles self)
          (process_single_file (storage_client self) (bucket_name self)) blobs;
      Ok (fold_left (fun all_records records => (all_records ++ records)%list)
            parallel_results [])
  end.

(** The warehouse: the load jobs issued so far, oldest first, each with
    its table and its rows, and the rows each table holds. *)
Record bigquery : Type := {
  jobs : list (string * list pyval);
  tables : gmap string (list pyval)
}.

(** The [try] block of one chunk: [pd.DataFrame(chunk)], then
    [load_table_from_dataframe(...)] and [job.result()].  The conversion
    of a list of dicts succeeds; whether the job issued as number
    [length (jobs w)] fails is the environment's choice [job_fails]; a
    failed job appends nothing. *)
Definition load_table (job_fails : nat -> bool) (table_ref : string)
  (chunk : list pyval) (w : bigquery) : result unit * bigquery :=
  let n := length (jobs w) in
  let issued := {| jobs := (jobs w ++ [(table_ref, chunk)])%list; tables := tables w |} in
  if job_fails n then (Raise LoadError, issued)
  else (Ok tt,
        {| jobs := jobs issued;
           tables := <[table_ref := (default [] (tables w !! table_ref) ++ chunk)%list]>
                       (tables w) |}).

(** The loop of [insert_to_bigquery] over the chunk offsets; the
    [try]/[except Exception] is inside the loop. *)
Fixpoint load_chunks (job_fails : nat -> bool) (table_ref : string)
  (data : list pyval) (chunk_size : nat) (offsets : list nat) (w : bigquery)
  : result unit * bigquery :=
  match offsets with
  | [] => (Ok tt, w)
  | i :: offsets' =>
      let chunk := slice data i (i + chunk_size) in
      match load_table job_fails table_ref chunk w with
      | (Ok _, w') => load_chunks job_fails table_ref data chunk_size offsets' w'
      | (Raise e, w') =>
          if is_Exception e
          then load_chunks job_fails table_ref data chunk_size offsets' w'
          else (Raise e, w')
      end
  end.

Definition insert_to_bigquery (self : NBASilverProcessor) (job_fails : nat -> bool)
  (data : list pyval) (w : bigquery) : result unit * bigquery :=
  if negb (truthy (PList data)) then (Ok tt, w)
  else
    let table_ref := project self ++ "." ++ dataset_name self ++ "." ++ table_name self in
    let chunk_size := 10000 in
    let total_records := length data in
    load_chunks job_fails table_ref data chunk_size
      (py_range 0 total_records chunk_size) w.

End Silver.

(** ** Bronze layer: [scripts/bronze_layer_1.py] and [plugins/bronze_layer_2.py] *)

Module Bronze.
Import Py Silver.

(** *** The outside world of the fetch stage *)

(** An HTTP GET as [requests] receives it; [timeout = None] is a call
    without the [timeout] argument. *)
Record request : Type := {
  url : string;
  headers : list (string * string);
  params : list (string * pyval);
  proxies : list (string * string);
  timeout : option Z
}.

Record response : Type := {
  status_code : Z;
  text : raw_text
}.

(** [response.raise_for_status()] *)
Definition raise_for_status (r : response) : result unit :=
  if (400 <=? status_code r)%Z && (status_code r <? 600)%Z
  then Raise HTTPError else Ok tt.

(** [response.json()] *)
Definition response_json (r : response) : result pyval := json_loads (text r).

(** What is observed of a run: the GET requests sent, the objects
    stored, the waits. *)
Inductive event : Type :=
| Get (r : request)
| Upload (bucket blob : string) (df : frame)
| Sleep (seconds : Q).

(** What the scripts act on: the object store and the events so far,
    oldest first. *)
Record world : Type := {
  store : gcs;
  trace : list event
}.

(** The upstream and the store decide whether a call fails; a call is
    identified by the number of events before it. *)
Record environment : Type := {
  http_get : nat -> request -> option response;
  upload_fails : nat -> bool
}.

Definition io (A : Type) : Type := world -> result A * world.

#[export] Instance io_ret : MRet io := fun A a w => (Ok a, w).
#[export] Instance io_bind : MBind io := fun A B f c w =>
  match c w with
  | (Ok a, w') => f a w'
  | (Raise e, w') => (Raise e, w')
  end.

Definition lift {A} (r : result A) : io A := fun w => (r, w).

Definition log (e : event) (w : world) : world :=
  {| store := store w; trace := (trace w ++ [e])%list |}.

(** [session.get(...)] / [requests.get(...)] *)
Definition get (env : environment) (r : request) : io response :=
  fun w =>
    match http_get env (length (trace w)) r with
    | Some resp => (Ok resp, log (Get r) w)
    | None => (Raise ConnectionError, log (Get r) w)
    end.

(** [client.bucket(b).blob(n).upload_from_file(parquet)]: the object is
    replaced as a whole and the upload is recorded, or the call raises and
    nothing is stored. *)
Definition upload (env : environment) (bucket blob : string) (df : frame) : io unit :=
  fun w =>
    if upload_fails env (length (trace w))
    then (Raise UploadError, w)
    else (Ok tt,
          log (Upload bucket blob df)
            {| store := <[bucket := <[blob := df]> (default ∅ (store w !! bucket))]> (store w);
               trace := trace w |}).

(** [time.sleep(seconds)] *)
Definition sleep (seconds : Q) : io unit := fun w => (Ok tt, log (Sleep seconds) w).

(** [pd.DataFrame([{"raw_response": json.dumps(payload)}])] *)
Definition bronze_layer_df (payload : pyval) : frame :=
  [ {[ "raw_response" := json_dumps payload ]} ].

(** The retry loop both scripts use:
[[
    while retry_count < max_retries:
        try:
            <block>
            break
        except Exception as e:
            print(...)
            retry_count += 1
            time.sleep(retry_delay * retry_count)
]]
    It yields the final [retry_count] and what the block computed, if it
    completed.  [fuel] bounds the number of turns. *)
Fixpoint retry_loop {A} (fuel : nat) (block : io A)
  (max_retries retry_delay retry_count : nat) : io (nat * option A) :=
  fun w =>
    match fuel with
    | O => (Ok (retry_count, None), w)
    | S fuel' =>
        if (retry_count <? max_retries)%nat then
          match block w with
          | (Ok a, w') => (Ok (retry_count, Some a), w')
          | (Raise e, w') =>
              if is_Exception e then
                let retry_count := retry_count + 1 in
                (sleep (inject_Z (Z.of_nat (retry_delay * retry_count)));;
                 retry_loop fuel' block max_retries retry_delay retry_count) w'
              else (Raise e, w')
          end
        else (Ok (retry_count, None), w)
    end.

(** *** [get_nba_scoreboard] *)

Definition browser_headers : list (string * string) :=
  [("User-Agent", "Mozilla/5.0 (Windows NT 10.0; Win64; x64)");
   ("Referer", "https://www.nba.com/");
   ("Origin", "https://www.nba.com");
   ("Accept-Language", "en-US,en;q=0.9");
   ("Connection", "keep-alive")].

(** Yesterday's date as [strftime] prints its parts. *)
Record partition : Type := {
  year : string;
  month : string;
  day : string
}.

Definition scoreboard_request (proxy_config : list (string * string))
  (date_parameter : string) : request :=
  {| url := "ENDPOINT_URL";
     headers := browser_headers;
     params := [("DayOffset", PStr "0"); ("GameDate", PStr date_parameter);
                ("LeagueID", PStr "00")];
     proxies := proxy_config;
     timeout := None |}.

(** The result is the error message, or [None] after the upload. *)
Definition get_nba_scoreboard (env : environment)
  (proxy_config : list (string * string)) (bucket_name : string)
  (yesterday : partition) : io (option string) :=
  let date_parameter := year yesterday ++ "-" ++ month yesterday ++ "-" ++ day yesterday in
  let max_retries := 3 in
  let retry_count := 0 in
  let retry_delay := 2 in
  '(retry_count, scoreboard_data) ←
    retry_loop max_retries
      (reponse ← get env (scoreboard_request proxy_config date_parameter);
       lift (response_json reponse))
      max_retries retry_delay retry_count;
  if (max_retries <=? retry_count)%nat then
    mret (Some "ERROR: Failed to get NBA scoreboard data after 3 attempts")
  else
    match scoreboard_data with
    | Some scoreboard_data =>
        let partition_path :=
          "year=" ++ year yesterday ++ "/month=" ++ month yesterday
            ++ "/day=" ++ day yesterday ++ "/scoreboard.parquet" in
        upload env bucket_name partition_path (bronze_layer_df scoreboard_data);;
        mret None
    | None => mret None
    end.

Section Boxscore.

(** [str(x)] as an f-string inserts it; it maps a string to itself.  How
    other values are printed plays no part below, so it is a parameter. *)
Variable py_str : pyval -> string.

(** The processor after [__init__].  [client_pickles] says whether
    [self], with its [self.client], can be handed to the worker processes
    of [joblib]: the client of [google.cloud.storage] that [__init__]
    builds refuses to be pickled ([PicklingError]); a client that
    pickles, or a [joblib] that falls back to running the tasks in the
    caller, gives [true]. *)
Record NBABoxscoreProcessor : Type := {
  self_proxies : list (string * string);
  self_headers : list (string * string);
  date_path : string;
  input_bucket : string;
  output_bucket : string;
  client_pickles : bool
}.

(** [next((r for r in rs if r["name"] == "GameHeader"), None)]: entries
    after the first hit are not looked at. *)
Fixpoint next_game_header (rs : list pyval) : result (option pyval) :=
  match rs with
  | [] => Ok None
  | r :: rs' =>
      name ← py_getitem r "name";
      if py_eq_str name "GameHeader" then Ok (Some r) else next_game_header rs'
  end.

Definition get_game_ids (self : NBABoxscoreProcessor) : io (list pyval) :=
  fun w =>
    (df ← download_parquet (store w) (input_bucket self)
            (date_path self ++ "/scoreboard.parquet");
     row ← iloc df 0;
     raw ← column row "raw_response";
     json_data ← json_loads raw;
     result_sets ← py_getitem json_data "resultSets";
     rs ← py_iter result_sets;
     game_header ← next_game_header rs;
     match game_header with
     | Some game_header =>
         if truthy game_header then
           hs ← py_getitem game_header "headers";
           game_id_index ← py_index hs "GAME_ID";
           row_set ← py_getitem game_header "rowSet";
           rows ← py_iter row_set;
           mapM (fun row => py_getitem_int row game_id_index) rows
         else Ok []
     | None => Ok []
     end, w).

Definition boxscore_request (self : NBABoxscoreProcessor) (game_id : pyval) : request :=
  {| url := "ENDPOINT_URL";
     headers := self_headers self;
     params := [("GameID", game_id); ("LeagueID", PStr "00")];
     proxies := self_proxies self;
     timeout := Some 30%Z |}.

(** The [try] block of one attempt, up to the [break]. *)
Definition fetch_and_store (self : NBABoxscoreProcessor) (env : environment)
  (game_id : pyval) : io unit :=
  response ← get env (boxscore_request self game_id);
  lift (raise_for_status response);;
  payload ← lift (response_json response);
  upload env (output_bucket self)
    (date_path self ++ "/" ++ py_str game_id ++ ".parquet")
    (bronze_layer_df payload).

Definition process_game_with_retry (self : NBABoxscoreProcessor) (env : environment)
  (session : unit) (game_id : pyval) : io bool :=
  let max_retries := 3 in
  let retry_count := 0 in
  let retry_delay := 3 in
  '(retry_count, _) ←
    retry_loop max_retries (fetch_and_store self env game_id)
      max_retries retry_delay retry_count;
  if (max_retries <=? retry_count)%nat then mret false else mret true.

(** [for x in xs: f x] in the world monad. *)
Fixpoint io_for_each {A} (xs : list A) (f : A -> io unit) : io unit :=
  match xs with
  | [] => mret tt
  | x :: xs' => f x;; io_for_each xs' f
  end.

Definition process_game_batch (self : NBABoxscoreProcessor) (env : environment)
  (batch_id : nat) (game_batch : list pyval) : io nat :=
  let session := tt in
  io_for_each game_batch (fun game_id =>
    sleep (1 # 10);;
    process_game_with_retry self env session game_id;;
    mret tt);;
  mret (length game_batch).

(** [[game_ids[i:i+batch_size] for i in range(0, len(game_ids), batch_size)]] *)
Definition game_batches (game_ids : list pyval) : list (list pyval) :=
  let batch_size := 4 in
  map (fun i => slice game_ids i (i + batch_size))
    (py_range 0 (length game_ids) batch_size).

(** [Parallel(n_jobs=4, prefer="processes")(results)]: every job is
    pickled, with the [self] of its bound method, for a worker process,
    so the call raises [PicklingError] before any job runs as soon as
    there is one job and [self] does not pickle.  Otherwise the jobs are
    taken here one after the other in order, one of the schedules the
    pool may follow. *)
Definition Parallel {A} (picklable : bool) (results : list A) (job : A -> io unit)
  : io unit :=
  match results with
  | [] => mret tt
  | _ => if picklable then io_for_each results job else lift (Raise PicklingError)
  end.

Definition batch_config (self : NBABoxscoreProcessor) (env : environment)
  : io string :=
  game_ids ← get_game_ids self;
  Parallel (client_pickles self) (enumerate (game_batches game_ids)) (fun job =>
    process_game_batch self env (fst job) (snd job);; mret tt);;
  mret "Processing complete".

End Boxscore.

End Bronze.


(** ** The entry points of the stages *)

Module Stage.
Import Py Silver.

(** What both [__init__] methods compute from yesterday's date, whose
    parts [strftime] prints as [%Y], [%m] and [%d]. *)
Definition date_path_of (yesterday : Bronze.partition) : string :=
  ("year=" ++ Bronze.year yesterday ++ "/month=" ++ Bronze.month yesterday
     ++ "/day=" ++ Bronze.day yesterday)%string.

(** [strftime("%Y-%m-%d")] *)
Definition date_parameter_of (yesterday : Bronze.partition) : string :=
  (Bronze.year yesterday ++ "-" ++ Bronze.month yesterday
     ++ "-" ++ Bronze.day yesterday)%string.

(** [str(n)] for a length. *)
Definition str_len (n : nat) : string := pretty n.

(** [NBASilverProcessor.run] *)
Definition run (self : NBASilverProcessor) (job_fails : nat -> bool)
  (w : bigquery) : result string * bigquery :=
  match process_yesterdays_games self with
  | Raise e => (Raise e, w)
  | Ok records =>
      if negb (truthy (PList records)) then (Ok "No games found to process", w)
      else
        match insert_to_bigquery self job_fails records w with
        | (Ok _, w') =>
            (Ok ("Processed " ++ str_len (length records)
                   ++ " total records from " ++ date_parameter self)%string, w')
        | (Raise e, w') => (Raise e, w')
        end
  end.

(** [run_silver_layer]: the result and the status 200. *)
Definition run_silver_layer (processor : NBASilverProcessor)
  (job_fails : nat -> bool) (w : bigquery) : result (string * Z) * bigquery :=
  match run processor job_fails w with
  | (Ok result, w') => (Ok (result, 200%Z), w')
  | (Raise e, w') => (Raise e, w')
  end.

Import Bronze.

(** The body of the loop of [process_game_batch]:
[[
    time.sleep(0.1)
    self.process_game_with_retry(session, game_id)
]] *)
Definition game_step (py_str : pyval -> string) (self : NBABoxscoreProcessor)
  (env : environment) (game_id : pyval) : io unit :=
  sleep (1 # 10);;
  process_game_with_retry py_str self env tt game_id;;
  mret tt.

(** [get_nba_boxscores] *)
Definition get_nba_boxscores (py_str : pyval -> string)
  (processor : NBABoxscoreProcessor) (env : environment) : io (string * Z) :=
  result ← batch_config py_str processor env;
  mret (result, 200%Z).

End Stage.

(** * Vocabulary of the properties *)

Import Py Silver.
Local Open Scope list_scope.

(** [safe r]: whatever [r] raises is caught by [except Exception]. *)
Definition safe {A} (r : result A) : Prop :=
  forall e, r = Raise e -> is_Exception e = true.


(** [triple P block Q]: run from a list of records that all satisfy [P],
    the block leaves such a list; it ends with a value satisfying [Q] or
    with an exception that [except Exception] catches. *)
Definition triple (P : pyval -> Prop) {A} (block : body A) (Q : A -> Prop) : Prop :=
  forall records, Forall P records ->
    match block records with
    | (Ok a, records') => Forall P records' /\ Q a
    | (Raise e, records') => Forall P records' /\ is_Exception e = true
    end.

(** The provenance fields every record shares. *)
Definition tagged (source_file game_date record : pyval) : Prop :=
  py_get record "source_file" = Ok source_file /\
  py_get record "game_date" = Ok game_date.

(** [runs block records a records']: from [records] the block completes
    with value [a] and leaves [records']. *)
Definition runs {A} (block : body A) (records : list pyval) (a : A)
  (records' : list pyval) : Prop :=
  block records = (Ok a, records').

(** [object_at x k v]: [x] is an object that holds [v] under the key [k]. *)
Definition object_at (x : pyval) (k : string) (v : pyval) : Prop :=
  exists m, x = PDict m /\ dict_lookup k m = Some v.

Definition is_object (x : pyval) : Prop := exists m, x = PDict m.

Definition nonempty_object (x : pyval) : Prop :=
  exists m, x = PDict m /\ m <> [].

(** [lacks_key x k]: [x] has no key [k] (in particular when [x] is not an
    object at all). *)
Definition lacks_key (x : pyval) (k : string) : Prop :=
  forall m, x = PDict m -> dict_lookup k m = None.


(** A boxscore document with both team objects. *)
Definition two_teams (data home_team away_team : pyval) : Prop :=
  exists boxscore,
    object_at data "boxScoreTraditional" boxscore /\
    object_at boxscore "homeTeam" home_team /\
    object_at boxscore "awayTeam" away_team.


(** A roster entry that is an object with a [statistics] object. *)
Definition roster_entry (player : pyval) : Prop :=
  exists stats, object_at player "statistics" stats /\ is_object stats.

(** [records] holds, from position [start] on, one record per entry of
    [roster], in roster order: the record of entry [i] is numbered [i]
    and carries that entry's [personId]. *)
Definition roster_records (records : list pyval) (start : nat)
  (roster : list pyval) (home : bool) : Prop :=
  forall i player, roster !! i = Some player ->
    exists record,
      records !! (start + i) = Some record /\
      py_get record "player_index" = Ok (PInt (Z.of_nat i)) /\
      py_get record "is_home_team" = Ok (PBool home) /\
      py_get record "person_id" = py_get player "personId".

(** ** Sample data *)

Definition sample_stats : pyval :=
  PDict [("minutes", PStr "240:00"); ("points", PInt 112); ("reboundsTotal", PInt 44)].

Definition sample_player (person_id : Z) (family_name : string) : pyval :=
  PDict [("personId", PInt person_id); ("familyName", PStr family_name);
         ("statistics", PDict [("points", PInt 10)])].

Definition sample_home_team : pyval :=
  PDict [("teamId", PInt 1610612738); ("teamTricode", PStr "BOS");
         ("statistics", sample_stats); ("starters", sample_stats);
         ("players", PList [sample_player 1628369 "Tatum"; sample_player 1627759 "Brown"])].

Definition sample_away_team : pyval :=
  PDict [("teamId", PInt 1610612748); ("teamTricode", PStr "MIA");
         ("statistics", sample_stats); ("starters", sample_stats);
         ("players", PList [sample_player 1628389 "Adebayo"])].

Definition sample_boxscore : pyval :=
  PDict [("meta", PDict [("version", PInt 1); ("time", PStr "2025-04-05T03:00:00")]);
         ("boxScoreTraditional",
          PDict [("gameId", PStr "0022400752");
                 ("homeTeam", sample_home_team);
                 ("awayTeam", sample_away_team)])].

Definition sample_blob : string := "year=2025/month=04/day=04/0022400752.parquet".

Definition sample_store : gcs :=
  {[ "boxscores" := {[ sample_blob := [ {[ "raw_response" := Dumps sample_boxscore ]} ] ]} ]}.

Definition sample_records : list pyval :=
  Eval vm_compute in
    match process_single_file sample_store "boxscores" sample_blob with
    | Ok records => records
    | Raise _ => []
    end.



(** A boxscore whose only home roster entry has no [statistics]. *)
Definition roster_without_statistics : pyval :=
  PDict [("boxScoreTraditional",
          PDict [("gameId", PStr "0022400752");
                 ("homeTeam", PDict [("teamId", PInt 1610612738);
                                     ("players", PList [PDict [("personId", PInt 1628369)]])]);
                 ("awayTeam", PDict [("teamId", PInt 1610612748);
                                     ("players", PList [])])])].

(** The [raw_response] cell that [process_single_file] decodes. *)
Definition raw_response_of (storage_client : gcs) (bucket_name blob_name : string)
  : result raw_text :=
  parquet_dataframe ← download_parquet storage_client bucket_name blob_name;
  row ← iloc parquet_dataframe 0;
  column row "raw_response".

(** A partition with the sample snapshot and one whose [raw_response] is
    an error page. *)
Definition garbled_blob : string := "year=2025/month=04/day=04/0022400753.parquet".

Definition store_with_garbled : gcs :=
  {[ "boxscores" :=
       {[ sample_blob := [ {[ "raw_response" := Dumps sample_boxscore ]} ];
          garbled_blob := [ {[ "raw_response" := NotJson "<html>502 Bad Gateway</html>" ]} ] ]} ]}.

(** A processor whose client can be handed to the workers. *)
Definition sample_processor (store : gcs) : NBASilverProcessor :=
  {| storage_client := store;
     project := "nba-analytics";
     bucket_name := "boxscores";
     dataset_name := "silver";
     table_name := "boxscore_records";
     date_parameter := "2025-04-04";
     date_path := "year=2025/month=04/day=04";
     client_pickles := true |}.

(** The same processor with the client that [__init__] builds. *)
Definition deployed_processor (store : gcs) : NBASilverProcessor :=
  {| storage_client := store;
     project := "nba-analytics";
     bucket_name := "boxscores";
     dataset_name := "silver";
     table_name := "boxscore_records";
     date_parameter := "2025-04-04";
     date_path := "year=2025/month=04/day=04";
     client_pickles := false |}.

(** The consecutive chunks of [size] elements of a list (the last one
    may be shorter), as both chunked loops build them. *)
Definition chunks {A} (l : list A) (size : nat) : list (list A) :=
  map (fun i => slice l i (i + size)) (py_range 0 (length l) size).

(** The number of chunks: the length divided by the size, rounded up. *)
Definition chunk_count (n size : nat) : nat := (n + (size - 1)) / size.

Definition table_ref_of (self : NBASilverProcessor) : string :=
  (project self ++ "." ++ dataset_name self ++ "." ++ table_name self)%string.

(** The second load job fails, all others succeed. *)
Definition second_job_fails (n : nat) : bool := Nat.eqb n 1.

Definition empty_warehouse : bigquery := {| jobs := []; tables := ∅ |}.

(** ** Vocabulary of the fetch stage *)

(** The events between two states of the world. *)
Definition new_events (w w' : Bronze.world) : list Bronze.event :=
  drop (length (Bronze.trace w)) (Bronze.trace w').

Definition is_get (e : Bronze.event) : bool :=
  match e with Bronze.Get _ => true | _ => false end.

Definition is_upload (e : Bronze.event) : bool :=
  match e with Bronze.Upload _ _ _ => true | _ => false end.

Definition count_gets (evs : list Bronze.event) : nat :=
  length (filter (fun e => is_get e = true) evs).

Definition count_uploads (evs : list Bronze.event) : nat :=
  length (filter (fun e => is_upload e = true) evs).

(** [appends P c]: the computation [c] only adds events to the trace, and
    every event it adds satisfies [P]. *)
Definition appends {A} (P : Bronze.event -> Prop) (c : Bronze.io A) : Prop :=
  forall w,
    exists evs,
      Bronze.trace (snd (c w)) = Bronze.trace w ++ evs /\ Forall P evs.

(** A GET carries the timeout [t]; other events are unconstrained. *)
Definition get_timeout (t : option Z) (e : Bronze.event) : Prop :=
  match e with
  | Bronze.Get r => Bronze.timeout r = t
  | _ => True
  end.

(** A failed attempt number [k] of a fetch with base delay [retry_delay]:
    the GET, then the wait. *)
Definition failed_attempt (r : Bronze.request) (retry_delay k : nat)
  : list Bronze.event :=
  [Bronze.Get r; Bronze.Sleep (inject_Z (Z.of_nat (retry_delay * k)))].

(** The blob a boxscore snapshot is written to. *)
Definition blob_of (py_str : pyval -> string) (self : Bronze.NBABoxscoreProcessor)
  (game_id : pyval) : string :=
  (Bronze.date_path self ++ "/" ++ py_str game_id ++ ".parquet")%string.

(** The object [upload] stores. *)
Definition stored (bucket blob : string) (df : frame) (s : gcs) : gcs :=
  <[bucket := <[blob := df]> (default ∅ (s !! bucket))]> s.

(** A processor that can be handed to the workers. *)
Definition sample_boxscore_processor : Bronze.NBABoxscoreProcessor :=
  {| Bronze.self_proxies := [("http", "http://gate.smartproxy.com:7000");
                             ("https", "http://gate.smartproxy.com:7000")];
     Bronze.self_headers := Bronze.browser_headers;
     Bronze.date_path := "year=2025/month=04/day=04";
     Bronze.input_bucket := "scoreboards";
     Bronze.output_bucket := "boxscores";
     Bronze.client_pickles := true |}.

(** The same processor with the client that [__init__] builds. *)
Definition deployed_boxscore_processor : Bronze.NBABoxscoreProcessor :=
  {| Bronze.self_proxies := [("http", "http://gate.smartproxy.com:7000");
                             ("https", "http://gate.smartproxy.com:7000")];
     Bronze.self_headers := Bronze.browser_headers;
     Bronze.date_path := "year=2025/month=04/day=04";
     Bronze.input_bucket := "scoreboards";
     Bronze.output_bucket := "boxscores";
     Bronze.client_pickles := false |}.

(** [str] on the values used as game ids below. *)
Definition sample_str (x : pyval) : string :=
  match x with
  | PStr s => s
  | _ => "None"
  end.

Definition ok_response : Bronze.response :=
  {| Bronze.status_code := 200; Bronze.text := Dumps sample_boxscore |}.

(** An upstream that fails the first two calls and then answers. *)
Definition fails_twice : Bronze.environment :=
  {| Bronze.http_get := fun n _ => if (n <? 4)%nat then None else Some ok_response;
     Bronze.upload_fails := fun _ => false |}.

(** An upstream that never answers. *)
Definition always_down : Bronze.environment :=
  {| Bronze.http_get := fun _ _ => None;
     Bronze.upload_fails := fun _ => false |}.

Definition empty_world : Bronze.world := {| Bronze.store := ∅; Bronze.trace := [] |}.

(** [starts_with e c]: the first event [c] adds to the trace is [e]. *)
Definition starts_with {A} (e : Bronze.event) (c : Bronze.io A) : Prop :=
  forall w, exists evs, Bronze.trace (snd (c w)) = Bronze.trace w ++ e :: evs.

Definition any_event (e : Bronze.event) : Prop := True.

(** An entry of [resultSets] that has a name other than [GameHeader]. *)
Definition named_otherwise (r : pyval) : Prop :=
  exists name, object_at r "name" name /\ py_eq_str name "GameHeader" = false.


Definition sample_partition : Bronze.partition :=
  {| Bronze.year := "2025"; Bronze.month := "04"; Bronze.day := "04" |}.

(** A scoreboard whose [resultSets] holds no [GameHeader] entry. *)
Definition scoreboard_without_game_header : pyval :=
  PDict [("resource", PStr "scoreboardV2");
         ("resultSets",
          PList [PDict [("name", PStr "LineScore");
                        ("headers", PList [PStr "GAME_ID"]);
                        ("rowSet", PList [])]])].

(** A scoreboard whose only [resultSets] entry has no [name]. *)
Definition scoreboard_with_unnamed_entry : pyval :=
  PDict [("resource", PStr "scoreboardV2");
         ("resultSets",
          PList [PDict [("headers", PList [PStr "GAME_ID"]);
                        ("rowSet", PList [])]])].

Definition scoreboard_world (scoreboard : pyval) : Bronze.world :=
  {| Bronze.store :=
       {[ "scoreboards" :=
            {[ "year=2025/month=04/day=04/scoreboard.parquet"
               := [ {[ "raw_response" := Dumps scoreboard ]} ] ]} ]};
     Bronze.trace := [] |}.

(** ** Vocabulary of the further properties *)

(** The discriminant of a record. *)
Definition has_block_type (block_type : string) (record : pyval) : Prop :=
  py_get record "block_type" = Ok (PStr block_type).

(** [adds_at_most n block]: the block appends at most [n] records. *)
Definition adds_at_most (n : nat) {A} (block : body A) : Prop :=
  forall records, length (snd (block records)) <= length records + n.

(** [copies record source fields]: under each record key of [fields],
    [record] holds what [source.get] gives for the paired source key. *)
Definition copies (record source : pyval) (fields : list (string * string)) : Prop :=
  Forall (fun f => py_get record (fst f) = py_get source (snd f)) fields.

(** The statistics every boxscore section carries, as record key and
    source key. *)
Definition box_fields : list (string * string) :=
  [("minutes", "minutes");
   ("field_goals_made", "fieldGoalsMade");
   ("field_goals_attempted", "fieldGoalsAttempted");
   ("field_goals_percentage", "fieldGoalsPercentage");
   ("three_pointers_made", "threePointersMade");
   ("three_pointers_attempted", "threePointersAttempted");
   ("three_pointers_percentage", "threePointersPercentage");
   ("free_throws_made", "freeThrowsMade");
   ("free_throws_attempted", "freeThrowsAttempted");
   ("free_throws_percentage", "freeThrowsPercentage");
   ("rebounds_offensive", "reboundsOffensive");
   ("rebounds_defensive", "reboundsDefensive");
   ("rebounds_total", "reboundsTotal");
   ("assists", "assists");
   ("steals", "steals");
   ("blocks", "blocks");
   ("turnovers", "turnovers");
   ("fouls_personal", "foulsPersonal");
   ("points", "points")].

Definition plus_minus_field : list (string * string) :=
  [("plus_minus_points", "plusMinusPoints")].

Definition team_info_fields : list (string * string) :=
  [("team_id", "teamId"); ("team_city", "teamCity"); ("team_name", "teamName");
   ("team_tricode", "teamTricode"); ("team_slug", "teamSlug")].

Definition player_fields : list (string * string) :=
  [("person_id", "personId"); ("first_name", "firstName");
   ("family_name", "familyName"); ("name_i", "nameI");
   ("player_slug", "playerSlug"); ("position", "position");
   ("comment", "comment"); ("jersey_num", "jerseyNum")].

Definition meta_fields : list (string * string) :=
  [("version", "version"); ("request", "request"); ("time", "time")].

Definition game_header_fields : list (string * string) :=
  [("game_id", "gameId"); ("away_team_id", "awayTeamId");
   ("home_team_id", "homeTeamId")].

(** A string without the character [c]. *)
Definition free_of (c : ascii) (s : string) : Prop :=
  ~ In c (list_ascii_of_string s).

(** A path component that can stand in a partition path. *)
Definition plain (s : string) : Prop := free_of "/" s /\ free_of "=" s.

(** A non-empty string of the digits [0] to [9], as [strftime] prints
    [%Y], [%m] and [%d]. *)
Definition is_digit (c : ascii) : bool :=
  let n := nat_of_ascii c in (48 <=? n)%nat && (n <=? 57)%nat.

Fixpoint all_digits (s : string) : bool :=
  match s with
  | EmptyString => true
  | String c s' => is_digit c && all_digits s'
  end.

Definition digits (s : string) : Prop := all_digits s = true /\ s <> ""%string.

(** A number of one digit with a zero before it, a longer one as it is. *)
Definition padded2 (s : string) : string :=
  if (String.length s <? 2)%nat then String "0" s else s.

(** Every record carries [game_date]. *)
Definition dated (game_date : pyval) (records : list pyval) : Prop :=
  Forall (fun record => py_get record "game_date" = Ok game_date) records.

(** The boxscore object of the sample document. *)
Definition sample_box : pyval :=
  PDict [("gameId", PStr "0022400752");
         ("homeTeam", sample_home_team);
         ("awayTeam", sample_away_team)].

(** [records] holds, from position [start] on, the records of [roster]
    in order, each copying the entry's identity fields and the fields of
    its [statistics], with the given team and game ids. *)
Definition roster_copied (records : list pyval) (start : nat)
  (roster : list pyval) (team_id game_id : result pyval) : Prop :=
  forall i player stats,
    roster !! i = Some player -> object_at player "statistics" stats ->
    exists record,
      records !! (start + i) = Some record /\
      copies record player player_fields /\
      copies record stats (box_fields ++ plus_minus_field) /\
      py_get record "team_id" = team_id /\
      py_get record "game_id" = game_id.

(** The rows a table holds (none when the table does not exist). *)
Definition rows (w : bigquery) (table_ref : string) : list pyval :=
  default [] (tables w !! table_ref).

(** The rows of the chunks whose load job succeeds, the first job being
    number [first_job]. *)
Definition loaded_rows (job_fails : nat -> bool) (first_job : nat)
  (chunk_list : list (list pyval)) : list pyval :=
  concat (imap (fun k chunk => if job_fails (first_job + k) then [] else chunk)
            chunk_list).

Definition no_job_fails (n : nat) : bool := false.
Definition every_job_fails (n : nat) : bool := true.

(** ** Vocabulary of the further fetch-stage properties *)

(** The first position of the string [s] in a list of values. *)
Definition first_position (s : string) (l : list pyval) (j : nat) : Prop :=
  l !! j = Some (PStr s) /\ forall i, i < j -> l !! i <> Some (PStr s).

(** A row that is a list holding [cell] at position [j]. *)
Definition row_cell (j : nat) (row cell : pyval) : Prop :=
  exists cells, row = PList cells /\ cells !! j = Some cell.

(** The request and the blob of the scoreboard of a day. *)
Definition scoreboard_request_of (proxy_config : list (string * string))
  (yesterday : Bronze.partition) : Bronze.request :=
  Bronze.scoreboard_request proxy_config (Stage.date_parameter_of yesterday).

Definition scoreboard_blob_of (yesterday : Bronze.partition) : string :=
  (Stage.date_path_of yesterday ++ "/scoreboard.parquet")%string.

Definition scoreboard_error : string :=
  "ERROR: Failed to get NBA scoreboard data after 3 attempts".

(** An upstream and a store that never fail: every GET is answered with
    a status that [raise_for_status] accepts and a body that decodes,
    every upload goes through. *)
Definition healthy (env : Bronze.environment) : Prop :=
  (forall n r, exists response payload,
     Bronze.http_get env n r = Some response /\
     Bronze.raise_for_status response = Ok tt /\
     Bronze.response_json response = Ok payload) /\
  (forall n, Bronze.upload_fails env n = false).

(** A scoreboard with a [GameHeader] entry after another entry, and a
    malformed entry behind it. *)
Definition sample_scoreboard : pyval :=
  PDict [("resource", PStr "scoreboardV2");
         ("resultSets",
          PList [PDict [("name", PStr "LineScore");
                        ("headers", PList [PStr "GAME_ID"]);
                        ("rowSet", PList [])];
                 PDict [("name", PStr "GameHeader");
                        ("headers", PList [PStr "GAME_DATE_EST"; PStr "GAME_ID"]);
                        ("rowSet",
                         PList [PList [PStr "2025-04-04"; PStr "0022400752"];
                                PList [PStr "2025-04-04"; PStr "0022400753"]])];
                 PNone])].

(** An upstream that answers every call with the sample boxscore. *)
Definition always_up : Bronze.environment :=
  {| Bronze.http_get := fun _ _ => Some ok_response;
     Bronze.upload_fails := fun _ => false |}.

(** An upstream that answers the scoreboard call with status 503 and a
    JSON error body. *)
Definition error_page : pyval := PDict [("Message", PStr "Service Unavailable")].

Definition answers_503 : Bronze.environment :=
  {| Bronze.http_get :=
       fun _ _ => Some {| Bronze.status_code := 503; Bronze.text := Dumps error_page |};
     Bronze.upload_fails := fun _ => false |}.

(** An upstream that never answers. *)
Definition unreachable (env : Bronze.environment) : Prop :=
  forall n r, Bronze.http_get env n r = None.

(** The store holds a snapshot at [bucket]/[blob]: an object whose
    [raw_response] is the dump of a document. *)
Definition holds_snapshot (s : gcs) (bucket blob : string) : Prop :=
  exists payload, raw_response_of s bucket blob = Ok (Dumps payload).

(** Every object of [bucket] whose name starts with [pfx] is a snapshot. *)
Definition snapshots_under (s : gcs) (bucket pfx : string) : Prop :=
  forall blob df,
    startswith blob pfx = true ->
    download_parquet s bucket blob = Ok df ->
    holds_snapshot s bucket blob.

(** A scoreboard whose [GameHeader] entry does not list [GAME_ID]. *)
Definition scoreboard_without_game_id : pyval :=
  PDict [("resource", PStr "scoreboardV2");
         ("resultSets",
          PList [PDict [("name", PStr "GameHeader");
                        ("headers", PList [PStr "GAME_DATE_EST"]);
                        ("rowSet", PList [PList [PStr "2025-04-04"]])]])].

(** A store whose only snapshot lies outside any partition path. *)
Definition undated_store : gcs :=
  {[ "boxscores" :=
       {[ "0022400752.parquet" := [ {[ "raw_response" := Dumps sample_boxscore ]} ] ]} ]}.

(** The scoreboard call number [n] fails: the upstream does not answer
    it, or answers with a body that does not decode. *)
Definition attempt_fails (env : Bronze.environment) (n : nat) (r : Bronze.request)
  : Prop :=
  Bronze.http_get env n r = None \/
  exists response s,
    Bronze.http_get env n r = Some response /\ Bronze.text response = NotJson s.


(** The events of one game in a batch: the pacing wait, then [failures]
    failed attempts, each followed by its wait of 3, 6 or 9 seconds,
    then - unless all 3 attempts failed - the attempt that succeeds and
    the upload of its payload to the game's blob. *)
Definition game_segment (py_str : pyval -> string) (self : Bronze.NBABoxscoreProcessor)
  (game_id : pyval) (failures : nat) (evs : list Bronze.event) : Prop :=
  failures <= 3 /\
  exists last,
    evs = Bronze.Sleep (1 # 10)
          :: flat_map (failed_attempt (Bronze.boxscore_request self game_id) 3)
               (seq 1 failures) ++ last /\
    if (failures <? 3)%nat
    then exists payload,
           last = [Bronze.Get (Bronze.boxscore_request self game_id);
                   Bronze.Upload (Bronze.output_bucket self) (blob_of py_str self game_id)
                     (Bronze.bronze_layer_df payload)]
    else last = [].

(** The events of a run split game by game, in the order of the game
    ids. *)
Definition game_by_game (py_str : pyval -> string) (self : Bronze.NBABoxscoreProcessor)
  (game_ids : list pyval) (segments : list (list Bronze.event)) : Prop :=
  Forall2 (fun game_id evs =>
             (exists failures, game_segment py_str self game_id failures evs) /\
             1 <= count_gets evs <= 3 /\
             count_uploads evs <= 1)
    game_ids segments.


(** An object without the key [k]. *)
Definition has_no_key (record : pyval) (k : string) : Prop :=
  exists m, record = PDict m /\ dict_lookup k m = None.

(** The first record is flagged as the home team's and the second as the
    away team's. *)
Definition flagged_home_away (home away : pyval) : Prop :=
  py_get home "is_home_team" = Ok (PBool true) /\
  py_get away "is_home_team" = Ok (PBool false).

(** Both records carry the id of their team and the game id of the
    boxscore. *)
Definition keyed_by_team (home away home_team away_team boxscore : pyval) : Prop :=
  py_get home "team_id" = py_get home_team "teamId" /\
  py_get away "team_id" = py_get away_team "teamId" /\
  py_get home "game_id" = py_get boxscore "gameId" /\
  py_get away "game_id" = py_get boxscore "gameId".
(** * Properties *)

(** ** The model on small inputs *)

Example split_path :
  str_split "/" "year=2025/month=2/day=09/0022400752.parquet"
  = ["year=2025"; "month=2"; "day=09"; "0022400752.parquet"]%string.
Proof. reflexivity. Qed.

Example zfill_pads : zfill 2 "2" = "02"%string /\ zfill 2 "-" = "-0"%string /\
                     zfill 2 "123" = "123"%string.
Proof. repeat split. Qed.

(** ['\u00e9'.zfill(2)] is the zero and the letter: one character, two
    bytes. *)
Example zfill_counts_characters :
  zfill 2 (String (ascii_of_nat 195) (String (ascii_of_nat 169) ""))
  = String "0" (String (ascii_of_nat 195) (String (ascii_of_nat 169) "")).
Proof. reflexivity. Qed.

Example game_date_padded :
  parse_game_date "year=2025/month=2/day=09/0022400752.parquet"
  = Ok (PStr "2025-02-09").
Proof. reflexivity. Qed.

Example game_date_missing_day :
  parse_game_date "year=2025/month=2/0022400752.parquet" = Ok PNone.
Proof. reflexivity. Qed.

Example range_by_four : py_range 0 10 4 = [0; 4; 8].
Proof. reflexivity. Qed.

Example sample_record_count : length sample_records = 11.
Proof. reflexivity. Qed.

Example truthiness :
  map truthy [PNone; PInt 0; PStr ""; PList []; PDict []; PInt 7; PStr "0"]
  = [false; false; false; false; false; true; true].
Proof. reflexivity. Qed.

(** ** The error monad *)

Lemma safe_Ok {A} (a : A) : safe (Ok a).
Proof. intros e He. discriminate. Qed.

Lemma safe_py_get x k : safe (py_get x k).
Proof. intros e. destruct x; simpl; intros [= <-]; reflexivity. Qed.

Lemma safe_py_iter x : safe (py_iter x).
Proof. intros e. destruct x; simpl; intros [= <-]; reflexivity. Qed.

Lemma safe_bind {A B} (r : result A) (f : A -> result B) :
  safe r -> (forall a, r = Ok a -> safe (f a)) -> safe (r ≫= f).
Proof.
  intros Hr Hf e. destruct r as [a|e']; simpl.
  - apply (Hf a eq_refl).
  - intros [= <-]. apply Hr. reflexivity.
Qed.

Lemma mapM_Ok {A B} (f : A -> result B) xs ys :
  mapM f xs = Ok ys -> Forall2 (fun x y => f x = Ok y) xs ys.
Proof.
  revert ys. induction xs as [|x xs IH]; simpl; intros ys.
  - intros [= <-]. constructor.
  - destruct (f x) as [y|e] eqn:Hx; simpl; [|discriminate].
    destruct (mapM f xs) as [ys'|e]; simpl; [|discriminate].
    intros [= <-]. constructor; auto.
Qed.

Lemma mapM_Forall2 {A B} (f : A -> result B) xs ys :
  Forall2 (fun x y => f x = Ok y) xs ys -> mapM f xs = Ok ys.
Proof. induction 1 as [|x y xs ys Hx _ IH]; simpl; [done|]. by rewrite Hx, IH. Qed.

Lemma mapM_Raise {A B} (f : A -> result B) xs e :
  mapM f xs = Raise e -> exists x, x ∈ xs /\ f x = Raise e.
Proof.
  induction xs as [|x xs IH]; simpl; [discriminate|].
  destruct (f x) as [y|e'] eqn:Hx; simpl.
  - destruct (mapM f xs) as [ys'|e'']; simpl; [discriminate|].
    intros [= <-]. destruct IH as (x' & Hin & Hx'); [done|].
    exists x'. split; [by right|done].
  - intros [= <-]. exists x. split; [by left|done].
Qed.

Lemma mapM_raises {A B} (f : A -> result B) xs x e :
  x ∈ xs -> f x = Raise e -> exists e', mapM f xs = Raise e'.
Proof.
  induction xs as [|x0 xs IH]; [by intros ?%elem_of_nil|].
  intros [->|Hin]%elem_of_cons Hx; simpl.
  - rewrite Hx. by exists e.
  - destruct (f x0) as [y|e0]; simpl; [|by exists e0].
    destruct (IH Hin Hx) as [e' ->]. by exists e'.
Qed.

(** ** Dict displays *)

Lemma dict_set_fresh k v m :
  k ∉ m.*1 -> dict_set k v m = (m ++ [(k, v)])%list.
Proof.
  induction m as [|[k' v'] m IH]; simpl; [done|].
  intros Hk. apply not_elem_of_cons in Hk as [Hne Hk].
  destruct (String.eqb_spec k k') as [->|_]; [done|]. by rewrite IH.
Qed.

Lemma dict_of_items_NoDup kvs :
  NoDup kvs.*1 -> dict_of_items kvs = kvs.
Proof.
  unfold dict_of_items.
  assert (forall acc, NoDup (acc ++ kvs).*1 ->
            fold_left (fun m kv => dict_set (fst kv) (snd kv) m) kvs acc
            = (acc ++ kvs)%list) as H.
  { induction kvs as [|[k v] kvs IH]; intros acc Hnd; simpl.
    - by rewrite app_nil_r.
    - rewrite dict_set_fresh.
      + rewrite IH; rewrite <- app_assoc; done.
      + rewrite fmap_app in Hnd. apply NoDup_app in Hnd as (_ & Hd & _).
        intros Hin. apply (Hd _ Hin). simpl. by left. }
  intros Hnd. by apply (H []).
Qed.

Lemma dict_lookup_elem_of k v m :
  NoDup m.*1 -> (k, v) ∈ m -> dict_lookup k m = Some v.
Proof.
  induction m as [|[k' v'] m IH]; [by intros _ ?%elem_of_nil|].
  simpl. intros [Hk Hnd]%NoDup_cons [[= -> ->]|Hin]%elem_of_cons.
  - by rewrite String.eqb_refl.
  - destruct (String.eqb_spec k k') as [->|_]; [|by apply IH].
    exfalso. apply Hk. by apply (list_elem_of_fmap_2 fst _ (k', v)).
Qed.

Lemma display_items (entries : list (string * result pyval))
  (kvs : list (string * pyval)) :
  Forall2 (fun ke kv => (v ← snd ke; Ok (fst ke, v)) = Ok kv) entries kvs ->
  kvs.*1 = entries.*1 /\
  forall k r, (k, r) ∈ entries -> exists v, r = Ok v /\ (k, v) ∈ kvs.
Proof.
  induction 1 as [|[k' r'] [k'' v'] es kvs' Hx _ [IHk IHv]]; simpl.
  - split; [done|]. by intros k r ?%elem_of_nil.
  - simpl in Hx. destruct r' as [v0|]; simpl in Hx; [|discriminate].
    injection Hx as <- <-. split; [by f_equal|].
    intros k r [[= -> ->]|Hin]%elem_of_cons.
    + exists v0. split; [done|by left].
    + destruct (IHv k r Hin) as (v & -> & Hv). exists v. split; [done|by right].
Qed.

(** A display with distinct keys holds, under each key, the value of
    that key's expression. *)
Lemma dict_display_get entries d k r :
  dict_display entries = Ok d ->
  NoDup entries.*1 ->
  (k, r) ∈ entries ->
  py_get d k = r.
Proof.
  unfold dict_display. intros Hd Hnd Hin.
  destruct (mapM _ entries) as [kvs|e] eqn:Hm; simpl in Hd; [|discriminate].
  injection Hd as <-. apply mapM_Ok, display_items in Hm as [Hk Hv].
  destruct (Hv k r Hin) as (v & -> & Hkv).
  simpl. rewrite dict_of_items_NoDup by (by rewrite Hk).
  rewrite (dict_lookup_elem_of k v); [done|by rewrite Hk|done].
Qed.

Lemma safe_dict_display entries :
  Forall (fun ke => safe (snd ke)) entries -> safe (dict_display entries).
Proof.
  intros Hs e. unfold dict_display.
  destruct (mapM _ entries) as [kvs|e'] eqn:Hm; simpl; [discriminate|].
  intros [= <-]. apply mapM_Raise in Hm as ([k r] & Hin & Hr).
  rewrite Forall_forall in Hs. specialize (Hs _ Hin). simpl in *.
  destruct r as [v|e'']; simpl in Hr; [discriminate|].
  injection Hr as <-. by apply Hs.
Qed.

(** ** Blocks that fill [records] *)

Section Triples.
Context (P : pyval -> Prop).

Lemma triple_pass : triple P pass (fun _ => True).
Proof. intros records HP. simpl. auto. Qed.

Lemma triple_eval {A} (r : result A) :
  safe r -> triple P (eval r) (fun a => r = Ok a).
Proof.
  intros Hs records HP. unfold eval. destruct r as [a|e]; [done|].
  split; [done|]. by apply Hs.
Qed.

Lemma triple_append record : P record -> triple P (append record) (fun _ => True).
Proof.
  intros Hr records HP. simpl. split; [|done].
  apply Forall_app. split; [done|]. by constructor.
Qed.

Lemma triple_bind {A B} (c : body A) (f : A -> body B) Q R :
  triple P c Q -> (forall a, Q a -> triple P (f a) R) -> triple P (c ≫= f) R.
Proof.
  intros Hc Hf records HP. specialize (Hc records HP).
  unfold mbind, body_bind. destruct (c records) as [[a|e] records']; [|done].
  destruct Hc as [HP' HQ]. by apply Hf.
Qed.

Lemma triple_weaken {A} (c : body A) (Q R : A -> Prop) :
  triple P c Q -> (forall a, Q a -> R a) -> triple P c R.
Proof.
  intros Hc HQR records HP. specialize (Hc records HP).
  destruct (c records) as [[a|e] records']; [|done].
  destruct Hc. auto.
Qed.

Lemma triple_bind_eval {A B} (r : result A) (f : A -> body B) R :
  safe r -> (forall a, r = Ok a -> triple P (f a) R) -> triple P (eval r ≫= f) R.
Proof. intros Hs Hf. eapply triple_bind; [by apply triple_eval|done]. Qed.

Lemma triple_if {A} (c : bool) (b1 b2 : body A) Q :
  (c = true -> triple P b1 Q) -> (c = false -> triple P b2 Q) ->
  triple P (if c then b1 else b2) Q.
Proof. destruct c; auto. Qed.

Lemma triple_for_each {A} (xs : list A) (f : A -> body unit) :
  (forall x, triple P (f x) (fun _ => True)) ->
  triple P (for_each xs f) (fun _ => True).
Proof.
  intros Hf. induction xs as [|x xs IH]; simpl.
  - apply triple_pass.
  - eapply triple_bind; [apply Hf|]. intros _ _. apply IH.
Qed.

(** A display that is evaluated and appended. *)
Lemma triple_record (r : result pyval) :
  safe r -> (forall record, r = Ok record -> P record) ->
  triple P (record ← eval r; append record) (fun _ => True).
Proof.
  intros Hs Hr. apply triple_bind_eval; [done|].
  intros record Hrec. apply triple_append. by apply Hr.
Qed.

(** The frame of an extractor returns the list its block leaves. *)
Lemma try_except_return_records_spec (block : body unit) Q :
  triple P block Q ->
  exists records, try_except_return_records block = Ok records /\ Forall P records.
Proof.
  intros Hb. specialize (Hb [] (Forall_nil_2 _)).
  unfold try_except_return_records.
  destruct (block []) as [[[]|e] records]; destruct Hb as [HP H].
  - by exists records.
  - rewrite H. by exists records.
Qed.

End Triples.

(** ** The six extractors return tagged records *)

Lemma safe_players team : safe (players ← py_get team "players"; py_iter players).
Proof. apply safe_bind; [apply safe_py_get|]. intros ? _. apply safe_py_iter. Qed.

Ltac solve_elem :=
  repeat first [apply list_elem_of_here | apply list_elem_of_further].

Ltac solve_keys := apply (bool_decide_unpack _); vm_compute; exact I.

Ltac solve_safe_entries :=
  repeat (apply Forall_cons_2; [first [apply safe_Ok | apply safe_py_get]|]);
  apply Forall_nil_2.

Lemma display_tagged entries d source_file game_date :
  dict_display entries = Ok d ->
  NoDup entries.*1 ->
  ("source_file", Ok source_file) ∈ entries ->
  ("game_date", Ok game_date) ∈ entries ->
  tagged source_file game_date d.
Proof. intros Hd Hnd H1 H2. split; by eapply dict_display_get. Qed.

(** Discharges the goal left for a record display. *)
Ltac tagged_record :=
  apply triple_record;
  [ apply safe_dict_display; solve_safe_entries
  | intros ? ?; eapply display_tagged; [eassumption | solve_keys | solve_elem | solve_elem] ].

Ltac tagged_block :=
  repeat lazymatch goal with
    | |- triple _ (mbind _ (eval (dict_display _))) _ => tagged_record
    | |- triple _ (mbind _ (eval _)) _ =>
        apply triple_bind_eval; [first [apply safe_py_get | apply safe_players] | intros ? _]
    | |- triple _ (mbind _ (if _ then _ else _)) _ =>
        eapply triple_bind; [apply triple_if; intros _ | intros _ _]
    | |- triple _ (if _ then _ else _) _ => apply triple_if; intros _
    | |- triple _ pass _ => apply triple_pass
    end.

Lemma extract_meta_data_tagged data source_file game_date :
  exists records, extract_meta_data data source_file game_date = Ok records /\
    Forall (tagged source_file game_date) records.
Proof.
  eapply try_except_return_records_spec with (Q := fun _ => True).
  tagged_block.
Qed.

Lemma extract_game_header_tagged data source_file game_date :
  exists records, extract_game_header data source_file game_date = Ok records /\
    Forall (tagged source_file game_date) records.
Proof.
  eapply try_except_return_records_spec with (Q := fun _ => True).
  tagged_block.
Qed.

Lemma extract_team_info_tagged data source_file game_date :
  exists records, extract_team_info data source_file game_date = Ok records /\
    Forall (tagged source_file game_date) records.
Proof.
  eapply try_except_return_records_spec with (Q := fun _ => True).
  tagged_block.
Qed.

Lemma extract_team_statistics_tagged data source_file game_date :
  exists records, extract_team_statistics data source_file game_date = Ok records /\
    Forall (tagged source_file game_date) records.
Proof.
  eapply try_except_return_records_spec with (Q := fun _ => True).
  tagged_block.
Qed.

Lemma extract_team_starters_tagged data source_file game_date :
  exists records, extract_team_starters data source_file game_date = Ok records /\
    Forall (tagged source_file game_date) records.
Proof.
  eapply try_except_return_records_spec with (Q := fun _ => True).
  tagged_block.
Qed.

Lemma home_player_record_safe game_id team_id source_file game_date i player :
  safe (home_player_record game_id team_id source_file game_date i player).
Proof.
  apply safe_bind; [apply safe_py_get|]. intros stats _.
  apply safe_dict_display. solve_safe_entries.
Qed.

Lemma away_player_record_safe game_id team_id source_file game_date i player :
  safe (away_player_record game_id team_id source_file game_date i player).
Proof.
  apply safe_bind; [apply safe_py_get|]. intros stats _.
  apply safe_dict_display. solve_safe_entries.
Qed.

Lemma home_player_record_tagged game_id team_id source_file game_date i player record :
  home_player_record game_id team_id source_file game_date i player = Ok record ->
  tagged source_file game_date record.
Proof.
  unfold home_player_record.
  destruct (py_get player "statistics") as [stats|]; simpl; [|discriminate].
  intros Hd. eapply display_tagged; [eassumption | solve_keys | solve_elem | solve_elem].
Qed.

Lemma away_player_record_tagged game_id team_id source_file game_date i player record :
  away_player_record game_id team_id source_file game_date i player = Ok record ->
  tagged source_file game_date record.
Proof.
  unfold away_player_record.
  destruct (py_get player "statistics") as [stats|]; simpl; [|discriminate].
  intros Hd. eapply display_tagged; [eassumption | solve_keys | solve_elem | solve_elem].
Qed.

Lemma extract_player_statistics_tagged data source_file game_date :
  exists records, extract_player_statistics data source_file game_date = Ok records /\
    Forall (tagged source_file game_date) records.
Proof.
  eapply try_except_return_records_spec with (Q := fun _ => True).
  tagged_block.
  eapply triple_bind.
  { apply triple_for_each. intros [i player]. apply triple_record.
    - apply home_player_record_safe.
    - intros record. apply home_player_record_tagged. }
  intros _ _. tagged_block.
  apply triple_for_each. intros [i player]. apply triple_record.
  - apply away_player_record_safe.
  - intros record. apply away_player_record_tagged.
Qed.

(** ** Recovering the game date from the blob path *)

Lemma str_split_cons sep s : exists seg rest, str_split sep s = seg :: rest.
Proof.
  induction s as [|c s (seg & rest & IH)]; simpl; [by eexists _, _|].
  destruct (Ascii.eqb c sep); [by eexists _, _|].
  rewrite IH. by eexists _, _.
Qed.

(** A component that starts with a [key=] prefix has a second field. *)
Lemma split_after_prefix (p part : string) :
  (exists p', p = (p' ++ "=")%string /\ forall c, In c (list_ascii_of_string p') -> c <> "="%char) ->
  startswith part p = true ->
  exists v, str_list_getitem (str_split "=" part) 1 = Ok v.
Proof.
  intros (p' & -> & Hp'). revert part.
  induction p' as [|c p' IH]; intros [|c' part]; unfold startswith;
    try change ("" +:+ "=")%string with "="%string;
    try change (String c p' +:+ "=")%string with (String c (p' +:+ "="));
    cbn [String.prefix]; try done.
  - destruct (ascii_dec "=" c') as [<-|]; [|done]. intros _.
    simpl. destruct (str_split_cons "=" part) as (seg & rest & ->). by exists seg.
  - destruct (ascii_dec c c') as [<-|]; [|done]. intros Hpre.
    assert (c <> "="%char) as Hc by (apply Hp'; by left).
    destruct (IH (fun c0 H => Hp' c0 (or_intror H)) part Hpre) as [v Hv].
    cbn [str_split]. destruct (Ascii.eqb_spec c "=") as [?|_]; [done|].
    destruct (str_split_cons "=" part) as (seg & rest & Hs).
    rewrite Hs in Hv |- *. by exists v.
Qed.

Ltac solve_key_prefix p :=
  exists p; split; [reflexivity|];
  simpl; intros c Hc;
  repeat (destruct Hc as [<-|Hc]; [discriminate|]); destruct Hc.

Lemma date_component_step_returns ymd part :
  returns (date_component_step ymd part).
Proof.
  destruct ymd as [[y m] d]. unfold date_component_step.
  destruct (startswith part "year=") eqn:Hy.
  { destruct (split_after_prefix "year=" part) as [v ->]; [solve_key_prefix "year"%string|done|].
    by eexists. }
  destruct (startswith part "month=") eqn:Hm.
  { destruct (split_after_prefix "month=" part) as [v ->]; [solve_key_prefix "month"%string|done|].
    by eexists. }
  destruct (startswith part "day=") eqn:Hd.
  { destruct (split_after_prefix "day=" part) as [v ->]; [solve_key_prefix "day"%string|done|].
    by eexists. }
  by eexists.
Qed.

Lemma date_components_returns parts ymd : returns (date_components ymd parts).
Proof.
  revert ymd. induction parts as [|part parts IH]; intros ymd; simpl; [by eexists|].
  destruct (date_component_step_returns ymd part) as [ymd' ->]. simpl. apply IH.
Qed.

Lemma parse_game_date_returns blob_name : returns (parse_game_date blob_name).
Proof.
  unfold parse_game_date.
  destruct (date_components_returns (str_split "/" blob_name) (None, None, None))
    as [ymd ->].
  by eexists.
Qed.

(** ** Blocks that complete *)

Lemma runs_eval {A} (r : result A) a records :
  r = Ok a -> runs (eval r) records a records.
Proof. by intros ->. Qed.

Lemma runs_pass records : runs pass records tt records.
Proof. done. Qed.

Lemma runs_append record records :
  runs (append record) records tt (records ++ [record]).
Proof. done. Qed.

Lemma runs_bind {A B} (c : body A) (f : A -> body B) records a records1 b records2 :
  runs c records a records1 -> runs (f a) records1 b records2 ->
  runs (c ≫= f) records b records2.
Proof. unfold runs, mbind, body_bind. by intros ->. Qed.

Lemma ex_runs_bind {A B} (c : body A) (f : A -> body B) records a records1 b
  (Q : list pyval -> Prop) :
  runs c records a records1 ->
  (exists records2, runs (f a) records1 b records2 /\ Q records2) ->
  exists records2, runs (c ≫= f) records b records2 /\ Q records2.
Proof.
  intros Hc (records2 & Hf & HQ). exists records2. split; [|done].
  by eapply runs_bind.
Qed.

Lemma ex_return_records (block : body unit) (Q : list pyval -> Prop) :
  (exists records, runs block [] tt records /\ Q records) ->
  exists records, try_except_return_records block = Ok records /\ Q records.
Proof.
  intros (records & Hr & HQ). exists records. split; [|done].
  unfold runs in Hr. unfold try_except_return_records. by rewrite Hr.
Qed.

Lemma runs_return_records (block : body unit) records :
  runs block [] tt records -> try_except_return_records block = Ok records.
Proof. unfold runs, try_except_return_records. by intros ->. Qed.

Lemma object_at_get x k v : object_at x k v -> py_get x k = Ok v.
Proof. intros (m & -> & Hk). simpl. by rewrite Hk. Qed.

Lemma is_object_get x k : is_object x -> returns (py_get x k).
Proof. intros [m ->]. by eexists. Qed.

Lemma object_at_is_object x k v : object_at x k v -> is_object x.
Proof. intros (m & -> & _). by exists m. Qed.

Lemma nonempty_object_is_object x : nonempty_object x -> is_object x.
Proof. intros (m & -> & _). by exists m. Qed.

Lemma nonempty_object_truthy x : nonempty_object x -> truthy x = true.
Proof. intros (m & -> & Hm). by destruct m. Qed.

Lemma returns_Ok {A} (a : A) : returns (Ok a).
Proof. by exists a. Qed.

Lemma dict_display_returns entries :
  Forall (fun ke => returns (snd ke)) entries -> returns (dict_display entries).
Proof.
  intros He. unfold dict_display.
  assert (returns (mapM (fun ke => v ← snd ke; Ok (fst ke, v)) entries)) as [kvs ->].
  { induction He as [|[k r] es [v Hv] _ [kvs IH]]; simpl; [by eexists|].
    simpl in Hv. rewrite Hv. simpl. rewrite IH. by eexists. }
  by eexists.
Qed.

(** A display whose expressions all evaluate is appended as one record. *)
Lemma runs_record entries records :
  Forall (fun ke => returns (snd ke)) entries ->
  exists record,
    dict_display entries = Ok record /\
    runs (record ← eval (dict_display entries); append record)
      records tt (records ++ [record]).
Proof.
  intros [record Hd]%dict_display_returns. exists record. split; [done|].
  eapply runs_bind; [by apply runs_eval|apply runs_append].
Qed.

(** The loop over an enumerated roster when every entry yields a record. *)
Lemma runs_for_each_enumerate (F : nat -> pyval -> result pyval) xs records :
  (forall i x, xs !! i = Some x -> returns (F i x)) ->
  exists new,
    runs (for_each (enumerate xs)
            (fun ip => record ← eval (F (fst ip) (snd ip)); append record))
      records tt (records ++ new) /\
    length new = length xs /\
    forall i, i < length xs ->
      exists x record, xs !! i = Some x /\ new !! i = Some record /\ F i x = Ok record.
Proof.
  unfold enumerate.
  assert (forall (g : nat -> nat) records,
    (forall i x, xs !! i = Some x -> returns (F (g i) x)) ->
    exists new,
      runs (for_each (imap (fun i x => (g i, x)) xs)
              (fun ip => record ← eval (F (fst ip) (snd ip)); append record))
        records tt (records ++ new) /\
      length new = length xs /\
      forall i, i < length xs ->
        exists x record,
          xs !! i = Some x /\ new !! i = Some record /\ F (g i) x = Ok record) as H.
  { clear records. induction xs as [|x xs IH]; intros g records Hx.
    - exists []. rewrite app_nil_r. split; [apply runs_pass|].
      split; [done|]. simpl. lia.
    - destruct (Hx 0 x eq_refl) as [r0 Hr0].
      destruct (IH (fun i => g (S i)) (records ++ [r0])) as (new & Hrun & Hlen & Hnew).
      { intros i y Hy. by apply (Hx (S i)). }
      exists (r0 :: new). split; [|split].
      + cbn [imap for_each]. eapply runs_bind.
        { eapply runs_bind; [by apply runs_eval|apply runs_append]. }
        rewrite <- app_assoc in Hrun. exact Hrun.
      + simpl. by rewrite Hlen.
      + intros [|i] Hi.
        * by exists x, r0.
        * apply Hnew. simpl in Hi. lia. }
  intros Hx. apply (H (fun i => i) records Hx).
Qed.

(** ** Provenance of the records of one document *)

Lemma extract_all_tagged data source_file game_date :
  exists records, extract_all data source_file game_date = Ok records /\
    Forall (tagged source_file game_date) records.
Proof.
  unfold extract_all.
  destruct (extract_meta_data_tagged data source_file game_date) as (r1 & -> & H1).
  destruct (extract_game_header_tagged data source_file game_date) as (r2 & -> & H2).
  destruct (extract_team_info_tagged data source_file game_date) as (r3 & -> & H3).
  destruct (extract_team_statistics_tagged data source_file game_date) as (r4 & -> & H4).
  destruct (extract_team_starters_tagged data source_file game_date) as (r5 & -> & H5).
  destruct (extract_player_statistics_tagged data source_file game_date) as (r6 & -> & H6).
  simpl. eexists. split; [reflexivity|].
  repeat (apply Forall_app; split); done.
Qed.

(** C9. Within the record list that [process_single_file] produces for one
    document, every record, of whichever of the six variants, carries the
    same [source_file] value, the document's blob name, and the same
    [game_date] value, the one recovered from the blob path. *)
Theorem process_single_file_provenance storage_client bucket_name blob_name records :
  process_single_file storage_client bucket_name blob_name = Ok records ->
  exists game_date,
    parse_game_date blob_name = Ok game_date /\
    Forall (tagged (PStr blob_name) game_date) records.
Proof.
  unfold process_single_file. intros H.
  destruct (download_parquet _ _ _) as [df|]; simpl in H; [|discriminate].
  destruct (iloc df 0) as [row|]; simpl in H; [|discriminate].
  destruct (column row _) as [raw|]; simpl in H; [|discriminate].
  destruct (json_loads raw) as [data|]; simpl in H; [|discriminate].
  destruct (parse_game_date blob_name) as [game_date|]; simpl in H; [|discriminate].
  exists game_date. split; [done|].
  destruct (extract_all_tagged data (PStr blob_name) game_date) as (records' & Hr & Ht).
  rewrite Hr in H. by injection H as <-.
Qed.

Lemma process_single_file_provenance_witness :
  exists game_date,
    parse_game_date sample_blob = Ok game_date /\
    Forall (tagged (PStr sample_blob) game_date) sample_records.
Proof.
  apply (process_single_file_provenance sample_store "boxscores" sample_blob).
  vm_compute. reflexivity.
Defined.

(** ** Missing keys *)















(** ** Team-scoped extractors *)

Ltac solve_object :=
  solve [ eauto using object_at_is_object, nonempty_object_is_object ].

Ltac solve_returns_entries :=
  repeat (apply Forall_cons_2;
          [first [apply returns_Ok | apply is_object_get; solve_object]|]);
  apply Forall_nil_2.

(** One statement of a block that completes; the goal has the form
    [exists records, runs block rs tt records /\ Q records]. *)
Ltac run_step :=
  lazymatch goal with
  | |- exists _, runs (mbind _ (mbind _ (eval (dict_display ?es)))) ?rs _ _ /\ _ =>
      let record := fresh "record" in
      let Hd := fresh "Hd" in
      let Hrun := fresh "Hrun" in
      destruct (runs_record es rs) as (record & Hd & Hrun);
      [solve_returns_entries|];
      eapply ex_runs_bind; [exact Hrun|]; clear Hrun; cbv beta
  | |- exists _, runs (mbind _ (eval (dict_display ?es))) ?rs _ _ /\ _ =>
      let record := fresh "record" in
      let Hd := fresh "Hd" in
      let Hrun := fresh "Hrun" in
      destruct (runs_record es rs) as (record & Hd & Hrun);
      [solve_returns_entries|];
      eexists; split; [exact Hrun|]; clear Hrun
  | |- exists _, runs (mbind _ (eval (py_get ?x ?k))) _ _ _ /\ _ =>
      first
        [ eapply ex_runs_bind; [apply runs_eval, object_at_get; eassumption|]
        | let v := fresh "v" in
          let Hv := fresh "Hv" in
          destruct (is_object_get x k) as [v Hv]; [solve_object|];
          eapply ex_runs_bind; [apply runs_eval; exact Hv|] ];
      cbv beta
  | |- context [truthy ?x] =>
      rewrite (nonempty_object_truthy x) by assumption
  end.


(** ** Player statistics *)

Lemma roster_entry_home_record game_id team_id source_file game_date i player :
  roster_entry player ->
  returns (home_player_record game_id team_id source_file game_date i player).
Proof.
  intros (stats & Hs & Hobj). unfold home_player_record.
  rewrite (object_at_get _ _ _ Hs). simpl.
  apply dict_display_returns. solve_returns_entries.
Qed.

Lemma roster_entry_away_record game_id team_id source_file game_date i player :
  roster_entry player ->
  returns (away_player_record game_id team_id source_file game_date i player).
Proof.
  intros (stats & Hs & Hobj). unfold away_player_record.
  rewrite (object_at_get _ _ _ Hs). simpl.
  apply dict_display_returns. solve_returns_entries.
Qed.

Lemma home_player_record_index game_id team_id source_file game_date i player record :
  home_player_record game_id team_id source_file game_date i player = Ok record ->
  py_get record "player_index" = Ok (PInt (Z.of_nat i)) /\
  py_get record "is_home_team" = Ok (PBool true) /\
  py_get record "person_id" = py_get player "personId".
Proof.
  unfold home_player_record.
  destruct (py_get player "statistics") as [stats|]; simpl; [|discriminate].
  intros Hd.
  repeat split; (eapply dict_display_get; [exact Hd | solve_keys | solve_elem]).
Qed.

Lemma away_player_record_index game_id team_id source_file game_date i player record :
  away_player_record game_id team_id source_file game_date i player = Ok record ->
  py_get record "player_index" = Ok (PInt (Z.of_nat i)) /\
  py_get record "is_home_team" = Ok (PBool false) /\
  py_get record "person_id" = py_get player "personId".
Proof.
  unfold away_player_record.
  destruct (py_get player "statistics") as [stats|]; simpl; [|discriminate].
  intros Hd.
  repeat split; (eapply dict_display_get; [exact Hd | solve_keys | solve_elem]).
Qed.

Lemma players_of_team team players :
  object_at team "players" (PList players) ->
  (ps ← py_get team "players"; py_iter ps) = Ok players.
Proof. intros H. by rewrite (object_at_get _ _ _ H). Qed.

(** C3 (amended). For every document whose
    [boxScoreTraditional.homeTeam.players] list has H entries and whose
    [boxScoreTraditional.awayTeam.players] list has A entries, each entry
    being an object with a [statistics] object,
    [extract_player_statistics] returns exactly H+A records; the first H
    are the home team's and carry [player_index] 0 to H-1 in roster
    order, the next A are the away team's and carry [player_index] 0 to
    A-1 in roster order. *)
Theorem player_statistics_roster_order
  data home_team away_team home_players away_players source_file game_date :
  two_teams data home_team away_team ->
  object_at home_team "players" (PList home_players) ->
  object_at away_team "players" (PList away_players) ->
  Forall roster_entry home_players ->
  Forall roster_entry away_players ->
  exists records,
    extract_player_statistics data source_file game_date = Ok records /\
    length records = length home_players + length away_players /\
    roster_records records 0 home_players true /\
    roster_records records (length home_players) away_players false.
Proof.
  intros (boxscore & Hbox & Hhome & Haway) Hhp Hap Hhs Has.
  apply ex_return_records. do 4 run_step.
  eapply ex_runs_bind; [apply runs_eval, players_of_team, Hhp|]. cbv beta.
  destruct (runs_for_each_enumerate
              (home_player_record v v0 source_file game_date) home_players [])
    as (home_records & Hrun & Hlen & Hrec).
  { intros i x Hx. apply roster_entry_home_record.
    by eapply Forall_lookup_1 in Hhs. }
  eapply ex_runs_bind; [exact Hrun|]. clear Hrun. cbv beta.
  do 2 run_step.
  eapply ex_runs_bind; [apply runs_eval, players_of_team, Hap|]. cbv beta.
  destruct (runs_for_each_enumerate
              (away_player_record v v1 source_file game_date) away_players
              ([] ++ home_records))
    as (away_records & Hrun & Hlen' & Hrec').
  { intros i x Hx. apply roster_entry_away_record.
    by eapply Forall_lookup_1 in Has. }
  eexists. split; [exact Hrun|]. clear Hrun. simpl.
  split; [|split].
  - rewrite length_app. lia.
  - intros i player Hi.
    destruct (Hrec i) as (x & record & Hx & Hnew & HF); [by eapply lookup_lt_Some|].
    assert (x = player) as -> by congruence.
    exists record. split.
    + rewrite lookup_app_l by (apply lookup_lt_Some in Hnew; lia). done.
    + by eapply home_player_record_index.
  - intros i player Hi.
    destruct (Hrec' i) as (x & record & Hx & Hnew & HF); [by eapply lookup_lt_Some|].
    assert (x = player) as -> by congruence.
    exists record. split.
    + rewrite lookup_app_r by lia. rewrite <- Hnew. f_equal. lia.
    + by eapply away_player_record_index.
Qed.

Lemma player_statistics_roster_order_witness :
  exists records,
    extract_player_statistics sample_boxscore (PStr sample_blob) PNone = Ok records /\
    length records = 2 + 1 /\
    roster_records records 0
      [sample_player 1628369 "Tatum"; sample_player 1627759 "Brown"] true /\
    roster_records records 2 [sample_player 1628389 "Adebayo"] false.
Proof.
  assert (forall id name, roster_entry (sample_player id name)) as Hentry.
  { intros id name. eexists. split; [eexists; split; reflexivity|by eexists]. }
  apply (player_statistics_roster_order sample_boxscore sample_home_team sample_away_team
           [sample_player 1628369 "Tatum"; sample_player 1627759 "Brown"]
           [sample_player 1628389 "Adebayo"]).
  - eexists. split; [|split]; eexists; split; reflexivity.
  - eexists. split; reflexivity.
  - eexists. split; reflexivity.
  - repeat constructor; apply Hentry.
  - repeat constructor; apply Hentry.
Defined.

(** C3, as stated, fails: a roster entry without [statistics] stops the
    extractor, here with one roster entry and no record. *)
Lemma player_statistics_stops_at_entry_without_statistics :
  (exists home_team,
     two_teams roster_without_statistics home_team
       (PDict [("teamId", PInt 1610612748); ("players", PList [])]) /\
     object_at home_team "players" (PList [PDict [("personId", PInt 1628369)]])) /\
  extract_player_statistics roster_without_statistics (PStr sample_blob) PNone = Ok [].
Proof.
  split.
  - eexists. split.
    + eexists. split; [|split]; eexists; split; reflexivity.
    + eexists. split; reflexivity.
  - vm_compute. reflexivity.
Qed.

(** ** Errors at the document boundary *)

Lemma fold_left_app_concat {A} (xss : list (list A)) (acc : list A) :
  fold_left (fun all_records records => all_records ++ records) xss acc
  = acc ++ concat xss.
Proof.
  revert acc. induction xss as [|xs xss IH]; intros acc; simpl.
  - by rewrite app_nil_r.
  - by rewrite IH, app_assoc.
Qed.

Lemma process_single_file_decoded storage_client bucket_name blob_name data :
  raw_response_of storage_client bucket_name blob_name = Ok (Dumps data) ->
  returns (process_single_file storage_client bucket_name blob_name).
Proof.
  unfold raw_response_of, process_single_file. intros H.
  destruct (download_parquet _ _ _) as [df|]; simpl in *; [|discriminate].
  destruct (iloc df 0) as [row|]; simpl in *; [|discriminate].
  rewrite H. simpl.
  destruct (parse_game_date_returns blob_name) as [game_date ->]. simpl.
  destruct (extract_all_tagged data (PStr blob_name) game_date) as (records & -> & _).
  by eexists.
Qed.

Lemma process_single_file_not_json storage_client bucket_name blob_name s :
  raw_response_of storage_client bucket_name blob_name = Ok (NotJson s) ->
  process_single_file storage_client bucket_name blob_name = Raise JSONDecodeError.
Proof.
  unfold raw_response_of, process_single_file. intros H.
  destruct (download_parquet _ _ _) as [df|]; simpl in *; [|discriminate].
  destruct (iloc df 0) as [row|]; simpl in *; [|discriminate].
  by rewrite H.
Qed.

Lemma process_yesterdays_games_raises (self : NBASilverProcessor) blobs blob_name e :
  list_blobs (storage_client self) (bucket_name self) (date_path self) = Ok blobs ->
  blob_name ∈ blobs ->
  process_single_file (storage_client self) (bucket_name self) blob_name = Raise e ->
  exists e', process_yesterdays_games self = Raise e'.
Proof.
  intros Hblobs Hin He. unfold process_yesterdays_games. rewrite Hblobs. simpl.
  destruct blobs as [|b blobs]; [by apply elem_of_nil in Hin|].
  unfold Parallel. destruct (client_pickles self); [|by exists PicklingError].
  destruct (mapM_raises _ _ _ _ Hin He) as [e' ->]. by exists e'.
Qed.

Lemma run_raises (self : NBASilverProcessor) e job_fails w :
  process_yesterdays_games self = Raise e ->
  Stage.run self job_fails w = (Raise e, w).
Proof. intros He. unfold Stage.run. by rewrite He. Qed.

(** C1 does not hold of the code: neither [process_single_file] nor
    [process_yesterdays_games] has a handler.  Recovering the partition
    date from the blob path cannot fail, but a [raw_response] that is not
    valid JSON makes [process_single_file] raise [JSONDecodeError]; and
    an exception raised by [process_single_file] for one document of the
    run makes [process_yesterdays_games] raise, so that [run] raises and
    loads nothing: the other documents of the run contribute no record.
    With the storage client that [__init__] builds, a run that lists a
    document raises [PicklingError] before any document is read. *)
Theorem document_errors_propagate (self : NBASilverProcessor) blobs :
  list_blobs (storage_client self) (bucket_name self) (date_path self) = Ok blobs ->
  (forall blob_name, returns (parse_game_date blob_name)) /\
  (forall blob_name s,
     raw_response_of (storage_client self) (bucket_name self) blob_name = Ok (NotJson s) ->
     process_single_file (storage_client self) (bucket_name self) blob_name
     = Raise JSONDecodeError) /\
  (forall blob_name e,
     blob_name ∈ blobs ->
     process_single_file (storage_client self) (bucket_name self) blob_name = Raise e ->
     exists e',
       process_yesterdays_games self = Raise e' /\
       forall job_fails w, Stage.run self job_fails w = (Raise e', w)) /\
  (client_pickles self = false -> blobs <> [] ->
   process_yesterdays_games self = Raise PicklingError /\
   forall job_fails w, Stage.run self job_fails w = (Raise PicklingError, w)).
Proof.
  intros Hblobs. split; [|split; [|split]].
  - apply parse_game_date_returns.
  - intros blob_name s. apply process_single_file_not_json.
  - intros blob_name e Hin He.
    destruct (process_yesterdays_games_raises self blobs blob_name e Hblobs Hin He)
      as [e' He'].
    exists e'. split; [done|]. intros job_fails w. by apply run_raises.
  - intros Hclient Hne.
    assert (process_yesterdays_games self = Raise PicklingError) as Hraise.
    { unfold process_yesterdays_games. rewrite Hblobs. simpl.
      destruct blobs as [|b blobs]; [done|]. unfold Parallel. by rewrite Hclient. }
    split; [done|]. intros job_fails w. by apply run_raises.
Qed.

Lemma document_errors_propagate_witness :
  process_single_file store_with_garbled "boxscores" garbled_blob = Raise JSONDecodeError /\
  (exists e',
     process_yesterdays_games (sample_processor store_with_garbled) = Raise e' /\
     Stage.run (sample_processor store_with_garbled) (fun _ => false) empty_warehouse
     = (Raise e', empty_warehouse)) /\
  Stage.run (deployed_processor store_with_garbled) (fun _ => false) empty_warehouse
  = (Raise PicklingError, empty_warehouse).
Proof.
  destruct (document_errors_propagate (sample_processor store_with_garbled)
              [sample_blob; garbled_blob]) as (_ & Hjson & Hraise & _).
  { vm_compute. reflexivity. }
  destruct (document_errors_propagate (deployed_processor store_with_garbled)
              [sample_blob; garbled_blob]) as (_ & _ & _ & Hpickle).
  { vm_compute. reflexivity. }
  split; [|split].
  - apply (Hjson garbled_blob "<html>502 Bad Gateway</html>"%string).
    vm_compute. reflexivity.
  - destruct (Hraise garbled_blob JSONDecodeError) as (e' & He' & Hrun).
    + right. left.
    + vm_compute. reflexivity.
    + exists e'. split; [exact He'|apply Hrun].
  - destruct Hpickle as [_ Hrun]; [reflexivity|discriminate|]. apply Hrun.
Defined.

(** C1 at a partition of two snapshots, one of them an error page: the
    error page makes [process_single_file] raise, and the run raises
    although the other document parses and would give records. *)
Lemma garbled_snapshot_aborts_the_run :
  process_single_file store_with_garbled "boxscores" garbled_blob = Raise JSONDecodeError /\
  process_single_file store_with_garbled "boxscores" sample_blob = Ok sample_records /\
  sample_records <> [] /\
  process_yesterdays_games (sample_processor store_with_garbled) = Raise JSONDecodeError /\
  process_yesterdays_games (deployed_processor store_with_garbled) = Raise PicklingError.
Proof.
  split; [|split; [|split; [|split]]]; try (vm_compute; reflexivity).
  vm_compute. discriminate.
Qed.


(** ** Chunking *)

Section Chunks.
Context {A : Type}.
Implicit Types (l : list A) (size : nat).

Lemma slice_take_drop l i size : slice l i (i + size) = take size (drop i l).
Proof. unfold slice. f_equal. lia. Qed.

Lemma py_range_from_0 n size :
  py_range 0 n size = map (fun k => k * size) (seq 0 (chunk_count n size)).
Proof. unfold py_range, chunk_count. by rewrite Nat.sub_0_r. Qed.

Lemma chunk_count_covers n size : 0 < size -> n <= chunk_count n size * size.
Proof.
  intros Hs. unfold chunk_count.
  pose proof (Nat.div_mod_eq (n + (size - 1)) size) as Hdm.
  pose proof (Nat.mod_upper_bound (n + (size - 1)) size) as Hlt.
  nia.
Qed.

Lemma chunk_count_tight n size k :
  0 < size -> k < chunk_count n size -> k * size < n.
Proof.
  intros Hs. unfold chunk_count. intros Hk.
  pose proof (Nat.div_mod_eq (n + (size - 1)) size) as Hdm.
  nia.
Qed.

(** The offsets are the multiples of [size] below [n]. *)
Lemma elem_of_py_range n size i :
  0 < size ->
  i ∈ py_range 0 n size <-> (exists k, i = k * size) /\ i < n.
Proof.
  intros Hs. rewrite py_range_from_0. rewrite list_elem_of_fmap. split.
  - intros (k & -> & Hk). apply elem_of_seq in Hk. split; [by exists k|].
    apply chunk_count_tight; [done|lia].
  - intros [[k ->] Hlt]. exists k. split; [done|]. apply elem_of_seq.
    pose proof (chunk_count_covers n size Hs). nia.
Qed.

Lemma chunks_alt l size :
  chunks l size
  = map (fun k => take size (drop (k * size) l)) (seq 0 (chunk_count (length l) size)).
Proof.
  unfold chunks. rewrite py_range_from_0, map_map.
  apply map_ext. intros k. apply slice_take_drop.
Qed.

Lemma concat_pieces l size m :
  length l <= m * size ->
  concat (map (fun k => take size (drop (k * size) l)) (seq 0 m)) = l.
Proof.
  revert l. induction m as [|m IH]; intros l Hl.
  - simpl in *. destruct l; [done|simpl in Hl; lia].
  - cbn [seq map concat]. rewrite <- seq_shift, map_map.
    rewrite (map_ext _ (fun k => take size (drop (k * size) (drop size l)))).
    + rewrite IH; [apply take_drop|]. rewrite length_drop. lia.
    + intros k. rewrite drop_drop. repeat f_equal; lia.
Qed.

(** The chunks, put back together in order, are the list. *)
Lemma chunks_concat l size : 0 < size -> concat (chunks l size) = l.
Proof.
  intros Hs. rewrite chunks_alt. apply concat_pieces. by apply chunk_count_covers.
Qed.

Lemma chunks_length l size : length (chunks l size) = chunk_count (length l) size.
Proof. rewrite chunks_alt. by rewrite length_map, length_seq. Qed.

(** The sizes depend on the length only. *)
Lemma chunks_sizes l size :
  map length (chunks l size)
  = map (fun k => min size (length l - k * size)) (seq 0 (chunk_count (length l) size)).
Proof.
  rewrite chunks_alt, map_map. apply map_ext. intros k.
  by rewrite length_take, length_drop.
Qed.

Lemma chunks_lookup l size k chunk :
  chunks l size !! k = Some chunk ->
  k < chunk_count (length l) size /\ length chunk = min size (length l - k * size).
Proof.
  intros Hk.
  assert (k < chunk_count (length l) size) as Hlt.
  { rewrite <- chunks_length. by eapply lookup_lt_Some. }
  split; [done|].
  rewrite chunks_alt in Hk. rewrite list_lookup_fmap in Hk.
  rewrite lookup_seq_lt in Hk by done. simpl in Hk. injection Hk as <-.
  by rewrite length_take, length_drop.
Qed.

(** Every chunk but the last is full; no chunk is empty. *)
Lemma chunks_full l size k chunk :
  0 < size -> chunks l size !! k = Some chunk ->
  S k < length (chunks l size) -> length chunk = size.
Proof.
  intros Hs Hk Hnext. rewrite chunks_length in Hnext.
  apply chunks_lookup in Hk as [_ ->].
  pose proof (chunk_count_tight _ _ _ Hs Hnext). lia.
Qed.

Lemma chunks_nonempty l size k chunk :
  0 < size -> chunks l size !! k = Some chunk -> 1 <= length chunk <= size.
Proof.
  intros Hs Hk. apply chunks_lookup in Hk as [Hlt ->].
  pose proof (chunk_count_tight _ _ _ Hs Hlt). lia.
Qed.

End Chunks.

(** ** The bulk loader *)

Lemma load_chunks_jobs job_fails table_ref data chunk_size offsets w :
  exists w',
    load_chunks job_fails table_ref data chunk_size offsets w = (Ok tt, w') /\
    jobs w' = jobs w ++ map (fun i => (table_ref, slice data i (i + chunk_size))) offsets.
Proof.
  revert w. induction offsets as [|i offsets IH]; intros w; simpl.
  - exists w. by rewrite app_nil_r.
  - unfold load_table. destruct (job_fails (length (jobs w))); simpl.
    + edestruct IH as (w' & -> & Hj). exists w'. split; [done|].
      rewrite Hj. simpl. by rewrite <- app_assoc.
    + edestruct IH as (w' & -> & Hj). exists w'. split; [done|].
      rewrite Hj. simpl. by rewrite <- app_assoc.
Qed.

Lemma insert_to_bigquery_jobs self job_fails data w :
  exists w',
    insert_to_bigquery self job_fails data w = (Ok tt, w') /\
    jobs w' = jobs w ++ map (pair (table_ref_of self)) (chunks data 10000).
Proof.
  unfold insert_to_bigquery. destruct data as [|record data].
  - exists w. split; [done|]. by rewrite app_nil_r.
  - cbn [truthy negb].
    edestruct load_chunks_jobs as (w' & -> & Hj). exists w'. split; [done|].
    rewrite Hj. unfold chunks. by rewrite map_map.
Qed.

(** C6. [insert_to_bigquery] splits its input into consecutive chunks of
    10,000 records and issues one load job per chunk, whichever jobs
    fail: a failing job is skipped, the call does not raise and the later
    chunks are still loaded.  An input of 25,000 records gives exactly
    three load jobs, of 10,000, 10,000 and 5,000 records; an empty input
    gives none. *)
Theorem insert_to_bigquery_chunked self job_fails data w :
  exists w',
    insert_to_bigquery self job_fails data w = (Ok tt, w') /\
    jobs w' = jobs w ++ map (pair (table_ref_of self)) (chunks data 10000) /\
    concat (chunks data 10000) = data /\
    (forall k chunk, chunks data 10000 !! k = Some chunk ->
       1 <= length chunk <= 10000 /\
       (S k < length (chunks data 10000) -> length chunk = 10000)) /\
    (length data = 25000 ->
       map length (chunks data 10000) = [10000; 10000; 5000]) /\
    (data = [] -> jobs w' = jobs w).
Proof.
  destruct (insert_to_bigquery_jobs self job_fails data w) as (w' & Hrun & Hjobs).
  assert (0 < 10000) as Hpos by (vm_compute; lia).
  exists w'. split; [done|]. split; [done|]. split; [|split; [|split]].
  - by apply chunks_concat.
  - intros k chunk Hk. split.
    + by apply (chunks_nonempty data 10000 k).
    + by apply chunks_full.
  - intros Hlen. rewrite chunks_sizes, Hlen. vm_compute. reflexivity.
  - intros ->. rewrite Hjobs. vm_compute chunks. by rewrite app_nil_r.
Qed.

Lemma insert_to_bigquery_chunked_witness :
  (exists w',
     insert_to_bigquery (sample_processor sample_store) second_job_fails
       (replicate 25000 PNone) empty_warehouse = (Ok tt, w') /\
     map (fun job => length (snd job)) (jobs w') = [10000; 10000; 5000]) /\
  (forall chunk,
     chunks (replicate 25000 PNone) 10000 !! 2 = Some chunk ->
     1 <= length chunk <= 10000) /\
  (exists w',
     insert_to_bigquery (sample_processor sample_store) second_job_fails
       [] empty_warehouse = (Ok tt, w') /\
     jobs w' = []).
Proof.
  split; [|split].
  - destruct (insert_to_bigquery_chunked (sample_processor sample_store)
                second_job_fails (replicate 25000 PNone) empty_warehouse)
      as (w' & Hrun & Hjobs & _ & _ & Hsizes & _).
    exists w'. split; [exact Hrun|].
    rewrite Hjobs. change (jobs empty_warehouse) with (@nil (string * list pyval)).
    rewrite app_nil_l, map_map.
    apply Hsizes. apply length_replicate.
  - intros chunk Hchunk.
    destruct (insert_to_bigquery_chunked (sample_processor sample_store)
                second_job_fails (replicate 25000 PNone) empty_warehouse)
      as (w' & _ & _ & _ & Hchunks & _).
    apply (Hchunks 2 chunk Hchunk).
  - destruct (insert_to_bigquery_chunked (sample_processor sample_store)
                second_job_fails [] empty_warehouse)
      as (w' & Hrun & _ & _ & _ & _ & Hempty).
    exists w'. split; [exact Hrun|]. apply Hempty. reflexivity.
Defined.

(** ** The fetch stage *)

Import Bronze.

Lemma trace_log e w : trace (log e w) = trace w ++ [e].
Proof. done. Qed.

Lemma new_events_app w w' evs : trace w' = trace w ++ evs -> new_events w w' = evs.
Proof. unfold new_events. intros ->. by rewrite drop_app_length. Qed.

Section Appends.
Context (P : event -> Prop).

Lemma appends_ret {A} (a : A) : appends P (mret a : io A).
Proof. intros w. exists []. by rewrite app_nil_r. Qed.

Lemma appends_lift {A} (r : result A) : appends P (lift r).
Proof. intros w. exists []. by rewrite app_nil_r. Qed.

Lemma appends_get env r : P (Get r) -> appends P (get env r).
Proof.
  intros HP w. exists [Get r]. unfold get.
  destruct (http_get env _ r); split; try done; by constructor.
Qed.

Lemma appends_upload env bucket blob df :
  P (Upload bucket blob df) -> appends P (upload env bucket blob df).
Proof.
  intros HP w. unfold upload. destruct (upload_fails env _).
  - exists []. by rewrite app_nil_r.
  - exists [Upload bucket blob df]. split; [done|by constructor].
Qed.

Lemma appends_sleep q : P (Sleep q) -> appends P (sleep q).
Proof. intros HP w. exists [Sleep q]. split; [done|by constructor]. Qed.

Lemma appends_bind {A B} (c : io A) (f : A -> io B) :
  appends P c -> (forall a, appends P (f a)) -> appends P (c ≫= f).
Proof.
  intros Hc Hf w. destruct (Hc w) as (evs & Ht & HP).
  unfold mbind, io_bind. destruct (c w) as [[a|e] w1]; simpl in *.
  - destruct (Hf a w1) as (evs' & Ht' & HP'). exists (evs ++ evs').
    rewrite Ht', Ht, app_assoc. split; [done|]. by apply Forall_app.
  - by exists evs.
Qed.

Lemma appends_retry_loop {A} fuel (block : io A) max_retries retry_delay retry_count :
  appends P block -> (forall q, P (Sleep q)) ->
  appends P (retry_loop fuel block max_retries retry_delay retry_count).
Proof.
  intros Hb Hs. revert retry_count.
  induction fuel as [|fuel IH]; intros retry_count w; simpl.
  - exists []. by rewrite app_nil_r.
  - destruct (retry_count <? max_retries)%nat; [|exists []; by rewrite app_nil_r].
    destruct (Hb w) as (evs & Ht & HP).
    destruct (block w) as [[a|e] w1]; simpl in *; [by exists evs|].
    destruct (is_Exception e); [|by exists evs].
    unfold mbind, io_bind, sleep.
    destruct (IH (retry_count + 1) (log (Sleep (inject_Z (Z.of_nat
                (retry_delay * (retry_count + 1))))) w1)) as (evs' & Ht' & HP').
    eexists (evs ++ _ :: evs'). rewrite Ht'. simpl. rewrite Ht.
    rewrite <- !app_assoc. split; [done|].
    apply Forall_app. split; [done|]. constructor; [apply Hs|done].
Qed.

Lemma appends_io_for_each {A} (xs : list A) (f : A -> io unit) :
  (forall x, appends P (f x)) -> appends P (io_for_each xs f).
Proof.
  intros Hf. induction xs as [|x xs IH]; simpl.
  - apply appends_ret.
  - apply appends_bind; [apply Hf|]. intros _. apply IH.
Qed.

End Appends.

Lemma appends_weaken {A} (P : event -> Prop) (c : io A) w :
  appends P c -> exists evs, new_events w (snd (c w)) = evs /\ Forall P evs.
Proof.
  intros Hc. destruct (Hc w) as (evs & Ht & HP). exists evs.
  split; [by apply new_events_app|done].
Qed.

(** ** One turn of the retry loop *)

Lemma retry_loop_turn {A} fuel (block : io A) max_retries retry_delay retry_count w :
  retry_count < max_retries ->
  retry_loop (S fuel) block max_retries retry_delay retry_count w
  = match block w with
    | (Ok a, w') => (Ok (retry_count, Some a), w')
    | (Raise e, w') =>
        if is_Exception e
        then retry_loop fuel block max_retries retry_delay (retry_count + 1)
               (log (Sleep (inject_Z (Z.of_nat (retry_delay * (retry_count + 1))))) w')
        else (Raise e, w')
    end.
Proof.
  intros Hlt. cbn [retry_loop].
  destruct (Nat.ltb_spec retry_count max_retries) as [_|?]; [|lia].
  destruct (block w) as [[a|e] w']; [done|].
  by destruct (is_Exception e).
Qed.

Lemma retry_loop_exhausted {A} fuel (block : io A) max_retries retry_delay retry_count w :
  max_retries <= retry_count ->
  retry_loop fuel block max_retries retry_delay retry_count w
  = (Ok (retry_count, None), w).
Proof.
  intros Hge. destruct fuel; cbn [retry_loop]; [done|].
  destruct (Nat.ltb_spec retry_count max_retries) as [?|_]; [lia|done].
Qed.

(** The loop never runs out of fuel when given at least the number of
    attempts that are left. *)
Lemma retry_loop_fuel {A} fuel fuel' (block : io A) max_retries retry_delay retry_count w :
  max_retries - retry_count <= fuel -> max_retries - retry_count <= fuel' ->
  retry_loop fuel block max_retries retry_delay retry_count w
  = retry_loop fuel' block max_retries retry_delay retry_count w.
Proof.
  revert fuel' retry_count w.
  induction fuel as [|fuel IH]; intros fuel' retry_count w Hf Hf'.
  - rewrite !retry_loop_exhausted by lia. done.
  - destruct (Nat.lt_ge_cases retry_count max_retries) as [Hlt|Hge].
    + destruct fuel' as [|fuel']; [lia|].
      rewrite !retry_loop_turn by done.
      destruct (block w) as [[a|e] w']; [done|].
      destruct (is_Exception e); [|done]. apply IH; lia.
    + rewrite !retry_loop_exhausted by lia. done.
Qed.

(** ** One attempt of a boxscore fetch *)

Section BoxscoreFetch.
Context (py_str : pyval -> string) (self : NBABoxscoreProcessor) (env : environment).

(** An attempt ends with the GET and the upload of its payload, or with
    the GET alone and an exception that the loop catches. *)
Lemma fetch_and_store_outcome game_id w :
  (exists payload,
     fetch_and_store py_str self env game_id w
     = (Ok tt,
        {| store := stored (output_bucket self) (blob_of py_str self game_id)
                      (bronze_layer_df payload) (store w);
           trace := trace w ++ [Get (boxscore_request self game_id);
                                Upload (output_bucket self) (blob_of py_str self game_id)
                                  (bronze_layer_df payload)] |})) \/
  (exists e,
     is_Exception e = true /\
     fetch_and_store py_str self env game_id w
     = (Raise e, log (Get (boxscore_request self game_id)) w)).
Proof.
  unfold fetch_and_store, mbind, io_bind, get, lift.
  destruct (http_get env _ _) as [response|]; [|right; by exists ConnectionError].
  destruct (raise_for_status response) as [[]|e] eqn:Hs.
  2:{ right. exists e. split; [|done].
      unfold raise_for_status in Hs. by destruct (_ && _); simplify_eq. }
  destruct (response_json response) as [payload|e] eqn:Hj.
  2:{ right. exists e. split; [|done].
      unfold response_json, json_loads in Hj. by destruct (text response); simplify_eq. }
  unfold upload. destruct (upload_fails env _).
  - right. by exists UploadError.
  - left. exists payload. unfold log, stored, blob_of. simpl.
    by rewrite <- app_assoc.
Qed.

End BoxscoreFetch.

Section BoxscoreRetry.
Context (py_str : pyval -> string) (self : NBABoxscoreProcessor) (env : environment).

Lemma fetch_and_store_Raise game_id w e w1 :
  fetch_and_store py_str self env game_id w = (Raise e, w1) ->
  is_Exception e = true /\ w1 = log (Get (boxscore_request self game_id)) w.
Proof.
  intros H.
  destruct (fetch_and_store_outcome py_str self env game_id w)
    as [(payload & H')|(e' & He & H')]; rewrite H' in H; by simplify_eq.
Qed.

Lemma fetch_and_store_Ok game_id w w1 :
  fetch_and_store py_str self env game_id w = (Ok tt, w1) ->
  exists payload,
    w1 = {| store := stored (output_bucket self) (blob_of py_str self game_id)
                       (bronze_layer_df payload) (store w);
            trace := trace w ++ [Get (boxscore_request self game_id);
                                 Upload (output_bucket self) (blob_of py_str self game_id)
                                   (bronze_layer_df payload)] |}.
Proof.
  intros H.
  destruct (fetch_and_store_outcome py_str self env game_id w)
    as [(payload & H')|(e' & He & H')]; rewrite H' in H; simplify_eq.
  by exists payload.
Qed.

(** What a call of [process_game_with_retry] does, by the number of
    attempts that failed before it stopped. *)
Lemma process_game_with_retry_trace session game_id w :
  exists (failures : nat) (last : list event) (w' : world),
    process_game_with_retry py_str self env session game_id w
    = (Ok (failures <? 3)%nat, w') /\
    failures <= 3 /\
    trace w' = trace w
               ++ flat_map (failed_attempt (boxscore_request self game_id) 3)
                    (seq 1 failures)
               ++ last /\
    if (failures <? 3)%nat
    then exists payload,
           last = [Get (boxscore_request self game_id);
                   Upload (output_bucket self) (blob_of py_str self game_id)
                     (bronze_layer_df payload)] /\
           store w' = stored (output_bucket self) (blob_of py_str self game_id)
                        (bronze_layer_df payload) (store w)
    else last = [] /\ store w' = store w.
Proof.
  unfold process_game_with_retry, mbind, io_bind.
  rewrite retry_loop_turn by lia.
  destruct (fetch_and_store_outcome py_str self env game_id w)
    as [(payload & ->)|(e1 & He1 & ->)].
  { exists 0. eexists _, _. split; [reflexivity|]. split; [lia|].
    split; [reflexivity|]. by exists payload. }
  rewrite He1, retry_loop_turn by lia.
  destruct (fetch_and_store_outcome py_str self env game_id
              (log (Sleep (inject_Z (Z.of_nat (3 * (0 + 1)))))
                 (log (Get (boxscore_request self game_id)) w)))
    as [(payload & ->)|(e2 & He2 & ->)].
  { exists 1. eexists _, _. split; [reflexivity|]. split; [lia|].
    split; [|by exists payload].
    simpl. by rewrite <- !app_assoc. }
  rewrite He2, retry_loop_turn by lia.
  match goal with
  | |- context [fetch_and_store py_str self env game_id ?w2] =>
      destruct (fetch_and_store_outcome py_str self env game_id w2)
        as [(payload & ->)|(e3 & He3 & ->)]
  end.
  { exists 2. eexists _, _. split; [reflexivity|]. split; [lia|].
    split; [|by exists payload].
    simpl. by rewrite <- !app_assoc. }
  rewrite He3, retry_loop_exhausted by lia.
  exists 3. eexists _, _. split; [reflexivity|]. split; [lia|].
  split; [|done].
  simpl. by rewrite <- !app_assoc.
Qed.

(** Every call makes at least one attempt. *)
Lemma process_game_with_retry_attempts session game_id w :
  exists b w' evs,
    process_game_with_retry py_str self env session game_id w = (Ok b, w') /\
    trace w' = trace w ++ Get (boxscore_request self game_id) :: evs.
Proof.
  destruct (process_game_with_retry_trace session game_id w)
    as (failures & last & w' & Hrun & Hle & Ht & Hlast).
  destruct failures as [|failures].
  - destruct Hlast as (payload & -> & _). eexists _, w', _. split; [exact Hrun|]. exact Ht.
  - eexists _, w', _. split; [exact Hrun|]. rewrite Ht. reflexivity.
Qed.

Lemma process_game_batch_attempts batch_id game_batch w :
  exists w' evs,
    process_game_batch py_str self env batch_id game_batch w
    = (Ok (length game_batch), w') /\
    trace w' = trace w ++ evs /\
    forall game_id, game_id ∈ game_batch ->
      Get (boxscore_request self game_id) ∈ evs.
Proof.
  unfold process_game_batch. cbv zeta.
  assert (exists w' evs,
    io_for_each game_batch
      (fun game_id =>
         sleep (1 # 10);;
         process_game_with_retry py_str self env tt game_id;; mret tt) w
    = (Ok tt, w') /\
    trace w' = trace w ++ evs /\
    forall game_id, game_id ∈ game_batch ->
      Get (boxscore_request self game_id) ∈ evs) as (w' & evs & Hrun & Ht & Hin).
  { revert w. induction game_batch as [|g gs IH]; intros w.
    - exists w, []. split; [done|]. split; [by rewrite app_nil_r|].
      by intros ? ?%elem_of_nil.
    - destruct (process_game_with_retry_attempts tt g (log (Sleep (1 # 10)) w))
        as (b & w1 & evs1 & Hg & Ht1).
      destruct (IH w1) as (w' & evs & Hrun & Ht & Hin).
      exists w', (Sleep (1 # 10) :: Get (boxscore_request self g) :: evs1 ++ evs).
      split; [|split].
      + cbn [io_for_each]. unfold mbind, io_bind, sleep at 1. rewrite Hg.
        unfold mret, io_ret at 1. exact Hrun.
      + rewrite Ht, Ht1. simpl. by rewrite <- !app_assoc.
      + intros game_id [->|Hgs]%elem_of_cons.
        * right. by left.
        * do 2 right. apply elem_of_app. right. by apply Hin. }
  exists w', evs. split; [|done].
  unfold mbind at 1. unfold io_bind at 1. by rewrite Hrun.
Qed.

End BoxscoreRetry.

Lemma count_events_failed r failures last :
  failures <= 3 ->
  count_gets (flat_map (failed_attempt r 3) (seq 1 failures) ++ last)
  = failures + count_gets last /\
  count_uploads (flat_map (failed_attempt r 3) (seq 1 failures) ++ last)
  = count_uploads last.
Proof.
  intros Hle. destruct failures as [|[|[|[|?]]]]; try lia; split; reflexivity.
Qed.

(** C4. [process_game_with_retry] makes at most 3 attempts; after the
    k-th failed attempt it waits [retry_delay * k] (3, 6, 9: linear
    backoff); it returns [True] when an attempt succeeds and [False],
    without raising, when all 3 attempts fail; a run in which attempts 1
    and 2 fail and attempt 3 succeeds uploads exactly one snapshot object
    and returns [True]; and in [process_game_batch] every game of the
    batch is attempted whatever the other games return. *)
Theorem process_game_with_retry_policy py_str self env :
  (forall session game_id w,
     exists (failures : nat) (last : list event) (w' : world),
       process_game_with_retry py_str self env session game_id w
       = (Ok (failures <? 3)%nat, w') /\
       failures <= 3 /\
       new_events w w'
       = flat_map (failed_attempt (boxscore_request self game_id) 3) (seq 1 failures)
         ++ last /\
       (if (failures <? 3)%nat
        then exists payload,
               last = [Get (boxscore_request self game_id);
                       Upload (output_bucket self) (blob_of py_str self game_id)
                         (bronze_layer_df payload)] /\
               store w' = stored (output_bucket self) (blob_of py_str self game_id)
                            (bronze_layer_df payload) (store w)
        else last = [] /\ store w' = store w) /\
       count_gets (new_events w w') <= 3 /\
       count_uploads (new_events w w') = (if (failures <? 3)%nat then 1 else 0)) /\
  (forall session game_id w e1 w1 e2 w2 w3,
     fetch_and_store py_str self env game_id w = (Raise e1, w1) ->
     fetch_and_store py_str self env game_id (log (Sleep (inject_Z 3)) w1)
     = (Raise e2, w2) ->
     fetch_and_store py_str self env game_id (log (Sleep (inject_Z 6)) w2)
     = (Ok tt, w3) ->
     process_game_with_retry py_str self env session game_id w = (Ok true, w3) /\
     count_uploads (new_events w w3) = 1) /\
  (forall session game_id w e1 w1 e2 w2 e3 w3,
     fetch_and_store py_str self env game_id w = (Raise e1, w1) ->
     fetch_and_store py_str self env game_id (log (Sleep (inject_Z 3)) w1)
     = (Raise e2, w2) ->
     fetch_and_store py_str self env game_id (log (Sleep (inject_Z 6)) w2)
     = (Raise e3, w3) ->
     process_game_with_retry py_str self env session game_id w
     = (Ok false, log (Sleep (inject_Z 9)) w3) /\
     count_uploads (new_events w (log (Sleep (inject_Z 9)) w3)) = 0 /\
     store (log (Sleep (inject_Z 9)) w3) = store w) /\
  (forall batch_id game_batch w,
     exists w',
       process_game_batch py_str self env batch_id game_batch w
       = (Ok (length game_batch), w') /\
       forall game_id, game_id ∈ game_batch ->
         Get (boxscore_request self game_id) ∈ new_events w w').
Proof.
  split; [|split; [|split]].
  - intros session game_id w.
    destruct (process_game_with_retry_trace py_str self env session game_id w)
      as (failures & last & w' & Hrun & Hle & Ht & Hlast).
    exists failures, last, w'.
    apply new_events_app in Ht.
    destruct (count_events_failed (boxscore_request self game_id) failures last Hle)
      as [Hg Hu].
    repeat (split; [done|]). rewrite Ht, Hg, Hu.
    destruct (failures <? 3)%nat eqn:Hlt.
    + destruct Hlast as (payload & -> & _).
      apply Nat.ltb_lt in Hlt. split; [|reflexivity].
      change (count_gets _) with 1. lia.
    + destruct Hlast as [-> _]. split; [|reflexivity].
      change (count_gets []) with 0. lia.
  - intros session game_id w e1 w1 e2 w2 w3 H1 H2 H3.
    destruct (fetch_and_store_Raise _ _ _ _ _ _ _ H1) as [He1 ->].
    destruct (fetch_and_store_Raise _ _ _ _ _ _ _ H2) as [He2 ->].
    destruct (fetch_and_store_Ok _ _ _ _ _ _ H3) as [payload Hw3].
    split.
    + unfold process_game_with_retry, mbind, io_bind.
      rewrite retry_loop_turn, H1, He1 by lia.
      change (inject_Z (Z.of_nat (3 * (0 + 1)))) with (inject_Z 3).
      rewrite retry_loop_turn, H2, He2 by lia.
      change (inject_Z (Z.of_nat (3 * (0 + 1 + 1)))) with (inject_Z 6).
      rewrite retry_loop_turn, H3 by lia. reflexivity.
    + rewrite Hw3. erewrite new_events_app.
      2:{ simpl. rewrite <- !app_assoc. reflexivity. }
      reflexivity.
  - intros session game_id w e1 w1 e2 w2 e3 w3 H1 H2 H3.
    destruct (fetch_and_store_Raise _ _ _ _ _ _ _ H1) as [He1 ->].
    destruct (fetch_and_store_Raise _ _ _ _ _ _ _ H2) as [He2 ->].
    destruct (fetch_and_store_Raise _ _ _ _ _ _ _ H3) as [He3 ->].
    split; [|split].
    + unfold process_game_with_retry, mbind, io_bind.
      rewrite retry_loop_turn, H1, He1 by lia.
      change (inject_Z (Z.of_nat (3 * (0 + 1)))) with (inject_Z 3).
      rewrite retry_loop_turn, H2, He2 by lia.
      change (inject_Z (Z.of_nat (3 * (0 + 1 + 1)))) with (inject_Z 6).
      rewrite retry_loop_turn, H3, He3 by lia.
      rewrite retry_loop_exhausted by lia. reflexivity.
    + erewrite new_events_app.
      2:{ simpl. rewrite <- !app_assoc. reflexivity. }
      reflexivity.
    + reflexivity.
  - intros batch_id game_batch w.
    destruct (process_game_batch_attempts py_str self env batch_id game_batch w)
      as (w' & evs & Hrun & Ht & Hin).
    exists w'. split; [done|]. by rewrite (new_events_app _ _ _ Ht).
Qed.

Lemma process_game_with_retry_policy_witness :
  (exists w3,
     process_game_with_retry sample_str sample_boxscore_processor fails_twice tt
       (PStr "0022400752") empty_world = (Ok true, w3) /\
     count_uploads (new_events empty_world w3) = 1) /\
  (exists w3,
     process_game_with_retry sample_str sample_boxscore_processor always_down tt
       (PStr "0022400752") empty_world = (Ok false, w3) /\
     count_uploads (new_events empty_world w3) = 0 /\
     store w3 = store empty_world) /\
  (exists w',
     process_game_batch sample_str sample_boxscore_processor always_down 0
       [PStr "0022400752"; PStr "0022400753"] empty_world = (Ok 2, w') /\
     Get (boxscore_request sample_boxscore_processor (PStr "0022400753"))
       ∈ new_events empty_world w').
Proof.
  destruct (process_game_with_retry_policy sample_str sample_boxscore_processor
              fails_twice) as (_ & Hscenario & _).
  destruct (process_game_with_retry_policy sample_str sample_boxscore_processor
              always_down) as (_ & _ & Hdown & Hbatch).
  split; [|split].
  - eexists. eapply (Hscenario tt (PStr "0022400752") empty_world); reflexivity.
  - eexists. eapply (Hdown tt (PStr "0022400752") empty_world); reflexivity.
  - destruct (Hbatch 0 [PStr "0022400752"; PStr "0022400753"] empty_world)
      as (w' & Hrun & Hin).
    exists w'. split; [exact Hrun|]. apply Hin. right. left.
Defined.

(** ** Timeouts *)

Lemma starts_with_get env r : starts_with (Get r) (get env r).
Proof. intros w. exists []. unfold get. by destruct (http_get env _ r). Qed.

Lemma starts_with_bind {A B} e (c : io A) (f : A -> io B) :
  starts_with e c -> (forall a, appends any_event (f a)) -> starts_with e (c ≫= f).
Proof.
  intros Hc Hf w. destruct (Hc w) as (evs & Ht).
  unfold mbind, io_bind. destruct (c w) as [[a|ex] w1]; simpl in *.
  - destruct (Hf a w1) as (evs' & Ht' & _). exists (evs ++ evs').
    rewrite Ht', Ht. by rewrite <- app_assoc.
  - by exists evs.
Qed.

Lemma starts_with_retry_loop {A} e fuel (block : io A) max_retries retry_delay :
  0 < max_retries -> starts_with e block -> appends any_event block ->
  starts_with e (retry_loop (S fuel) block max_retries retry_delay 0).
Proof.
  intros Hpos Hs Ha w. rewrite retry_loop_turn by done.
  destruct (Hs w) as (evs & Ht).
  destruct (block w) as [[a|ex] w1]; simpl in *; [by exists evs|].
  destruct (is_Exception ex); [|by exists evs].
  edestruct (appends_retry_loop any_event fuel block max_retries retry_delay (0 + 1))
    as (evs' & Ht' & _); [done|done|].
  rewrite Ht'. simpl. rewrite Ht. eexists. by rewrite <- !app_assoc.
Qed.

Lemma appends_scoreboard_block P env r :
  P (Get r) -> appends P (reponse ← get env r; lift (response_json reponse)).
Proof.
  intros HP. apply appends_bind; [by apply appends_get|].
  intros response. apply appends_lift.
Qed.

Lemma appends_get_nba_scoreboard P env proxy_config bucket_name yesterday :
  (forall r, timeout r = None -> P (Get r)) ->
  (forall q, P (Sleep q)) ->
  (forall bucket blob df, P (Upload bucket blob df)) ->
  appends P (get_nba_scoreboard env proxy_config bucket_name yesterday).
Proof.
  intros Hget Hsleep Hupload. unfold get_nba_scoreboard.
  apply appends_bind.
  - apply appends_retry_loop; [|done]. apply appends_scoreboard_block. by apply Hget.
  - intros [retry_count scoreboard_data].
    destruct (3 <=? retry_count)%nat; [apply appends_ret|].
    destruct scoreboard_data as [scoreboard_data|]; [|apply appends_ret].
    apply appends_bind; [apply appends_upload, Hupload|].
    intros _. apply appends_ret.
Qed.

Lemma appends_fetch_and_store P py_str self env game_id :
  P (Get (boxscore_request self game_id)) ->
  (forall bucket blob df, P (Upload bucket blob df)) ->
  appends P (fetch_and_store py_str self env game_id).
Proof.
  intros Hget Hupload. unfold fetch_and_store.
  apply appends_bind; [by apply appends_get|]. intros response.
  apply appends_bind; [apply appends_lift|]. intros _.
  apply appends_bind; [apply appends_lift|]. intros payload.
  apply appends_upload, Hupload.
Qed.

Lemma appends_process_game_with_retry P py_str self env session game_id :
  P (Get (boxscore_request self game_id)) ->
  (forall q, P (Sleep q)) ->
  (forall bucket blob df, P (Upload bucket blob df)) ->
  appends P (process_game_with_retry py_str self env session game_id).
Proof.
  intros Hget Hsleep Hupload. unfold process_game_with_retry.
  apply appends_bind.
  - apply appends_retry_loop; [|done]. by apply appends_fetch_and_store.
  - intros [retry_count ?]. destruct (3 <=? retry_count)%nat; apply appends_ret.
Qed.

Lemma starts_with_get_nba_scoreboard env proxy_config bucket_name yesterday :
  starts_with
    (Get (scoreboard_request proxy_config
            (year yesterday ++ "-" ++ month yesterday ++ "-" ++ day yesterday)%string))
    (get_nba_scoreboard env proxy_config bucket_name yesterday).
Proof.
  unfold get_nba_scoreboard. apply starts_with_bind.
  - apply starts_with_retry_loop; [lia| |by apply appends_scoreboard_block].
    apply starts_with_bind; [apply starts_with_get|].
    intros response. apply appends_lift.
  - intros [retry_count scoreboard_data].
    destruct (3 <=? retry_count)%nat; [apply appends_ret|].
    destruct scoreboard_data; [|apply appends_ret].
    apply appends_bind; [by apply appends_upload|]. intros _. apply appends_ret.
Qed.

(** C7, on the code.  Every GET of [process_game_with_retry] is issued
    with [timeout=30]; the GET of [get_nba_scoreboard] is issued on every
    run, on each attempt without a timeout. *)
Theorem scoreboard_fetch_has_no_timeout env proxy_config bucket_name yesterday w :
  (exists r evs,
     new_events w (snd (get_nba_scoreboard env proxy_config bucket_name yesterday w))
     = Get r :: evs /\ timeout r = None) /\
  Forall (get_timeout None)
    (new_events w (snd (get_nba_scoreboard env proxy_config bucket_name yesterday w))) /\
  (forall py_str self session game_id w0,
     Forall (get_timeout (Some 30%Z))
       (new_events w0
          (snd (process_game_with_retry py_str self env session game_id w0)))).
Proof.
  split; [|split].
  - destruct (starts_with_get_nba_scoreboard env proxy_config bucket_name yesterday w)
      as (evs & Ht).
    apply new_events_app in Ht. eexists _, evs. split; [exact Ht|reflexivity].
  - destruct (appends_weaken (get_timeout None)
                (get_nba_scoreboard env proxy_config bucket_name yesterday) w)
      as (evs & -> & HP); [|exact HP].
    by apply appends_get_nba_scoreboard.
  - intros py_str self session game_id w0.
    destruct (appends_weaken (get_timeout (Some 30%Z))
                (process_game_with_retry py_str self env session game_id) w0)
      as (evs & -> & HP); [|exact HP].
    by apply appends_process_game_with_retry.
Qed.

(** ** Batches *)

Lemma game_batches_chunks game_ids : game_batches game_ids = chunks game_ids 4.
Proof. done. Qed.

(** ** A scoreboard without a GameHeader *)

Lemma next_game_header_none rs :
  Forall named_otherwise rs -> next_game_header rs = Ok None.
Proof.
  induction 1 as [|r rs (name & (m & -> & Hm) & Hne) _ IH]; [done|].
  cbn [next_game_header py_getitem]. rewrite Hm.
  cbn [mbind result_bind]. by rewrite Hne.
Qed.

Lemma raw_response_of_unfold storage_client bucket_name blob_name :
  raw_response_of storage_client bucket_name blob_name
  = (df ← download_parquet storage_client bucket_name blob_name;
     row ← iloc df 0; column row "raw_response").
Proof. done. Qed.

(** C10 (amended). If every entry of the scoreboard document's
    [resultSets] array is an object with a [name], none of them
    [GameHeader], [get_game_ids] returns the empty list; [batch_config]
    then creates zero batches, issues no boxscore fetch, and returns the
    success message. *)
Theorem no_game_header_no_fetch py_str self env w json_data result_sets :
  raw_response_of (store w) (input_bucket self)
    (date_path self ++ "/scoreboard.parquet")%string = Ok (Dumps json_data) ->
  object_at json_data "resultSets" (PList result_sets) ->
  Forall named_otherwise result_sets ->
  get_game_ids self w = (Ok [], w) /\
  game_batches [] = [] /\
  batch_config py_str self env w = (Ok "Processing complete"%string, w).
Proof.
  intros Hraw (m & -> & Hrs) Hnamed.
  assert (get_game_ids self w = (Ok [], w)) as Hids.
  { unfold get_game_ids. f_equal.
    rewrite raw_response_of_unfold in Hraw.
    destruct (download_parquet _ _ _) as [df|]; simpl in *; [|discriminate].
    destruct (iloc df 0) as [row|]; simpl in *; [|discriminate].
    rewrite Hraw. simpl. rewrite Hrs. simpl.
    by rewrite next_game_header_none. }
  split; [done|]. split; [done|].
  unfold batch_config, mbind, io_bind. rewrite Hids. reflexivity.
Qed.

Lemma no_game_header_no_fetch_witness :
  get_game_ids sample_boxscore_processor (scoreboard_world scoreboard_without_game_header)
  = (Ok [], scoreboard_world scoreboard_without_game_header) /\
  game_batches [] = [] /\
  batch_config sample_str sample_boxscore_processor always_down
    (scoreboard_world scoreboard_without_game_header)
  = (Ok "Processing complete"%string, scoreboard_world scoreboard_without_game_header).
Proof.
  apply (no_game_header_no_fetch sample_str sample_boxscore_processor always_down
           (scoreboard_world scoreboard_without_game_header)
           scoreboard_without_game_header
           [PDict [("name", PStr "LineScore");
                   ("headers", PList [PStr "GAME_ID"]);
                   ("rowSet", PList [])]]).
  - vm_compute. reflexivity.
  - eexists. split; reflexivity.
  - repeat constructor. eexists. split; [eexists; split; reflexivity|reflexivity].
Defined.

(** C10, as stated, fails: a [resultSets] entry without a [name] is no
    GameHeader entry, yet [get_game_ids] raises [KeyError] on it, and so
    does [batch_config]. *)
Lemma unnamed_entry_raises :
  object_at scoreboard_with_unnamed_entry "resultSets"
    (PList [PDict [("headers", PList [PStr "GAME_ID"]); ("rowSet", PList [])]]) /\
  fst (get_game_ids sample_boxscore_processor
         (scoreboard_world scoreboard_with_unnamed_entry)) = Raise KeyError /\
  fst (batch_config sample_str sample_boxscore_processor always_down
         (scoreboard_world scoreboard_with_unnamed_entry)) = Raise KeyError.
Proof.
  split; [|split].
  - eexists. split; reflexivity.
  - vm_compute. reflexivity.
  - vm_compute. reflexivity.
Qed.

(** * Further properties of the flattening stage *)

(** ** How many records a block appends *)

Lemma adds_eval {A} (r : result A) : adds_at_most 0 (eval r).
Proof. intros records. simpl. lia. Qed.

Lemma adds_pass : adds_at_most 0 pass.
Proof. intros records. simpl. lia. Qed.

Lemma adds_append record : adds_at_most 1 (append record).
Proof. intros records. simpl. rewrite length_app. simpl. lia. Qed.

Lemma adds_bind {A B} n m (c : body A) (f : A -> body B) :
  adds_at_most n c -> (forall a, adds_at_most m (f a)) ->
  adds_at_most (n + m) (c ≫= f).
Proof.
  intros Hc Hf records. specialize (Hc records).
  unfold mbind, body_bind. destruct (c records) as [[a|e] records']; simpl in *.
  - specialize (Hf a records'). lia.
  - lia.
Qed.

Lemma adds_if {A} n m (c : bool) (b1 b2 : body A) :
  adds_at_most n b1 -> adds_at_most m b2 ->
  adds_at_most (Nat.max n m) (if c then b1 else b2).
Proof.
  intros H1 H2 records. destruct c; [specialize (H1 records)|specialize (H2 records)]; lia.
Qed.

Lemma adds_weaken {A} n m (block : body A) :
  adds_at_most n block -> n <= m -> adds_at_most m block.
Proof. intros H Hle records. specialize (H records). lia. Qed.

Lemma try_except_return_records_length n block records :
  adds_at_most n block ->
  try_except_return_records block = Ok records -> length records <= n.
Proof.
  intros Hb. specialize (Hb []). unfold try_except_return_records.
  destruct (block []) as [[[]|e] records']; simpl in *.
  - intros [= <-]. lia.
  - destruct (is_Exception e); [|discriminate]. intros [= <-]. lia.
Qed.

Ltac count_block :=
  repeat lazymatch goal with
    | |- adds_at_most _ (mbind _ _) => eapply adds_bind; [|intros ?]
    | |- adds_at_most _ (if _ then _ else _) => eapply adds_if
    | |- adds_at_most _ (eval _) => apply adds_eval
    | |- adds_at_most _ pass => apply adds_pass
    | |- adds_at_most _ (append _) => apply adds_append
    end.

Ltac bounded_by_block :=
  eapply try_except_return_records_length; [|eassumption];
  eapply adds_weaken; [count_block|vm_compute; lia].

(** ** The discriminant *)

Ltac typed_record :=
  apply triple_record;
  [ apply safe_dict_display; solve_safe_entries
  | intros ? ?; unfold has_block_type;
    eapply dict_display_get; [eassumption | solve_keys | solve_elem] ].

Ltac typed_block :=
  repeat lazymatch goal with
    | |- triple _ (mbind _ (eval (dict_display _))) _ => typed_record
    | |- triple _ (mbind _ (eval _)) _ =>
        apply triple_bind_eval; [first [apply safe_py_get | apply safe_players] | intros ? _]
    | |- triple _ (mbind _ (if _ then _ else _)) _ =>
        eapply triple_bind; [apply triple_if; intros _ | intros _ _]
    | |- triple _ (if _ then _ else _) _ => apply triple_if; intros _
    | |- triple _ pass _ => apply triple_pass
    end.

Lemma home_player_record_typed game_id team_id source_file game_date i player record :
  home_player_record game_id team_id source_file game_date i player = Ok record ->
  has_block_type "player_statistics" record.
Proof.
  unfold home_player_record.
  destruct (py_get player "statistics") as [stats|]; simpl; [|discriminate].
  intros Hd. unfold has_block_type.
  eapply dict_display_get; [exact Hd | solve_keys | solve_elem].
Qed.

Lemma away_player_record_typed game_id team_id source_file game_date i player record :
  away_player_record game_id team_id source_file game_date i player = Ok record ->
  has_block_type "player_statistics" record.
Proof.
  unfold away_player_record.
  destruct (py_get player "statistics") as [stats|]; simpl; [|discriminate].
  intros Hd. unfold has_block_type.
  eapply dict_display_get; [exact Hd | solve_keys | solve_elem].
Qed.

Lemma extract_meta_data_typed data source_file game_date :
  exists records,
    extract_meta_data data source_file game_date = Ok records /\
    Forall (has_block_type "meta") records /\ length records <= 1.
Proof.
  edestruct (try_except_return_records_spec (has_block_type "meta"))
    as (records & Hr & Ht); [|exists records; split; [exact Hr|split; [exact Ht|]]].
  - typed_block.
  - unfold extract_meta_data in Hr. bounded_by_block.
Qed.

Lemma extract_game_header_typed data source_file game_date :
  exists records,
    extract_game_header data source_file game_date = Ok records /\
    Forall (has_block_type "game_header") records /\ length records <= 1.
Proof.
  edestruct (try_except_return_records_spec (has_block_type "game_header"))
    as (records & Hr & Ht); [|exists records; split; [exact Hr|split; [exact Ht|]]].
  - typed_block.
  - unfold extract_game_header in Hr. bounded_by_block.
Qed.

Lemma extract_team_info_typed data source_file game_date :
  exists records,
    extract_team_info data source_file game_date = Ok records /\
    Forall (has_block_type "team_info") records /\ length records <= 2.
Proof.
  edestruct (try_except_return_records_spec (has_block_type "team_info"))
    as (records & Hr & Ht); [|exists records; split; [exact Hr|split; [exact Ht|]]].
  - typed_block.
  - unfold extract_team_info in Hr. bounded_by_block.
Qed.

Lemma extract_team_statistics_typed data source_file game_date :
  exists records,
    extract_team_statistics data source_file game_date = Ok records /\
    Forall (has_block_type "team_statistics") records /\ length records <= 2.
Proof.
  edestruct (try_except_return_records_spec (has_block_type "team_statistics"))
    as (records & Hr & Ht); [|exists records; split; [exact Hr|split; [exact Ht|]]].
  - typed_block.
  - unfold extract_team_statistics in Hr. bounded_by_block.
Qed.

Lemma extract_team_starters_typed data source_file game_date :
  exists records,
    extract_team_starters data source_file game_date = Ok records /\
    Forall (has_block_type "team_starters") records /\ length records <= 2.
Proof.
  edestruct (try_except_return_records_spec (has_block_type "team_starters"))
    as (records & Hr & Ht); [|exists records; split; [exact Hr|split; [exact Ht|]]].
  - typed_block.
  - unfold extract_team_starters in Hr. bounded_by_block.
Qed.

Lemma extract_player_statistics_typed data source_file game_date :
  exists records,
    extract_player_statistics data source_file game_date = Ok records /\
    Forall (has_block_type "player_statistics") records.
Proof.
  eapply try_except_return_records_spec with (Q := fun _ => True).
  typed_block.
  eapply triple_bind.
  { apply triple_for_each. intros [i player]. apply triple_record.
    - apply home_player_record_safe.
    - intros record. apply home_player_record_typed. }
  intros _ _. typed_block.
  apply triple_for_each. intros [i player]. apply triple_record.
  - apply away_player_record_safe.
  - intros record. apply away_player_record_typed.
Qed.

(** Every extractor produces records of its own variant only; the meta
    and game-header extractors never more than one, the team-scoped
    extractors never more than two. *)
Theorem extractors_variant_and_bound data source_file game_date :
  (exists records,
     extract_meta_data data source_file game_date = Ok records /\
     Forall (has_block_type "meta") records /\ length records <= 1) /\
  (exists records,
     extract_game_header data source_file game_date = Ok records /\
     Forall (has_block_type "game_header") records /\ length records <= 1) /\
  (exists records,
     extract_team_info data source_file game_date = Ok records /\
     Forall (has_block_type "team_info") records /\ length records <= 2) /\
  (exists records,
     extract_team_statistics data source_file game_date = Ok records /\
     Forall (has_block_type "team_statistics") records /\ length records <= 2) /\
  (exists records,
     extract_team_starters data source_file game_date = Ok records /\
     Forall (has_block_type "team_starters") records /\ length records <= 2) /\
  (exists records,
     extract_player_statistics data source_file game_date = Ok records /\
     Forall (has_block_type "player_statistics") records).
Proof.
  split; [apply extract_meta_data_typed|].
  split; [apply extract_game_header_typed|].
  split; [apply extract_team_info_typed|].
  split; [apply extract_team_statistics_typed|].
  split; [apply extract_team_starters_typed|].
  apply extract_player_statistics_typed.
Qed.

(** The records of one file come in the order of the extractors: the
    meta record, the game header, the team records of the three
    team-scoped blocks, then the player records; at most 8 records are
    not player records. *)
Theorem process_single_file_layout storage_client bucket_name blob_name records :
  process_single_file storage_client bucket_name blob_name = Ok records ->
  exists meta game_header team_info team_statistics team_starters player_statistics,
    records = meta ++ game_header ++ team_info ++ team_statistics ++ team_starters
              ++ player_statistics /\
    Forall (has_block_type "meta") meta /\ length meta <= 1 /\
    Forall (has_block_type "game_header") game_header /\ length game_header <= 1 /\
    Forall (has_block_type "team_info") team_info /\ length team_info <= 2 /\
    Forall (has_block_type "team_statistics") team_statistics /\
    length team_statistics <= 2 /\
    Forall (has_block_type "team_starters") team_starters /\
    length team_starters <= 2 /\
    Forall (has_block_type "player_statistics") player_statistics /\
    length records <= 8 + length player_statistics.
Proof.
  unfold process_single_file.
  destruct (download_parquet _ _ _) as [df|]; simpl; [|discriminate].
  destruct (iloc df 0) as [row|]; simpl; [|discriminate].
  destruct (column row "raw_response") as [raw|]; simpl; [|discriminate].
  destruct (json_loads raw) as [data|]; simpl; [|discriminate].
  destruct (parse_game_date blob_name) as [game_date|]; simpl; [|discriminate].
  unfold extract_all. cbv zeta.
  destruct (extract_meta_data_typed data (PStr blob_name) game_date)
    as (r1 & -> & Ht1 & Hn1).
  destruct (extract_game_header_typed data (PStr blob_name) game_date)
    as (r2 & -> & Ht2 & Hn2).
  destruct (extract_team_info_typed data (PStr blob_name) game_date)
    as (r3 & -> & Ht3 & Hn3).
  destruct (extract_team_statistics_typed data (PStr blob_name) game_date)
    as (r4 & -> & Ht4 & Hn4).
  destruct (extract_team_starters_typed data (PStr blob_name) game_date)
    as (r5 & -> & Ht5 & Hn5).
  destruct (extract_player_statistics_typed data (PStr blob_name) game_date)
    as (r6 & -> & Ht6).
  cbn [mbind result_bind app]. intros [= <-].
  exists r1, r2, r3, r4, r5, r6. split; [by rewrite <- !app_assoc|].
  repeat (split; [done|]). rewrite !length_app. lia.
Qed.

Lemma process_single_file_layout_witness :
  exists meta game_header team_info team_statistics team_starters player_statistics,
    sample_records = meta ++ game_header ++ team_info ++ team_statistics ++ team_starters
                     ++ player_statistics /\
    Forall (has_block_type "meta") meta /\
    Forall (has_block_type "player_statistics") player_statistics /\
    length sample_records <= 8 + length player_statistics.
Proof.
  destruct (process_single_file_layout sample_store "boxscores" sample_blob sample_records)
    as (r1 & r2 & r3 & r4 & r5 & r6 & Heq & Ht1 & _ & _ & _ & _ & _ & _ & _ & _ & _
        & Ht6 & Hn).
  { vm_compute. reflexivity. }
  exists r1, r2, r3, r4, r5, r6. split; [exact Heq|]. split; [exact Ht1|].
  split; [exact Ht6|exact Hn].
Defined.

(** ** Fields are copied verbatim *)

Lemma dict_lookup_set k k' v m :
  dict_lookup k (dict_set k' v m)
  = if String.eqb k k' then Some v else dict_lookup k m.
Proof.
  induction m as [|[k0 v0] m IH]; simpl; [done|].
  destruct (String.eqb_spec k' k0) as [->|Hne]; simpl.
  - by destruct (String.eqb k k0).
  - rewrite IH. destruct (String.eqb_spec k k0) as [->|_]; [|done].
    destruct (String.eqb_spec k0 k'); [congruence|done].
Qed.

Lemma dict_lookup_items_absent k kvs :
  k ∉ kvs.*1 -> dict_lookup k (dict_of_items kvs) = None.
Proof.
  unfold dict_of_items.
  assert (forall acc, k ∉ kvs.*1 ->
            dict_lookup k (fold_left (fun m kv => dict_set (fst kv) (snd kv) m) kvs acc)
            = dict_lookup k acc) as H.
  { induction kvs as [|[k' v] kvs IH]; intros acc Hk; simpl; [done|].
    simpl in Hk. apply not_elem_of_cons in Hk as [Hne Hk].
    rewrite IH by done. rewrite dict_lookup_set.
    destruct (String.eqb_spec k k'); [congruence|done]. }
  intros Hk. by rewrite H.
Qed.

(** A key that no entry of the display has reads as [None]. *)
Lemma dict_display_absent entries d k :
  dict_display entries = Ok d -> k ∉ entries.*1 -> py_get d k = Ok PNone.
Proof.
  unfold dict_display. intros Hd Hk.
  destruct (mapM _ entries) as [kvs|e] eqn:Hm; simpl in Hd; [|discriminate].
  injection Hd as <-. apply mapM_Ok, display_items in Hm as [Hkeys _].
  simpl. rewrite dict_lookup_items_absent; [done|by rewrite Hkeys].
Qed.

Ltac solve_copies :=
  unfold copies, box_fields, plus_minus_field, team_info_fields, player_fields,
    meta_fields, game_header_fields; cbn [app];
  repeat (apply Forall_cons_2;
          [cbn [fst snd]; eapply dict_display_get; [eassumption | solve_keys | solve_elem]|]);
  apply Forall_nil_2.

Ltac solve_field :=
  first
    [ solve [eapply dict_display_get; [eassumption | solve_keys | solve_elem]]
    | match goal with
      | H : py_get ?x ?k = Ok _ |- _ = py_get ?x ?k =>
          rewrite H;
          solve [eapply dict_display_get; [eassumption | solve_keys | solve_elem]]
      end ].

(** The meta record copies [version], [request] and [time] from a
    non-empty [meta] object; the game-header record copies the three ids
    from a non-empty [boxScoreTraditional] object. *)
Theorem meta_and_header_copied data source_file game_date :
  (forall meta,
     object_at data "meta" meta -> nonempty_object meta ->
     exists record,
       extract_meta_data data source_file game_date = Ok [record] /\
       copies record meta meta_fields) /\
  (forall boxscore,
     object_at data "boxScoreTraditional" boxscore -> nonempty_object boxscore ->
     exists record,
       extract_game_header data source_file game_date = Ok [record] /\
       copies record boxscore game_header_fields).
Proof.
  split.
  - intros meta Hmeta Hne.
    assert (exists records,
      extract_meta_data data source_file game_date = Ok records /\
      exists record, records = [record] /\ copies record meta meta_fields)
      as (records & Hr & record & -> & Hc); [|by exists record].
    apply ex_return_records. repeat run_step.
    eexists. split; [reflexivity|]. solve_copies.
  - intros boxscore Hbox Hne.
    assert (exists records,
      extract_game_header data source_file game_date = Ok records /\
      exists record, records = [record] /\ copies record boxscore game_header_fields)
      as (records & Hr & record & -> & Hc); [|by exists record].
    apply ex_return_records. repeat run_step.
    eexists. split; [reflexivity|]. solve_copies.
Qed.

Lemma meta_and_header_copied_witness :
  (exists record,
     extract_meta_data sample_boxscore (PStr sample_blob) PNone = Ok [record] /\
     copies record (PDict [("version", PInt 1); ("time", PStr "2025-04-05T03:00:00")])
       meta_fields) /\
  (exists record,
     extract_game_header sample_boxscore (PStr sample_blob) PNone = Ok [record] /\
     copies record
       (PDict [("gameId", PStr "0022400752");
               ("homeTeam", sample_home_team);
               ("awayTeam", sample_away_team)]) game_header_fields).
Proof.
  destruct (meta_and_header_copied sample_boxscore (PStr sample_blob) PNone)
    as [Hmeta Hheader].
  split.
  - apply Hmeta; eexists; (split; [reflexivity|]); [reflexivity|discriminate].
  - apply Hheader; eexists; (split; [reflexivity|]); [reflexivity|discriminate].
Defined.

(** A key that no entry of the display has is not in the record. *)
Lemma dict_display_no_key entries d k :
  dict_display entries = Ok d -> k ∉ entries.*1 -> has_no_key d k.
Proof.
  unfold dict_display. intros Hd Hk.
  destruct (mapM _ entries) as [kvs|e] eqn:Hm; simpl in Hd; [|discriminate].
  injection Hd as <-. apply mapM_Ok, display_items in Hm as [Hkeys _].
  eexists. split; [reflexivity|].
  rewrite dict_lookup_items_absent; [done|by rewrite Hkeys].
Qed.

Ltac solve_flags :=
  split; (eapply dict_display_get; [eassumption | solve_keys | solve_elem]).

Ltac solve_keyed :=
  unfold keyed_by_team; repeat split; solve_field.

(** The two records of each team-scoped extractor. *)
Lemma extract_team_info_pair data boxscore home_team away_team source_file game_date :
  object_at data "boxScoreTraditional" boxscore ->
  object_at boxscore "homeTeam" home_team ->
  object_at boxscore "awayTeam" away_team ->
  nonempty_object home_team -> nonempty_object away_team ->
  exists home away,
    extract_team_info data source_file game_date = Ok [home; away] /\
    flagged_home_away home away /\
    copies home home_team team_info_fields /\
    copies away away_team team_info_fields /\
    keyed_by_team home away home_team away_team boxscore.
Proof.
  intros Hbox Hhome Haway Hh Ha.
  assert (exists records,
    extract_team_info data source_file game_date = Ok records /\
    exists home away, records = [home; away] /\
      flagged_home_away home away /\
      copies home home_team team_info_fields /\
      copies away away_team team_info_fields /\
      keyed_by_team home away home_team away_team boxscore)
    as (records & Hr & home & away & -> & H); [|by exists home, away].
  apply ex_return_records. repeat run_step.
  eexists _, _. split; [reflexivity|].
  split; [solve_flags|]. split; [solve_copies|]. split; [solve_copies|]. solve_keyed.
Qed.

Lemma extract_team_statistics_pair
  data boxscore home_team away_team home_stats away_stats source_file game_date :
  object_at data "boxScoreTraditional" boxscore ->
  object_at boxscore "homeTeam" home_team ->
  object_at boxscore "awayTeam" away_team ->
  object_at home_team "statistics" home_stats -> nonempty_object home_stats ->
  object_at away_team "statistics" away_stats -> nonempty_object away_stats ->
  exists home away,
    extract_team_statistics data source_file game_date = Ok [home; away] /\
    flagged_home_away home away /\
    copies home home_stats (box_fields ++ plus_minus_field) /\
    copies away away_stats (box_fields ++ plus_minus_field) /\
    keyed_by_team home away home_team away_team boxscore.
Proof.
  intros Hbox Hhome Haway Hhs Hhs' Has Has'.
  assert (exists records,
    extract_team_statistics data source_file game_date = Ok records /\
    exists home away, records = [home; away] /\
      flagged_home_away home away /\
      copies home home_stats (box_fields ++ plus_minus_field) /\
      copies away away_stats (box_fields ++ plus_minus_field) /\
      keyed_by_team home away home_team away_team boxscore)
    as (records & Hr & home & away & -> & H); [|by exists home, away].
  apply ex_return_records. repeat run_step.
  eexists _, _. split; [reflexivity|].
  split; [solve_flags|]. split; [solve_copies|]. split; [solve_copies|]. solve_keyed.
Qed.

Lemma extract_team_starters_pair
  data boxscore home_team away_team home_starters away_starters source_file game_date :
  object_at data "boxScoreTraditional" boxscore ->
  object_at boxscore "homeTeam" home_team ->
  object_at boxscore "awayTeam" away_team ->
  object_at home_team "starters" home_starters -> nonempty_object home_starters ->
  object_at away_team "starters" away_starters -> nonempty_object away_starters ->
  exists home away,
    extract_team_starters data source_file game_date = Ok [home; away] /\
    flagged_home_away home away /\
    copies home home_starters box_fields /\
    copies away away_starters box_fields /\
    keyed_by_team home away home_team away_team boxscore /\
    has_no_key home "plus_minus_points" /\
    has_no_key away "plus_minus_points".
Proof.
  intros Hbox Hhome Haway Hhs Hhs' Has Has'.
  assert (exists records,
    extract_team_starters data source_file game_date = Ok records /\
    exists home away, records = [home; away] /\
      flagged_home_away home away /\
      copies home home_starters box_fields /\
      copies away away_starters box_fields /\
      keyed_by_team home away home_team away_team boxscore /\
      has_no_key home "plus_minus_points" /\
      has_no_key away "plus_minus_points")
    as (records & Hr & home & away & -> & H); [|by exists home, away].
  apply ex_return_records. repeat run_step.
  eexists _, _. split; [reflexivity|].
  split; [solve_flags|]. split; [solve_copies|]. split; [solve_copies|].
  split; [solve_keyed|].
  split; (eapply dict_display_no_key; [eassumption|];
          apply (bool_decide_unpack _); vm_compute; exact I).
Qed.



(** With both teams present, the team records copy the identity fields
    of each team, the statistics (or starters) fields of its section,
    the team id of its team and the game id of the boxscore, with no
    transformation; [rebounds_total] in particular is the source's
    [reboundsTotal].  A team-statistics record also copies
    [plusMinusPoints]; a starters record has no [plus_minus_points]
    key. *)
Theorem team_records_copied data boxscore home_team away_team source_file game_date :
  object_at data "boxScoreTraditional" boxscore ->
  object_at boxscore "homeTeam" home_team ->
  object_at boxscore "awayTeam" away_team ->
  (nonempty_object home_team -> nonempty_object away_team ->
   exists home away,
     extract_team_info data source_file game_date = Ok [home; away] /\
     copies home home_team team_info_fields /\
     copies away away_team team_info_fields /\
     py_get home "game_id" = py_get boxscore "gameId" /\
     py_get away "game_id" = py_get boxscore "gameId") /\
  (forall home_stats away_stats,
     object_at home_team "statistics" home_stats -> nonempty_object home_stats ->
     object_at away_team "statistics" away_stats -> nonempty_object away_stats ->
     exists home away,
       extract_team_statistics data source_file game_date = Ok [home; away] /\
       copies home home_stats (box_fields ++ plus_minus_field) /\
       copies away away_stats (box_fields ++ plus_minus_field) /\
       keyed_by_team home away home_team away_team boxscore) /\
  (forall home_starters away_starters,
     object_at home_team "starters" home_starters -> nonempty_object home_starters ->
     object_at away_team "starters" away_starters -> nonempty_object away_starters ->
     exists home away,
       extract_team_starters data source_file game_date = Ok [home; away] /\
       copies home home_starters box_fields /\
       copies away away_starters box_fields /\
       keyed_by_team home away home_team away_team boxscore /\
       has_no_key home "plus_minus_points" /\
       has_no_key away "plus_minus_points").
Proof.
  intros Hbox Hhome Haway. split; [|split].
  - intros Hh Ha.
    destruct (extract_team_info_pair data boxscore home_team away_team source_file
                game_date Hbox Hhome Haway Hh Ha)
      as (home & away & Hr & _ & Hch & Hca & (_ & _ & Hgh & Hga)).
    by exists home, away.
  - intros home_stats away_stats Hhs Hhs' Has Has'.
    destruct (extract_team_statistics_pair data boxscore home_team away_team home_stats
                away_stats source_file game_date Hbox Hhome Haway Hhs Hhs' Has Has')
      as (home & away & Hr & _ & Hch & Hca & Hkeyed).
    by exists home, away.
  - intros home_starters away_starters Hhs Hhs' Has Has'.
    destruct (extract_team_starters_pair data boxscore home_team away_team home_starters
                away_starters source_file game_date Hbox Hhome Haway Hhs Hhs' Has Has')
      as (home & away & Hr & _ & Hch & Hca & Hkeyed & Hno_home & Hno_away).
    by exists home, away.
Qed.

Lemma team_records_copied_witness :
  (exists home away,
     extract_team_info sample_boxscore (PStr sample_blob) PNone = Ok [home; away] /\
     copies home sample_home_team team_info_fields) /\
  (exists home away,
     extract_team_statistics sample_boxscore (PStr sample_blob) PNone = Ok [home; away] /\
     py_get home "rebounds_total" = Ok (PInt 44)) /\
  (exists home away,
     extract_team_starters sample_boxscore (PStr sample_blob) PNone = Ok [home; away] /\
     py_get home "game_id" = Ok (PStr "0022400752") /\
     has_no_key away "plus_minus_points").
Proof.
  assert (nonempty_object sample_stats) as Hstats.
  { eexists. split; [reflexivity|discriminate]. }
  destruct (team_records_copied sample_boxscore sample_box sample_home_team
              sample_away_team (PStr sample_blob) PNone)
    as (Hinfo & Hstat & Hstart);
    [eexists; split; reflexivity ..|].
  split; [|split].
  - destruct Hinfo as (home & away & Hr & Hc & _);
      [eexists; (split; [reflexivity|discriminate]) ..|].
    by exists home, away.
  - destruct (Hstat sample_stats sample_stats)
      as (home & away & Hr & Hc & _);
      [eexists; split; reflexivity | exact Hstats
      | eexists; split; reflexivity | exact Hstats |].
    exists home, away. split; [exact Hr|].
    unfold copies in Hc. rewrite Forall_forall in Hc.
    apply (Hc ("rebounds_total", "reboundsTotal")%string).
    do 12 right. left.
  - destruct (Hstart sample_stats sample_stats)
      as (home & away & Hr & _ & _ & (_ & _ & Hgame & _) & _ & Hno);
      [eexists; split; reflexivity | exact Hstats
      | eexists; split; reflexivity | exact Hstats |].
    exists home, away. split; [exact Hr|]. split; [exact Hgame|exact Hno].
Defined.

Lemma home_player_record_copied game_id team_id source_file game_date i player stats record :
  home_player_record game_id team_id source_file game_date i player = Ok record ->
  object_at player "statistics" stats ->
  copies record player player_fields /\
  copies record stats (box_fields ++ plus_minus_field) /\
  py_get record "team_id" = Ok team_id /\
  py_get record "game_id" = Ok game_id.
Proof.
  unfold home_player_record. intros Hd Hs.
  rewrite (object_at_get _ _ _ Hs) in Hd. simpl in Hd.
  split; [solve_copies|]. split; [solve_copies|]. split; solve_field.
Qed.

Lemma away_player_record_copied game_id team_id source_file game_date i player stats record :
  away_player_record game_id team_id source_file game_date i player = Ok record ->
  object_at player "statistics" stats ->
  copies record player player_fields /\
  copies record stats (box_fields ++ plus_minus_field) /\
  py_get record "team_id" = Ok team_id /\
  py_get record "game_id" = Ok game_id.
Proof.
  unfold away_player_record. intros Hd Hs.
  rewrite (object_at_get _ _ _ Hs) in Hd. simpl in Hd.
  split; [solve_copies|]. split; [solve_copies|]. split; solve_field.
Qed.

(** With well-formed rosters, the record of each roster entry copies the
    entry's identity fields and every field of its [statistics] with no
    transformation, and carries its team's id and the game id. *)
Theorem player_records_copied
  data boxscore home_team away_team home_players away_players source_file game_date :
  object_at data "boxScoreTraditional" boxscore ->
  object_at boxscore "homeTeam" home_team ->
  object_at boxscore "awayTeam" away_team ->
  object_at home_team "players" (PList home_players) ->
  object_at away_team "players" (PList away_players) ->
  Forall roster_entry home_players ->
  Forall roster_entry away_players ->
  exists records,
    extract_player_statistics data source_file game_date = Ok records /\
    roster_copied records 0 home_players
      (py_get home_team "teamId") (py_get boxscore "gameId") /\
    roster_copied records (length home_players) away_players
      (py_get away_team "teamId") (py_get boxscore "gameId").
Proof.
  intros Hbox Hhome Haway Hhp Hap Hhs Has.
  apply ex_return_records. do 4 run_step.
  eapply ex_runs_bind; [apply runs_eval, players_of_team, Hhp|]. cbv beta.
  destruct (runs_for_each_enumerate
              (home_player_record v v0 source_file game_date) home_players [])
    as (home_records & Hrun & Hlen & Hrec).
  { intros i x Hx. apply roster_entry_home_record.
    by eapply Forall_lookup_1 in Hhs. }
  eapply ex_runs_bind; [exact Hrun|]. clear Hrun. cbv beta.
  do 2 run_step.
  eapply ex_runs_bind; [apply runs_eval, players_of_team, Hap|]. cbv beta.
  destruct (runs_for_each_enumerate
              (away_player_record v v1 source_file game_date) away_players
              ([] ++ home_records))
    as (away_records & Hrun & Hlen' & Hrec').
  { intros i x Hx. apply roster_entry_away_record.
    by eapply Forall_lookup_1 in Has. }
  eexists. split; [exact Hrun|]. clear Hrun. simpl.
  split.
  - intros i player stats Hi Hstats.
    destruct (Hrec i) as (x & record & Hx & Hnew & HF); [by eapply lookup_lt_Some|].
    assert (x = player) as -> by congruence.
    exists record. split.
    + rewrite lookup_app_l by (apply lookup_lt_Some in Hnew; lia). done.
    + rewrite Hv, Hv0. by eapply home_player_record_copied.
  - intros i player stats Hi Hstats.
    destruct (Hrec' i) as (x & record & Hx & Hnew & HF); [by eapply lookup_lt_Some|].
    assert (x = player) as -> by congruence.
    exists record. split.
    + rewrite lookup_app_r by lia. rewrite <- Hnew. f_equal. lia.
    + rewrite Hv, Hv1. by eapply away_player_record_copied.
Qed.

Lemma player_records_copied_witness :
  exists records,
    extract_player_statistics sample_boxscore (PStr sample_blob) PNone = Ok records /\
    roster_copied records 0
      [sample_player 1628369 "Tatum"; sample_player 1627759 "Brown"]
      (Ok (PInt 1610612738)) (Ok (PStr "0022400752")) /\
    roster_copied records 2 [sample_player 1628389 "Adebayo"]
      (Ok (PInt 1610612748)) (Ok (PStr "0022400752")).
Proof.
  assert (forall id name, roster_entry (sample_player id name)) as Hentry.
  { intros id name. eexists. split; [eexists; split; reflexivity|by eexists]. }
  apply (player_records_copied sample_boxscore sample_box sample_home_team
           sample_away_team
           [sample_player 1628369 "Tatum"; sample_player 1627759 "Brown"]
           [sample_player 1628389 "Adebayo"]).
  - eexists. split; reflexivity.
  - eexists. split; reflexivity.
  - eexists. split; reflexivity.
  - eexists. split; reflexivity.
  - eexists. split; reflexivity.
  - repeat constructor; apply Hentry.
  - repeat constructor; apply Hentry.
Defined.

(** ** The game date and the partition path *)

Lemma append_cons c s t : (String c s ++ t)%string = String c (s ++ t)%string.
Proof. reflexivity. Qed.

Lemma append_nil s : ("" ++ s)%string = s.
Proof. reflexivity. Qed.

Lemma append_assoc_str a b c : ((a ++ b) ++ c)%string = (a ++ (b ++ c))%string.
Proof.
  induction a as [|x a IH]; [done|]. rewrite !append_cons. by rewrite IH.
Qed.

Lemma free_of_cons c a s : free_of c (String a s) <-> a <> c /\ free_of c s.
Proof. unfold free_of. simpl. tauto. Qed.

Lemma free_of_nil c : free_of c "".
Proof. unfold free_of. simpl. tauto. Qed.

Lemma free_of_app c a b : free_of c a -> free_of c b -> free_of c (a ++ b)%string.
Proof.
  intros Ha Hb. induction a as [|x a IH]; [done|].
  rewrite append_cons. apply free_of_cons in Ha as [Hx Ha].
  apply free_of_cons. auto.
Qed.

Lemma str_split_free sep s : free_of sep s -> str_split sep s = [s].
Proof.
  induction s as [|c s IH]; [done|].
  intros [Hc Hs]%free_of_cons. cbn [str_split].
  destruct (Ascii.eqb_spec c sep) as [?|_]; [done|]. by rewrite IH.
Qed.

Lemma str_split_app sep a b :
  free_of sep a ->
  str_split sep (a ++ String sep b)%string = a :: str_split sep b.
Proof.
  induction a as [|c a IH].
  - intros _. rewrite append_nil. cbn [str_split]. by rewrite Ascii.eqb_refl.
  - intros [Hc Ha]%free_of_cons. rewrite append_cons. cbn [str_split].
    destruct (Ascii.eqb_spec c sep) as [?|_]; [done|]. by rewrite IH.
Qed.

Lemma str_split_parts_free c sep s :
  free_of c s -> Forall (free_of c) (str_split sep s).
Proof.
  induction s as [|x s IH]; intros Hs.
  - repeat constructor. apply free_of_nil.
  - apply free_of_cons in Hs as [Hx Hs]. specialize (IH Hs). cbn [str_split].
    destruct (Ascii.eqb x sep).
    + constructor; [apply free_of_nil|done].
    + destruct (str_split sep s) as [|seg rest]; [repeat constructor|].
      * by apply free_of_cons; split; [|apply free_of_nil].
      * inversion_clear IH. constructor; [|done]. by apply free_of_cons.
Qed.

(** A prefix's characters all occur in the string. *)
Lemma startswith_chars s p c :
  startswith s p = true -> In c (list_ascii_of_string p) -> In c (list_ascii_of_string s).
Proof.
  unfold startswith. revert s. induction p as [|x p IH]; intros s; [simpl; tauto|].
  destruct s as [|y s]; cbn [String.prefix]; [done|].
  destruct (ascii_dec x y) as [<-|]; [|done].
  intros Hp [->|Hin]; simpl; [by left|]. right. by apply IH.
Qed.

Lemma free_of_not_startswith s p :
  free_of "=" s -> In "="%char (list_ascii_of_string p) -> startswith s p = false.
Proof.
  intros Hs Hp. destruct (startswith s p) eqn:H; [|done].
  exfalso. apply Hs. by eapply startswith_chars.
Qed.

Lemma date_component_step_plain ymd part :
  free_of "=" part -> date_component_step ymd part = Ok ymd.
Proof.
  intros Hp. destruct ymd as [[y m] d]. unfold date_component_step.
  rewrite !(free_of_not_startswith part) by (done || (simpl; tauto)). done.
Qed.

Lemma date_components_plain ymd parts :
  Forall (free_of "=") parts -> date_components ymd parts = Ok ymd.
Proof.
  induction 1 as [|part parts Hp _ IH]; simpl; [done|].
  by rewrite date_component_step_plain.
Qed.

Lemma digit_is_not c a : is_digit a = true -> is_digit c = false -> a <> c.
Proof. intros Ha Hc ->. congruence. Qed.

Lemma digits_free_of c s : all_digits s = true -> is_digit c = false -> free_of c s.
Proof.
  intros Hs Hc. induction s as [|a s IH]; [apply free_of_nil|].
  cbn [all_digits] in Hs. apply andb_prop in Hs as [Ha Hs].
  apply free_of_cons. split; [by apply digit_is_not|by apply IH].
Qed.

Lemma digits_plain s : digits s -> plain s.
Proof. intros [Hs _]. split; by apply digits_free_of. Qed.

Lemma digit_not_continuation c : is_digit c = true -> is_continuation_byte c = false.
Proof.
  unfold is_digit, is_continuation_byte. cbv zeta.
  intros [_ H]%andb_prop. apply Nat.leb_le in H.
  destruct (Nat.leb_spec 128 (nat_of_ascii c)); [lia|done].
Qed.

Lemma digit_not_sign c : is_digit c = true -> Ascii.eqb c "+" || Ascii.eqb c "-" = false.
Proof.
  intros Hc. destruct (Ascii.eqb_spec c "+") as [->|_]; [discriminate|].
  by destruct (Ascii.eqb_spec c "-") as [->|_].
Qed.

Lemma digits_py_len s : all_digits s = true -> py_len s = String.length s.
Proof.
  induction s as [|c s IH]; [done|]. cbn [all_digits py_len String.length].
  intros [Hc Hs]%andb_prop. by rewrite (digit_not_continuation c Hc), (IH Hs).
Qed.

(** On a number, [zfill(2)] writes one zero before a single digit. *)
Lemma zfill_digits s : digits s -> zfill 2 s = padded2 s.
Proof.
  intros [Hs Hne]. unfold zfill, padded2. rewrite (digits_py_len s Hs).
  destruct s as [|c s]; [done|]. cbn [all_digits] in Hs.
  apply andb_prop in Hs as [Hc Hs]. rewrite (digit_not_sign c Hc).
  destruct s as [|c' s]; [done|].
  cbn [String.length]. by destruct s.
Qed.

Lemma str_truthy_nonempty s : s <> ""%string -> str_truthy (Some s) = true.
Proof. by destruct s. Qed.

Lemma partition_blob_split yesterday name :
  plain (Bronze.year yesterday) -> plain (Bronze.month yesterday) ->
  plain (Bronze.day yesterday) -> plain name ->
  str_split "/" (Stage.date_path_of yesterday ++ "/" ++ name)%string
  = [("year=" ++ Bronze.year yesterday)%string;
     ("month=" ++ Bronze.month yesterday)%string;
     ("day=" ++ Bronze.day yesterday)%string; name].
Proof.
  intros [Hy _] [Hm _] [Hd _] [Hn _]. unfold Stage.date_path_of.
  set (y := Bronze.year yesterday) in *. set (m := Bronze.month yesterday) in *.
  set (d := Bronze.day yesterday) in *.
  replace (("year=" ++ y ++ "/month=" ++ m ++ "/day=" ++ d) ++ "/" ++ name)%string
    with (("year=" ++ y) ++ String "/" (("month=" ++ m) ++ String "/"
            (("day=" ++ d) ++ String "/" name)))%string.
  2:{ rewrite !append_assoc_str. reflexivity. }
  assert (forall k v, free_of "/" k -> free_of "/" v -> free_of "/" (k ++ v)%string)
    as Happ by (intros; by apply free_of_app).
  assert (free_of "/" "year=" /\ free_of "/" "month=" /\ free_of "/" "day=")
    as (Hky & Hkm & Hkd).
  { unfold free_of. simpl. repeat split; intros H;
      repeat (destruct H as [H|H]; [discriminate|]); done. }
  rewrite !str_split_app by auto. by rewrite str_split_free.
Qed.

Lemma startswith_key key value : startswith (key ++ value)%string key = true.
Proof.
  unfold startswith. induction key as [|c key IH].
  - rewrite append_nil. by destruct value.
  - rewrite append_cons. cbn [String.prefix]. by destruct (ascii_dec c c).
Qed.

Lemma key_value_step (key value : string) :
  free_of "=" key -> free_of "=" value ->
  str_list_getitem (str_split "=" (key ++ String "=" value)%string) 1 = Ok value.
Proof.
  intros Hk Hv. rewrite str_split_app by done. by rewrite str_split_free.
Qed.

Lemma parse_game_date_partition yesterday name :
  plain (Bronze.year yesterday) -> plain (Bronze.month yesterday) ->
  plain (Bronze.day yesterday) -> plain name ->
  Bronze.year yesterday <> ""%string -> Bronze.month yesterday <> ""%string ->
  Bronze.day yesterday <> ""%string ->
  parse_game_date (Stage.date_path_of yesterday ++ "/" ++ name)%string
  = Ok (PStr (Bronze.year yesterday ++ "-" ++ zfill 2 (Bronze.month yesterday)
                ++ "-" ++ zfill 2 (Bronze.day yesterday))%string).
Proof.
  intros Hy Hm Hd Hn Hy0 Hm0 Hd0.
  unfold parse_game_date. rewrite partition_blob_split by done.
  destruct Hy as [_ Hy], Hm as [_ Hm], Hd as [_ Hd], Hn as [_ Hn].
  assert (free_of "=" "year" /\ free_of "=" "month" /\ free_of "=" "day")
    as (Hky & Hkm & Hkd).
  { unfold free_of. simpl. repeat split; intros H;
      repeat (destruct H as [H|H]; [discriminate|]); done. }
  cbn [date_components].
  assert (date_component_step (None, None, None) ("year=" ++ Bronze.year yesterday)
          = Ok (Some (Bronze.year yesterday), None, None)) as ->.
  { pose proof (startswith_key "year=" (Bronze.year yesterday)) as Hs.
    assert (str_list_getitem (str_split "=" ("year=" ++ Bronze.year yesterday)%string) 1
            = Ok (Bronze.year yesterday)) as Hk
      by (by apply (key_value_step "year")).
    unfold date_component_step. rewrite Hs, Hk. reflexivity. }
  cbn [mbind result_bind].
  assert (date_component_step (Some (Bronze.year yesterday), None, None)
            ("month=" ++ Bronze.month yesterday)
          = Ok (Some (Bronze.year yesterday), Some (Bronze.month yesterday), None)) as ->.
  { pose proof (startswith_key "month=" (Bronze.month yesterday)) as Hs.
    assert (str_list_getitem (str_split "=" ("month=" ++ Bronze.month yesterday)%string) 1
            = Ok (Bronze.month yesterday)) as Hk
      by (by apply (key_value_step "month")).
    unfold date_component_step. rewrite Hs, Hk. reflexivity. }
  cbn [mbind result_bind].
  assert (date_component_step
            (Some (Bronze.year yesterday), Some (Bronze.month yesterday), None)
            ("day=" ++ Bronze.day yesterday)
          = Ok (Some (Bronze.year yesterday), Some (Bronze.month yesterday),
                Some (Bronze.day yesterday))) as ->.
  { pose proof (startswith_key "day=" (Bronze.day yesterday)) as Hs.
    assert (str_list_getitem (str_split "=" ("day=" ++ Bronze.day yesterday)%string) 1
            = Ok (Bronze.day yesterday)) as Hk
      by (by apply (key_value_step "day")).
    unfold date_component_step. rewrite Hs, Hk. reflexivity. }
  cbn [mbind result_bind].
  rewrite date_component_step_plain by done.
  cbn [mbind result_bind]. unfold format_game_date.
  rewrite !str_truthy_nonempty by done. reflexivity.
Qed.

(** What [process_single_file] stamps on the records of a snapshot that
    decodes. *)
Lemma process_single_file_dated storage_client bucket_name blob_name data game_date :
  raw_response_of storage_client bucket_name blob_name = Ok (Dumps data) ->
  parse_game_date blob_name = Ok game_date ->
  exists records,
    process_single_file storage_client bucket_name blob_name = Ok records /\
    dated game_date records.
Proof.
  unfold raw_response_of, process_single_file. intros H Hdate.
  destruct (download_parquet _ _ _) as [df|]; simpl in *; [|discriminate].
  destruct (iloc df 0) as [row|]; simpl in *; [|discriminate].
  rewrite H. simpl. rewrite Hdate. simpl.
  destruct (extract_all_tagged data (PStr blob_name) game_date) as (records & -> & Ht).
  exists records. split; [done|].
  unfold dated. eapply Forall_impl; [exact Ht|]. by intros record [_ Hd].
Qed.

(** For a snapshot directly under the partition path that both stages
    build from yesterday's date (year, month and day printed as digits),
    every record [process_single_file] returns is stamped with that
    date, a month or day of one digit written with a zero before it; the
    stamp is the processor's [date_parameter] when month and day have two
    digits, as [strftime] prints them.  A snapshot whose path holds no
    [=] is stamped with no date. *)
Theorem game_date_of_partition storage_client bucket_name data :
  (forall yesterday name,
     digits (Bronze.year yesterday) -> digits (Bronze.month yesterday) ->
     digits (Bronze.day yesterday) -> plain name ->
     raw_response_of storage_client bucket_name
       (Stage.date_path_of yesterday ++ "/" ++ name)%string = Ok (Dumps data) ->
     exists records,
       process_single_file storage_client bucket_name
         (Stage.date_path_of yesterday ++ "/" ++ name)%string = Ok records /\
       dated (PStr (Bronze.year yesterday ++ "-" ++ padded2 (Bronze.month yesterday)
                      ++ "-" ++ padded2 (Bronze.day yesterday))%string) records /\
       (String.length (Bronze.month yesterday) = 2 ->
        String.length (Bronze.day yesterday) = 2 ->
        dated (PStr (Stage.date_parameter_of yesterday)) records)) /\
  (forall blob_name,
     free_of "=" blob_name ->
     raw_response_of storage_client bucket_name blob_name = Ok (Dumps data) ->
     exists records,
       process_single_file storage_client bucket_name blob_name = Ok records /\
       dated PNone records).
Proof.
  split.
  - intros yesterday name Hy Hm Hd Hn Hraw.
    destruct (process_single_file_dated storage_client bucket_name _ data _ Hraw
                (parse_game_date_partition yesterday name (digits_plain _ Hy)
                   (digits_plain _ Hm) (digits_plain _ Hd) Hn
                   (proj2 Hy) (proj2 Hm) (proj2 Hd)))
      as (records & Hrun & Hdated).
    rewrite (zfill_digits _ Hm), (zfill_digits _ Hd) in Hdated.
    exists records. split; [done|]. split; [done|].
    intros Hlm Hld. unfold padded2 in Hdated. rewrite Hlm, Hld in Hdated.
    exact Hdated.
  - intros blob_name Hfree Hraw.
    apply (process_single_file_dated storage_client bucket_name _ data _ Hraw).
    unfold parse_game_date.
    rewrite date_components_plain; [done|]. by apply str_split_parts_free.
Qed.

Ltac solve_plain :=
  split; unfold free_of; simpl; intros H;
  repeat (destruct H as [H|H]; [discriminate|]); destruct H.

Lemma game_date_of_partition_witness :
  (exists records,
     process_single_file sample_store "boxscores"
       (Stage.date_path_of sample_partition ++ "/" ++ "0022400752.parquet")%string
     = Ok records /\
     dated (PStr "2025-04-04") records) /\
  (exists records,
     process_single_file undated_store "boxscores" "0022400752.parquet" = Ok records /\
     dated PNone records).
Proof.
  split.
  - destruct (game_date_of_partition sample_store "boxscores" sample_boxscore)
      as [Hdate _].
    destruct (Hdate sample_partition "0022400752.parquet"%string)
      as (records & Hrun & _ & Hparam).
    + split; [reflexivity|discriminate].
    + split; [reflexivity|discriminate].
    + split; [reflexivity|discriminate].
    + solve_plain.
    + vm_compute. reflexivity.
    + exists records. split; [exact Hrun|]. apply Hparam; reflexivity.
  - destruct (game_date_of_partition undated_store "boxscores" sample_boxscore)
      as [_ Hnone].
    apply Hnone.
    + unfold free_of. simpl. intros H.
      repeat (destruct H as [H|H]; [discriminate|]). destruct H.
    + vm_compute. reflexivity.
Defined.

(** ** What the bulk loader leaves in the warehouse *)

Lemma load_chunks_rows job_fails table_ref data chunk_size offsets w :
  let w' := snd (load_chunks job_fails table_ref data chunk_size offsets w) in
  rows w' table_ref
  = rows w table_ref
    ++ concat (imap (fun k i => if job_fails (length (jobs w) + k) then []
                                else slice data i (i + chunk_size)) offsets) /\
  forall t, t <> table_ref -> tables w' !! t = tables w !! t.
Proof.
  revert w. induction offsets as [|i offsets IH]; intros w; cbn [load_chunks imap concat].
  - simpl. by rewrite app_nil_r.
  - unfold load_table. destruct (job_fails (length (jobs w))) eqn:Hf.
    + cbn [is_Exception].
      match goal with
      | |- context [load_chunks _ _ _ _ _ ?w1] => destruct (IH w1) as [Hr Ht]
      end.
      cbn [snd] in *. rewrite Nat.add_0_r, Hf. split.
      * rewrite Hr. unfold rows at 2. cbn [tables jobs]. simpl.
        f_equal. f_equal. apply imap_ext. intros k x _. simpl.
        rewrite length_app. simpl.
        by replace (length (jobs w) + 1 + k) with (length (jobs w) + S k) by lia.
      * intros t Hne. by rewrite Ht.
    + match goal with
      | |- context [load_chunks _ _ _ _ _ ?w1] => destruct (IH w1) as [Hr Ht]
      end.
      cbn [snd] in *. rewrite Nat.add_0_r, Hf. split.
      * rewrite Hr. unfold rows. cbn [tables jobs].
        rewrite lookup_insert_eq. cbn [default]. unfold id.
        rewrite <- app_assoc. f_equal. f_equal. f_equal.
        apply imap_ext. intros k x _. simpl.
        rewrite length_app. simpl.
        by replace (length (jobs w) + 1 + k) with (length (jobs w) + S k) by lia.
      * intros t Hne. rewrite Ht by done. cbn [tables].
        by rewrite lookup_insert_ne.
Qed.

Lemma loaded_rows_no_failure job_fails first_job chunk_list :
  (forall n, job_fails n = false) ->
  loaded_rows job_fails first_job chunk_list = concat chunk_list.
Proof.
  intros Hnone. unfold loaded_rows.
  transitivity (concat (imap (const id) chunk_list)).
  - f_equal. apply imap_ext. intros k x _. simpl. by rewrite Hnone.
  - by rewrite imap_const, list_fmap_id.
Qed.

Lemma insert_to_bigquery_rows_general self job_fails data w :
  let w' := snd (insert_to_bigquery self job_fails data w) in
  rows w' (table_ref_of self)
  = rows w (table_ref_of self)
    ++ loaded_rows job_fails (length (jobs w)) (chunks data 10000) /\
  forall t, t <> table_ref_of self -> tables w' !! t = tables w !! t.
Proof.
  unfold insert_to_bigquery. destruct data as [|record data].
  - simpl. split; [|done]. vm_compute loaded_rows. by rewrite app_nil_r.
  - cbn [truthy negb].
    destruct (load_chunks_rows job_fails (table_ref_of self) (record :: data) 10000
                (py_range 0 (length (record :: data)) 10000) w) as [Hr Ht].
    split; [|exact Ht].
    unfold table_ref_of in *. rewrite Hr. f_equal.
    unfold loaded_rows, chunks. by rewrite imap_fmap.
Qed.

(** After [insert_to_bigquery] the target table holds its former rows
    followed by the rows of the chunks whose job succeeded, in order:
    the rows of a failed chunk are missing and nothing is rolled back.
    No other table changes.  When no job fails the table holds the former
    rows followed by the input, so loading the same records twice leaves
    them twice in the table. *)
Theorem insert_to_bigquery_rows self job_fails data w :
  rows (snd (insert_to_bigquery self job_fails data w)) (table_ref_of self)
  = rows w (table_ref_of self)
    ++ loaded_rows job_fails (length (jobs w)) (chunks data 10000) /\
  (forall t, t <> table_ref_of self ->
     tables (snd (insert_to_bigquery self job_fails data w)) !! t = tables w !! t) /\
  ((forall n, job_fails n = false) ->
   rows (snd (insert_to_bigquery self job_fails data w)) (table_ref_of self)
   = rows w (table_ref_of self) ++ data /\
   rows (snd (insert_to_bigquery self job_fails data
                (snd (insert_to_bigquery self job_fails data w)))) (table_ref_of self)
   = rows w (table_ref_of self) ++ data ++ data).
Proof.
  destruct (insert_to_bigquery_rows_general self job_fails data w) as [Hr Ht].
  split; [exact Hr|]. split; [exact Ht|].
  intros Hnone.
  assert (forall w0,
    rows (snd (insert_to_bigquery self job_fails data w0)) (table_ref_of self)
    = rows w0 (table_ref_of self) ++ data) as Hall.
  { intros w0.
    destruct (insert_to_bigquery_rows_general self job_fails data w0) as [-> _].
    rewrite loaded_rows_no_failure by done.
    rewrite chunks_concat; [done|]. vm_compute; lia. }
  split; [apply Hall|]. rewrite Hall, Hall. by rewrite <- app_assoc.
Qed.

Lemma insert_to_bigquery_rows_witness :
  rows (snd (insert_to_bigquery (sample_processor sample_store) no_job_fails
               sample_records empty_warehouse))
    (table_ref_of (sample_processor sample_store))
  = sample_records /\
  rows (snd (insert_to_bigquery (sample_processor sample_store) no_job_fails
               sample_records
               (snd (insert_to_bigquery (sample_processor sample_store) no_job_fails
                       sample_records empty_warehouse))))
    (table_ref_of (sample_processor sample_store))
  = sample_records ++ sample_records /\
  tables (snd (insert_to_bigquery (sample_processor sample_store) every_job_fails
                 sample_records empty_warehouse)) !! "nba-analytics.gold.players"
  = None.
Proof.
  destruct (insert_to_bigquery_rows (sample_processor sample_store) no_job_fails
              sample_records empty_warehouse) as (_ & _ & Hnone).
  destruct Hnone as [Hone Htwo]; [done|].
  destruct (insert_to_bigquery_rows (sample_processor sample_store) every_job_fails
              sample_records empty_warehouse) as (_ & Hother & _).
  split; [exact Hone|]. split; [exact Htwo|].
  rewrite Hother; [reflexivity|]. vm_compute. discriminate.
Defined.

(** ** The silver run *)

(** [run] loads nothing and answers "No games found to process" when the
    partition has no snapshot or the snapshots yield no record; it raises
    what [process_yesterdays_games] raises, before any load job; and
    otherwise it sends every extracted record, in order, to the target
    table and answers with the number of extracted records, whichever
    load jobs fail.  [run_silver_layer] adds the status 200 to every
    answer. *)
Theorem run_outcomes (self : NBASilverProcessor) job_fails w :
  (list_blobs (storage_client self) (bucket_name self) (Silver.date_path self) = Ok [] ->
   Stage.run self job_fails w = (Ok "No games found to process"%string, w)) /\
  (process_yesterdays_games self = Ok [] ->
   Stage.run self job_fails w = (Ok "No games found to process"%string, w)) /\
  (forall e, process_yesterdays_games self = Raise e ->
     Stage.run self job_fails w = (Raise e, w)) /\
  (forall records,
     process_yesterdays_games self = Ok records -> records <> [] ->
     exists w',
       Stage.run self job_fails w
       = (Ok ("Processed " ++ Stage.str_len (length records)
                ++ " total records from " ++ date_parameter self)%string, w') /\
       jobs w' = jobs w ++ map (pair (table_ref_of self)) (chunks records 10000) /\
       concat (chunks records 10000) = records /\
       rows w' (table_ref_of self)
       = rows w (table_ref_of self)
         ++ loaded_rows job_fails (length (jobs w)) (chunks records 10000)) /\
  (forall result w',
     Stage.run self job_fails w = (Ok result, w') ->
     Stage.run_silver_layer self job_fails w = (Ok (result, 200%Z), w')).
Proof.
  assert (process_yesterdays_games self = Ok [] ->
          Stage.run self job_fails w = (Ok "No games found to process"%string, w))
    as Hempty.
  { intros Hr. unfold Stage.run. by rewrite Hr. }
  split; [|split; [exact Hempty|split; [|split]]].
  - intros Hblobs. apply Hempty. unfold process_yesterdays_games. by rewrite Hblobs.
  - intros e Hr. unfold Stage.run. by rewrite Hr.
  - intros records Hr Hne. unfold Stage.run. rewrite Hr.
    destruct records as [|record records]; [done|]. cbn [truthy negb].
    destruct (insert_to_bigquery_jobs self job_fails (record :: records) w)
      as (w' & Hrun & Hjobs).
    destruct (insert_to_bigquery_rows_general self job_fails (record :: records) w)
      as [Hrows _].
    rewrite Hrun in *. exists w'. split; [reflexivity|]. split; [exact Hjobs|].
    split; [|exact Hrows]. apply chunks_concat. vm_compute; lia.
  - intros result w' Hr. unfold Stage.run_silver_layer. by rewrite Hr.
Qed.

Lemma run_outcomes_witness :
  (exists w',
     Stage.run (sample_processor sample_store) every_job_fails empty_warehouse
     = (Ok "Processed 11 total records from 2025-04-04"%string, w') /\
     rows w' (table_ref_of (sample_processor sample_store)) = []) /\
  Stage.run (sample_processor ∅) every_job_fails empty_warehouse
  = (Raise NotFound, empty_warehouse) /\
  Stage.run (sample_processor {[ "boxscores" := ∅ ]}) every_job_fails empty_warehouse
  = (Ok "No games found to process"%string, empty_warehouse) /\
  Stage.run_silver_layer (sample_processor {[ "boxscores" := ∅ ]}) every_job_fails
    empty_warehouse
  = (Ok ("No games found to process"%string, 200%Z), empty_warehouse).
Proof.
  split; [|split; [|split]].
  - destruct (run_outcomes (sample_processor sample_store) every_job_fails
                empty_warehouse) as (_ & _ & _ & Hrun & _).
    destruct (Hrun sample_records) as (w' & Hr & _ & _ & Hrows).
    + vm_compute. reflexivity.
    + vm_compute. discriminate.
    + exists w'. split; [exact Hr|]. rewrite Hrows. vm_compute. reflexivity.
  - apply (run_outcomes (sample_processor ∅) every_job_fails empty_warehouse).
    vm_compute. reflexivity.
  - apply (run_outcomes (sample_processor {[ "boxscores" := ∅ ]}) every_job_fails
             empty_warehouse).
    vm_compute. reflexivity.
  - destruct (run_outcomes (sample_processor {[ "boxscores" := ∅ ]}) every_job_fails
                empty_warehouse) as (Hnone & _ & _ & _ & Hlayer).
    apply Hlayer. apply Hnone. vm_compute. reflexivity.
Defined.

(** * Further properties of the fetch stage *)

(** ** The stored object *)

Lemma download_stored_eq bucket blob df s :
  download_parquet (stored bucket blob df s) bucket blob = Ok df.
Proof.
  unfold download_parquet, stored, gcs. rewrite lookup_insert_eq.
  cbn [mbind option_bind]. by rewrite lookup_insert_eq.
Qed.

Lemma download_stored_ne bucket blob df s bucket' blob' :
  (bucket', blob') <> (bucket, blob) ->
  download_parquet (stored bucket blob df s) bucket' blob'
  = download_parquet s bucket' blob'.
Proof.
  intros Hne. unfold download_parquet, stored, gcs in *.
  destruct (decide (bucket = bucket')) as [<-|Hb].
  - rewrite lookup_insert_eq. cbn [mbind option_bind].
    rewrite lookup_insert_ne by congruence.
    destruct (s !! bucket) as [m|]; cbn [default mbind option_bind]; [done|].
    by rewrite lookup_empty.
  - by rewrite lookup_insert_ne.
Qed.

Lemma raw_response_stored bucket blob payload s :
  raw_response_of (stored bucket blob (bronze_layer_df payload) s) bucket blob
  = Ok (Dumps payload).
Proof.
  unfold raw_response_of. rewrite download_stored_eq. simpl.
  unfold column. by rewrite lookup_singleton_eq.
Qed.

Lemma process_single_file_stored bucket blob payload s :
  process_single_file (stored bucket blob (bronze_layer_df payload) s) bucket blob
  = (game_date ← parse_game_date blob; extract_all payload (PStr blob) game_date).
Proof.
  unfold process_single_file. rewrite download_stored_eq. simpl.
  unfold column. by rewrite lookup_singleton_eq.
Qed.

(** A boxscore snapshot is stored only for a response that
    [raise_for_status] accepts and whose body decodes; it holds that
    body: reading it back gives the decoded payload, and
    [process_single_file] on the blob flattens exactly that payload.  No
    other object of the store is touched. *)
Theorem stored_boxscore_round_trip py_str self env game_id w w' :
  fetch_and_store py_str self env game_id w = (Ok tt, w') ->
  exists response payload,
    http_get env (length (trace w)) (boxscore_request self game_id) = Some response /\
    ((status_code response < 400)%Z \/ (600 <= status_code response)%Z) /\
    text response = Dumps payload /\
    raw_response_of (store w') (output_bucket self) (blob_of py_str self game_id)
    = Ok (Dumps payload) /\
    process_single_file (store w') (output_bucket self) (blob_of py_str self game_id)
    = (game_date ← parse_game_date (blob_of py_str self game_id);
       extract_all payload (PStr (blob_of py_str self game_id)) game_date) /\
    forall bucket blob,
      (bucket, blob) <> (output_bucket self, blob_of py_str self game_id) ->
      download_parquet (store w') bucket blob = download_parquet (store w) bucket blob.
Proof.
  unfold fetch_and_store, mbind, io_bind, get, lift.
  destruct (http_get env _ _) as [response|] eqn:Hget; [|discriminate].
  destruct (raise_for_status response) as [[]|e] eqn:Hs; [|discriminate].
  destruct (response_json response) as [payload|e] eqn:Hj; [|discriminate].
  unfold upload. destruct (upload_fails env _); [discriminate|].
  intros [= <-]. exists response, payload. split; [done|].
  split.
  { unfold raise_for_status in Hs.
    destruct (400 <=? status_code response)%Z eqn:H1;
      destruct (status_code response <? 600)%Z eqn:H2; simpl in Hs; try discriminate; lia. }
  split.
  { unfold response_json, json_loads in Hj.
    destruct (text response); by simplify_eq. }
  cbn [store log]. fold (blob_of py_str self game_id).
  fold (stored (output_bucket self) (blob_of py_str self game_id)
          (bronze_layer_df payload) (store w)).
  split; [apply raw_response_stored|]. split; [apply process_single_file_stored|].
  intros bucket blob Hne. by apply download_stored_ne.
Qed.

Lemma stored_boxscore_round_trip_witness :
  exists w',
    fetch_and_store sample_str sample_boxscore_processor always_up
      (PStr "0022400752") empty_world = (Ok tt, w') /\
    process_single_file (store w') "boxscores" sample_blob = Ok sample_records.
Proof.
  eexists. split; [reflexivity|].
  edestruct (stored_boxscore_round_trip sample_str sample_boxscore_processor always_up
               (PStr "0022400752") empty_world)
    as (response & payload & Hget & _ & Htext & _ & Hfile & _); [reflexivity|].
  injection Hget as <-. injection Htext as <-.
  etransitivity; [exact Hfile|]. vm_compute. reflexivity.
Defined.

(** ** Reading the game ids *)

Lemma next_game_header_first before game_header after :
  Forall named_otherwise before ->
  object_at game_header "name" (PStr "GameHeader") ->
  next_game_header (before ++ game_header :: after) = Ok (Some game_header).
Proof.
  intros Hb (m & -> & Hm). induction Hb as [|r rs (name & (m' & -> & Hm') & Hne) _ IH].
  - cbn [app next_game_header py_getitem]. rewrite Hm. reflexivity.
  - cbn [app next_game_header py_getitem]. rewrite Hm'.
    cbn [mbind result_bind]. by rewrite Hne.
Qed.

Lemma list_index_str_first s l j :
  first_position s l j -> list_index_str s l = Some j.
Proof.
  revert j. induction l as [|x l IH]; intros j [Hj Hfirst]; [done|].
  cbn [list_index_str]. destruct j as [|j].
  - simpl in Hj. injection Hj as ->. simpl. by rewrite String.eqb_refl.
  - assert (py_eq_str x s = false) as ->.
    { destruct x; try done. simpl. destruct (String.eqb_spec s0 s) as [->|]; [|done].
      exfalso. by apply (Hfirst 0); [lia|]. }
    rewrite (IH j); [done|]. split; [done|].
    intros i Hi. apply (Hfirst (S i)). lia.
Qed.

Lemma rows_column j row_set ids :
  Forall2 (row_cell j) row_set ids ->
  mapM (fun row => py_getitem_int row j) row_set = Ok ids.
Proof.
  intros H. apply mapM_Forall2.
  induction H as [|row id rows ids' (cells & -> & Hc) _ IH]; constructor; [|done].
  simpl. by rewrite Hc.
Qed.

(** [get_game_ids] returns the [GAME_ID] column of the first
    [GameHeader] entry of [resultSets], one id per row in row order; the
    column is the first header equal to [GAME_ID], and the entries behind
    that [GameHeader] entry are not looked at. *)
Theorem get_game_ids_column self w json_data before game_header after
  headers j row_set ids :
  raw_response_of (store w) (input_bucket self)
    (date_path self ++ "/scoreboard.parquet")%string = Ok (Dumps json_data) ->
  object_at json_data "resultSets" (PList (before ++ game_header :: after)) ->
  Forall named_otherwise before ->
  object_at game_header "name" (PStr "GameHeader") ->
  object_at game_header "headers" (PList headers) ->
  first_position "GAME_ID" headers j ->
  object_at game_header "rowSet" (PList row_set) ->
  Forall2 (row_cell j) row_set ids ->
  get_game_ids self w = (Ok ids, w).
Proof.
  intros Hraw (m & -> & Hrs) Hbefore Hname Hheaders Hj Hrows Hcells.
  unfold get_game_ids. f_equal.
  rewrite raw_response_of_unfold in Hraw.
  destruct (download_parquet _ _ _) as [df|]; simpl in *; [|discriminate].
  destruct (iloc df 0) as [row|]; simpl in *; [|discriminate].
  rewrite Hraw. cbn [json_loads mbind result_bind py_getitem]. rewrite Hrs.
  cbn [mbind result_bind py_iter]. rewrite next_game_header_first by done.
  cbn [mbind result_bind].
  destruct Hname as (gh & -> & Hname).
  destruct Hheaders as (gh' & [= <-] & Hheaders).
  destruct Hrows as (gh' & [= <-] & Hrows).
  assert (truthy (PDict gh) = true) as -> by (by destruct gh).
  cbn [py_getitem]. rewrite Hheaders.
  cbn [mbind result_bind py_index]. rewrite (list_index_str_first _ _ _ Hj).
  cbn [mbind result_bind]. rewrite Hrows.
  cbn [mbind result_bind py_iter]. by apply rows_column.
Qed.

Lemma get_game_ids_column_witness :
  get_game_ids sample_boxscore_processor (scoreboard_world sample_scoreboard)
  = (Ok [PStr "0022400752"; PStr "0022400753"], scoreboard_world sample_scoreboard).
Proof.
  eapply (get_game_ids_column sample_boxscore_processor
            (scoreboard_world sample_scoreboard) sample_scoreboard
            [PDict [("name", PStr "LineScore");
                    ("headers", PList [PStr "GAME_ID"]);
                    ("rowSet", PList [])]]
            _ [PNone] [PStr "GAME_DATE_EST"; PStr "GAME_ID"] 1).
  - vm_compute. reflexivity.
  - eexists. split; reflexivity.
  - repeat constructor. eexists. split; [eexists; split; reflexivity|reflexivity].
  - eexists. split; reflexivity.
  - eexists. split; reflexivity.
  - split; [reflexivity|]. intros [|i] Hi; [discriminate|lia].
  - eexists. split; reflexivity.
  - repeat constructor; eexists; split; reflexivity.
Defined.

(** ** The scoreboard fetch *)

Section Scoreboard.
Context (env : environment) (proxy_config : list (string * string))
  (bucket_name : string) (yesterday : partition).

Let r := scoreboard_request_of proxy_config yesterday.

Lemma scoreboard_attempt_outcome w :
  (exists response d,
     http_get env (length (trace w)) r = Some response /\
     text response = Dumps d /\
     (reponse ← get env r; lift (response_json reponse)) w
     = (Ok d, log (Get r) w)) \/
  (exists e,
     is_Exception e = true /\
     attempt_fails env (length (trace w)) r /\
     (reponse ← get env r; lift (response_json reponse)) w
     = (Raise e, log (Get r) w)).
Proof.
  unfold mbind, io_bind, get, lift, attempt_fails.
  destruct (http_get env _ _) as [response|]; [|right; exists ConnectionError; auto].
  unfold response_json, json_loads. destruct (text response) as [d|s] eqn:Ht.
  - left. by exists response, d.
  - right. exists JSONDecodeError. split; [done|]. split; [|done].
    right. by exists response, s.
Qed.

Lemma scoreboard_blob_path :
  ("year=" ++ year yesterday ++ "/month=" ++ month yesterday
     ++ "/day=" ++ day yesterday ++ "/scoreboard.parquet")%string
  = scoreboard_blob_of yesterday.
Proof.
  unfold scoreboard_blob_of, Stage.date_path_of.
  by rewrite !append_assoc_str.
Qed.

(** The step after the loop, for a fetched document. *)
Lemma scoreboard_store_step d w1 :
  (upload env bucket_name (scoreboard_blob_of yesterday) (bronze_layer_df d);;
   mret None : io (option string)) w1
  = (if upload_fails env (length (trace w1))
     then (Raise UploadError, w1)
     else (Ok None,
           {| store := stored bucket_name (scoreboard_blob_of yesterday)
                         (bronze_layer_df d) (store w1);
              trace := trace w1 ++ [Upload bucket_name (scoreboard_blob_of yesterday)
                                      (bronze_layer_df d)] |})).
Proof.
  unfold mbind, io_bind, upload. by destruct (upload_fails env _).
Qed.

Lemma get_nba_scoreboard_unfold w :
  get_nba_scoreboard env proxy_config bucket_name yesterday w
  = match retry_loop 3 (reponse ← get env r; lift (response_json reponse)) 3 2 0 w with
    | (Ok (retry_count, scoreboard_data), w1) =>
        if (3 <=? retry_count)%nat then (Ok (Some scoreboard_error), w1)
        else match scoreboard_data with
             | Some d =>
                 (upload env bucket_name (scoreboard_blob_of yesterday)
                    (bronze_layer_df d);; mret None : io (option string)) w1
             | None => (Ok None, w1)
             end
    | (Raise e, w1) => (Raise e, w1)
    end.
Proof.
  unfold get_nba_scoreboard. cbv zeta. rewrite scoreboard_blob_path.
  unfold mbind at 1. unfold io_bind at 1.
  destruct (retry_loop _ _ _ _ _ w) as [[[retry_count [d|]]|e] w1]; try done.
  - by destruct (3 <=? retry_count)%nat.
  - by destruct (3 <=? retry_count)%nat.
Qed.

(** What a call of [get_nba_scoreboard] does, by the number of attempts
    that failed before it stopped.  Attempt number [k] (from 0) is the
    call with [2 * k] events of this run before it. *)
Lemma get_nba_scoreboard_trace w :
  exists (failures : nat) (w1 : world),
    failures <= 3 /\
    trace w1 = trace w ++ flat_map (failed_attempt r 2) (seq 1 failures) /\
    length (trace w1) = length (trace w) + 2 * failures /\
    store w1 = store w /\
    (forall k, k < failures -> attempt_fails env (length (trace w) + 2 * k) r) /\
    ((failures = 3 /\
      get_nba_scoreboard env proxy_config bucket_name yesterday w
      = (Ok (Some scoreboard_error), w1)) \/
     (failures < 3 /\
      exists response d,
        http_get env (length (trace w1)) r = Some response /\
        text response = Dumps d /\
        get_nba_scoreboard env proxy_config bucket_name yesterday w
        = (upload env bucket_name (scoreboard_blob_of yesterday) (bronze_layer_df d);;
           mret None : io (option string)) (log (Get r) w1))).
Proof.
  rewrite get_nba_scoreboard_unfold. rewrite retry_loop_turn by lia.
  destruct (scoreboard_attempt_outcome w)
    as [(response & d & Hget & Ht & ->)|(e1 & He1 & Hf1 & ->)].
  { exists 0, w. split; [lia|]. split; [by rewrite app_nil_r|]. split; [lia|].
    split; [done|]. split; [intros k Hk; lia|].
    right. split; [lia|]. by exists response, d. }
  rewrite He1, retry_loop_turn by lia.
  match goal with
  | |- context [mbind _ (get env r) ?w2] => set (wa := w2)
  end.
  assert (length (trace wa) = length (trace w) + 2 * 1) as Hla.
  { subst wa. simpl. rewrite !length_app. simpl. lia. }
  destruct (scoreboard_attempt_outcome wa)
    as [(response & d & Hget & Ht & ->)|(e2 & He2 & Hf2 & ->)].
  { exists 1, wa. split; [lia|]. split; [|split; [done|split; [done|split]]].
    - subst wa. simpl. by rewrite <- !app_assoc.
    - intros k Hk. assert (k = 0) as -> by lia. by rewrite Nat.add_0_r.
    - right. split; [lia|]. by exists response, d. }
  rewrite He2, retry_loop_turn by lia.
  match goal with
  | |- context [mbind _ (get env r) ?w2] => set (wb := w2)
  end.
  assert (length (trace wb) = length (trace w) + 2 * 2) as Hlb.
  { subst wb wa. simpl. rewrite !length_app. simpl. lia. }
  destruct (scoreboard_attempt_outcome wb)
    as [(response & d & Hget & Ht & ->)|(e3 & He3 & Hf3 & ->)].
  { exists 2, wb. split; [lia|]. split; [|split; [done|split; [done|split]]].
    - subst wb wa. simpl. by rewrite <- !app_assoc.
    - intros k Hk. destruct k as [|[|k]]; [by rewrite Nat.add_0_r| |lia].
      by rewrite <- Hla.
    - right. split; [lia|]. by exists response, d. }
  rewrite He3, retry_loop_exhausted by lia.
  eexists 3, _. split; [lia|]. split; [|split; [|split; [|split; [|left; split; reflexivity]]]].
  - subst wb wa. simpl. by rewrite <- !app_assoc.
  - subst wb wa. simpl. rewrite !length_app. simpl. lia.
  - done.
  - intros k Hk. destruct k as [|[|[|k]]]; [by rewrite Nat.add_0_r| | |lia].
    + by rewrite <- Hla.
    + by rewrite <- Hlb.
Qed.

(** For every upstream, [get_nba_scoreboard] makes at most 3 attempts
    and waits 2, 4, 6 seconds after the failed ones; an attempt fails
    exactly when the upstream does not answer the call or answers with a
    body that does not decode, whatever the status.  After 3 failed
    attempts it returns the error message and stores nothing.  Otherwise
    it uploads the decoded body of the response that answered the last
    attempt under [.../scoreboard.parquet] and returns [None]; if that
    upload fails it raises the upload's error and stores nothing. *)
Theorem get_nba_scoreboard_policy w :
  exists (failures : nat) (last : list event) (result : result (option string))
         (w' : world),
    get_nba_scoreboard env proxy_config bucket_name yesterday w = (result, w') /\
    failures <= 3 /\
    new_events w w' = flat_map (failed_attempt r 2) (seq 1 failures) ++ last /\
    (forall k, k < failures -> attempt_fails env (length (trace w) + 2 * k) r) /\
    ((failures = 3 /\ result = Ok (Some scoreboard_error) /\ last = [] /\
      store w' = store w) \/
     (failures < 3 /\
      exists response d,
        http_get env (length (trace w) + 2 * failures) r = Some response /\
        text response = Dumps d /\
        ((upload_fails env (length (trace w) + 2 * failures + 1) = false /\
          result = Ok None /\
          last = [Get r; Upload bucket_name (scoreboard_blob_of yesterday)
                           (bronze_layer_df d)] /\
          store w' = stored bucket_name (scoreboard_blob_of yesterday)
                       (bronze_layer_df d) (store w)) \/
         (upload_fails env (length (trace w) + 2 * failures + 1) = true /\
          result = Raise UploadError /\ last = [Get r] /\ store w' = store w)))).
Proof.
  destruct (get_nba_scoreboard_trace w)
    as (failures & w1 & Hle & Ht & Hlen & Hs & Hfails
        & [[-> Hrun]|(Hlt & response & d & Hget & Htext & Hrun)]).
  - exists 3, [], (Ok (Some scoreboard_error)), w1. split; [done|]. split; [lia|].
    split; [apply new_events_app; by rewrite app_nil_r|]. split; [done|].
    left. by rewrite Hs.
  - rewrite scoreboard_store_step in Hrun. rewrite Hlen in Hget.
    assert (length (trace (log (Get r) w1)) = length (trace w) + 2 * failures + 1)
      as Hup by (cbn [trace log]; rewrite length_app, Hlen; simpl; lia).
    rewrite Hup in Hrun.
    destruct (upload_fails env _) eqn:Hfail.
    + exists failures, [Get r], (Raise UploadError), (log (Get r) w1).
      split; [done|]. split; [lia|]. split.
      { apply new_events_app. simpl. by rewrite Ht, <- app_assoc. }
      split; [done|].
      right. split; [done|]. exists response, d. split; [done|]. split; [done|].
      right. by rewrite <- Hs.
    + eexists failures, _, (Ok None), _. split; [exact Hrun|]. split; [lia|]. split.
      { apply new_events_app. simpl. rewrite Ht, <- !app_assoc. reflexivity. }
      split; [done|].
      right. split; [done|]. exists response, d. split; [done|]. split; [done|].
      left. simpl. by rewrite Hs.
Qed.

(** The first attempt, when it is answered with a body that decodes. *)
Lemma get_nba_scoreboard_first w response d :
  http_get env (length (trace w)) r = Some response ->
  text response = Dumps d ->
  upload_fails env (S (length (trace w))) = false ->
  get_nba_scoreboard env proxy_config bucket_name yesterday w
  = (Ok None,
     {| store := stored bucket_name (scoreboard_blob_of yesterday) (bronze_layer_df d)
                   (store w);
        trace := trace w ++ [Get r; Upload bucket_name (scoreboard_blob_of yesterday)
                                      (bronze_layer_df d)] |}).
Proof.
  intros Hget Htext Hup.
  rewrite get_nba_scoreboard_unfold, retry_loop_turn by lia.
  destruct (scoreboard_attempt_outcome w)
    as [(response' & d' & Hget' & Ht' & ->)|(e1 & He1 & _ & Hrun)].
  - assert (response' = response) as -> by congruence.
    assert (d' = d) as -> by congruence.
    cbn [Nat.leb]. rewrite scoreboard_store_step.
    cbn [trace log]. rewrite length_app, Nat.add_comm. cbn [length Nat.add].
    rewrite Hup. cbn [store log]. by rewrite <- app_assoc.
  - exfalso. unfold mbind, io_bind, get, lift in Hrun. rewrite Hget in Hrun.
    unfold response_json, json_loads in Hrun. rewrite Htext in Hrun. discriminate.
Qed.

(** [get_nba_scoreboard] does not look at the HTTP status: when the
    first response has a body that decodes, whatever its status code,
    that body is stored as the day's scoreboard at the first attempt; and
    whenever the call returns [None], a processor of the boxscore stage
    for the same day and bucket reads back a document the upstream
    sent. *)
Theorem scoreboard_stored_whatever_status w :
  (forall response d,
     http_get env (length (trace w)) r = Some response ->
     text response = Dumps d ->
     upload_fails env (S (length (trace w))) = false ->
     exists w',
       get_nba_scoreboard env proxy_config bucket_name yesterday w = (Ok None, w') /\
       new_events w w'
       = [Get r; Upload bucket_name (scoreboard_blob_of yesterday) (bronze_layer_df d)] /\
       raw_response_of (store w') bucket_name (scoreboard_blob_of yesterday)
       = Ok (Dumps d)) /\
  (forall w' (self : NBABoxscoreProcessor),
     get_nba_scoreboard env proxy_config bucket_name yesterday w = (Ok None, w') ->
     input_bucket self = bucket_name ->
     date_path self = Stage.date_path_of yesterday ->
     exists n response d,
       http_get env n r = Some response /\
       text response = Dumps d /\
       raw_response_of (store w') (input_bucket self)
         (date_path self ++ "/scoreboard.parquet")%string = Ok (Dumps d)).
Proof.
  split.
  - intros response d Hget Htext Hup.
    rewrite (get_nba_scoreboard_first w response d Hget Htext Hup).
    eexists. split; [reflexivity|]. split.
    + by apply new_events_app.
    + cbn [store]. apply raw_response_stored.
  - intros w' self Hrun Hbucket Hpath.
    destruct (get_nba_scoreboard_trace w)
      as (failures & w1 & Hle & Ht & _ & Hs & _
          & [[-> Hrun']|(Hlt & response & d & Hget & Htext & Hrun')]).
    + rewrite Hrun' in Hrun. discriminate.
    + rewrite Hrun' in Hrun. rewrite scoreboard_store_step in Hrun.
      destruct (upload_fails env _); [discriminate|].
      injection Hrun as <-. exists (length (trace w1)), response, d.
      split; [done|]. split; [done|].
      rewrite Hbucket, Hpath. cbn [store log]. apply raw_response_stored.
Qed.

End Scoreboard.

(** ** The boxscore run *)

Lemma scoreboard_stored_whatever_status_witness :
  exists w',
    get_nba_scoreboard answers_503 [] "scoreboards" sample_partition empty_world
    = (Ok None, w') /\
    raw_response_of (store w') "scoreboards" (scoreboard_blob_of sample_partition)
    = Ok (Dumps error_page) /\
    exists n response d,
      http_get answers_503 n (scoreboard_request_of [] sample_partition) = Some response /\
      text response = Dumps d /\
      raw_response_of (store w') (input_bucket sample_boxscore_processor)
        (date_path sample_boxscore_processor ++ "/scoreboard.parquet")%string
      = Ok (Dumps d).
Proof.
  destruct (scoreboard_stored_whatever_status answers_503 [] "scoreboards"
              sample_partition empty_world) as [Hfirst Hback].
  destruct (Hfirst {| status_code := 503; text := Dumps error_page |} error_page
              eq_refl eq_refl eq_refl) as (w' & Hrun & _ & Hraw).
  exists w'. split; [exact Hrun|]. split; [exact Hraw|].
  exact (Hback w' sample_boxscore_processor Hrun eq_refl eq_refl).
Defined.

Lemma count_gets_app evs1 evs2 :
  count_gets (evs1 ++ evs2) = count_gets evs1 + count_gets evs2.
Proof. unfold count_gets. by rewrite filter_app, length_app. Qed.

Lemma count_uploads_app evs1 evs2 :
  count_uploads (evs1 ++ evs2) = count_uploads evs1 + count_uploads evs2.
Proof. unfold count_uploads. by rewrite filter_app, length_app. Qed.

Lemma io_for_each_app {A} (xs ys : list A) (f : A -> io unit) w :
  io_for_each (xs ++ ys) f w = (io_for_each xs f;; io_for_each ys f) w.
Proof.
  revert w. induction xs as [|x xs IH]; intros w; [done|].
  cbn [app io_for_each]. unfold mbind, io_bind in *.
  destruct (f x w) as [[[]|e] w1]; [|done]. apply IH.
Qed.

Lemma io_bind_eq {A B} (c : io A) (f : A -> io B) w :
  (c ≫= f) w
  = match c w with
    | (Ok a, w') => f a w'
    | (Raise e, w') => (Raise e, w')
    end.
Proof. reflexivity. Qed.

Lemma snd_enumerate {A} (xs : list A) : map snd (enumerate xs) = xs.
Proof.
  unfold enumerate. generalize (@id nat).
  assert (forall (g : nat -> nat), map snd (imap (fun i => pair (g i)) xs) = xs) as H.
  { induction xs as [|x xs IH]; intros g; [done|].
    cbn [imap map snd]. f_equal. apply (IH (g ∘ S)). }
  intros _. apply (H id).
Qed.

Lemma holds_snapshot_stored bucket blob payload s bucket' blob' :
  holds_snapshot s bucket' blob' ->
  holds_snapshot (stored bucket blob (bronze_layer_df payload) s) bucket' blob'.
Proof.
  intros [p Hp].
  destruct (decide ((bucket', blob') = (bucket, blob))) as [[= -> ->]|Hne].
  - exists payload. apply raw_response_stored.
  - exists p. unfold raw_response_of in *. by rewrite download_stored_ne.
Qed.

Section BoxscoreRun.
Context (py_str : pyval -> string) (self : NBABoxscoreProcessor) (env : environment).

(** The batches, taken one after the other, do for every game id in turn
    what [process_game_batch] does for one game. *)
Lemma batches_flat (jobs : list (nat * list pyval)) w :
  io_for_each jobs
    (fun job => process_game_batch py_str self env (fst job) (snd job);; mret tt) w
  = io_for_each (concat (map snd jobs)) (Stage.game_step py_str self env) w.
Proof.
  revert w. induction jobs as [|[batch_id game_batch] jobs IH]; intros w; [done|].
  cbn [io_for_each map concat fst snd]. rewrite io_for_each_app.
  change (process_game_batch py_str self env batch_id game_batch)
    with (io_for_each game_batch (Stage.game_step py_str self env);;
          mret (length game_batch) : io nat).
  rewrite !io_bind_eq.
  destruct (io_for_each game_batch _ w) as [[[]|e] w1]; [|done].
  apply IH.
Qed.

Lemma Parallel_picklable {A} (results : list A) (job : A -> io unit) :
  Parallel true results job = io_for_each results job.
Proof. by destruct results. Qed.

Lemma game_batches_nonempty game_ids :
  game_ids <> [] -> enumerate (game_batches game_ids) <> [].
Proof.
  intros Hne Hnil. apply Hne.
  rewrite <- (chunks_concat game_ids 4) by lia. rewrite <- game_batches_chunks.
  rewrite <- (snd_enumerate (game_batches game_ids)). by rewrite Hnil.
Qed.

Lemma get_nba_boxscores_eq w :
  Stage.get_nba_boxscores py_str self env w
  = match batch_config py_str self env w with
    | (Ok result, w') => (Ok (result, 200%Z), w')
    | (Raise e, w') => (Raise e, w')
    end.
Proof. reflexivity. Qed.

(** With a processor the workers can receive, the run does for every
    game id in turn what [process_game_batch] does for one game. *)
Lemma batch_config_run w game_ids :
  get_game_ids self w = (Ok game_ids, w) ->
  client_pickles self = true ->
  batch_config py_str self env w
  = match io_for_each game_ids (Stage.game_step py_str self env) w with
    | (Ok _, w') => (Ok "Processing complete"%string, w')
    | (Raise e, w') => (Raise e, w')
    end.
Proof.
  intros Hids Hclient. unfold batch_config.
  unfold mbind at 1. unfold io_bind at 1. rewrite Hids.
  unfold mbind at 1. unfold io_bind at 1.
  rewrite Hclient, Parallel_picklable.
  rewrite batches_flat, snd_enumerate, game_batches_chunks, chunks_concat by lia.
  by destruct (io_for_each game_ids _ w) as [[[]|e] w1].
Qed.

Lemma batch_config_no_game w :
  get_game_ids self w = (Ok [], w) ->
  batch_config py_str self env w = (Ok "Processing complete"%string, w).
Proof.
  intros Hids. unfold batch_config.
  unfold mbind at 1. unfold io_bind at 1. by rewrite Hids.
Qed.

(** With the client that [__init__] builds, the run stops at the
    hand-over of the first job. *)
Lemma batch_config_unpicklable w game_ids :
  get_game_ids self w = (Ok game_ids, w) ->
  client_pickles self = false ->
  game_ids <> [] ->
  batch_config py_str self env w = (Raise PicklingError, w).
Proof.
  intros Hids Hclient Hne. unfold batch_config.
  unfold mbind at 1. unfold io_bind at 1. rewrite Hids.
  unfold mbind at 1. unfold io_bind at 1.
  pose proof (game_batches_nonempty game_ids Hne) as Hjobs.
  unfold Parallel. destruct (enumerate (game_batches game_ids)); [done|].
  by rewrite Hclient.
Qed.

(** One game when the upstream answers and the store accepts. *)
Lemma game_step_healthy game_id w :
  healthy env ->
  exists payload,
    Stage.game_step py_str self env game_id w
    = (Ok tt,
       {| store := stored (output_bucket self) (blob_of py_str self game_id)
                     (bronze_layer_df payload) (store w);
          trace := trace w ++ [Sleep (1 # 10); Get (boxscore_request self game_id);
                               Upload (output_bucket self) (blob_of py_str self game_id)
                                 (bronze_layer_df payload)] |}).
Proof.
  intros [Hget Hup].
  set (w0 := log (Sleep (1 # 10)) w).
  destruct (Hget (length (trace w0)) (boxscore_request self game_id))
    as (response & payload & Hresp & Hstatus & Hjson).
  exists payload.
  assert (fetch_and_store py_str self env game_id w0
          = (Ok tt,
             {| store := stored (output_bucket self) (blob_of py_str self game_id)
                           (bronze_layer_df payload) (store w0);
                trace := trace w0 ++ [Get (boxscore_request self game_id);
                                      Upload (output_bucket self)
                                        (blob_of py_str self game_id)
                                        (bronze_layer_df payload)] |})) as Hfetch.
  { unfold fetch_and_store, mbind, io_bind, get, lift. rewrite Hresp, Hstatus, Hjson.
    unfold upload. rewrite Hup. unfold log, stored, blob_of. simpl.
    by rewrite <- app_assoc. }
  unfold Stage.game_step, mbind, io_bind, sleep. fold w0.
  unfold process_game_with_retry, mbind, io_bind.
  rewrite retry_loop_turn by lia. rewrite Hfetch.
  subst w0. simpl. by rewrite <- app_assoc.
Qed.

(** One game when the upstream never answers. *)
Lemma game_step_unreachable game_id w :
  unreachable env ->
  exists evs,
    Stage.game_step py_str self env game_id w
    = (Ok tt, {| store := store w; trace := trace w ++ evs |}) /\
    count_gets evs = 3 /\ count_uploads evs = 0.
Proof.
  intros Hdown.
  assert (forall w0, fetch_and_store py_str self env game_id w0
                     = (Raise ConnectionError, log (Get (boxscore_request self game_id)) w0))
    as Hfetch.
  { intros w0. unfold fetch_and_store, mbind, io_bind, get. by rewrite Hdown. }
  eexists. split; [|split].
  - unfold Stage.game_step, mbind, io_bind, sleep.
    unfold process_game_with_retry, mbind, io_bind.
    rewrite retry_loop_turn, Hfetch by lia. cbn [is_Exception].
    rewrite retry_loop_turn, Hfetch by lia. cbn [is_Exception].
    rewrite retry_loop_turn, Hfetch by lia. cbn [is_Exception].
    rewrite retry_loop_exhausted by lia.
    unfold log. simpl. rewrite <- !app_assoc. reflexivity.
  - reflexivity.
  - reflexivity.
Qed.

(** One game, whatever the upstream does. *)
Lemma game_step_segment game_id w :
  exists failures w' evs,
    Stage.game_step py_str self env game_id w = (Ok tt, w') /\
    trace w' = trace w ++ evs /\
    game_segment py_str self game_id failures evs /\
    1 <= count_gets evs <= 3 /\
    count_uploads evs = (if (failures <? 3)%nat then 1 else 0) /\
    (if (failures <? 3)%nat
     then exists payload,
            store w' = stored (output_bucket self) (blob_of py_str self game_id)
                         (bronze_layer_df payload) (store w)
     else store w' = store w).
Proof.
  destruct (process_game_with_retry_trace py_str self env tt game_id
              (log (Sleep (1 # 10)) w))
    as (failures & last & w' & Hrun & Hle & Ht & Hlast).
  exists failures, w'. eexists. split; [|split; [|split; [|split; [|split]]]].
  - unfold Stage.game_step, mbind, io_bind, sleep. by rewrite Hrun.
  - rewrite Ht. cbn [trace log]. rewrite <- app_assoc. reflexivity.
  - split; [done|]. exists last. split; [reflexivity|].
    destruct (failures <? 3)%nat.
    + destruct Hlast as (payload & -> & _). by exists payload.
    + by destruct Hlast.
  - cbn [app]. change (count_gets (Sleep (1 # 10) :: ?l)) with (count_gets l).
    destruct (count_events_failed (boxscore_request self game_id) failures last Hle)
      as [-> _].
    destruct (Nat.ltb_spec failures 3).
    + destruct Hlast as (payload & -> & _).
      change (count_gets [Get ?a; Upload ?b ?c ?d]) with 1. lia.
    + destruct Hlast as (-> & _). change (count_gets []) with 0. lia.
  - cbn [app]. change (count_uploads (Sleep (1 # 10) :: ?l)) with (count_uploads l).
    destruct (count_events_failed (boxscore_request self game_id) failures last Hle)
      as [_ ->].
    destruct (failures <? 3)%nat.
    + by destruct Hlast as (payload & -> & _).
    + by destruct Hlast as (-> & _).
  - destruct (failures <? 3)%nat.
    + destruct Hlast as (payload & _ & Hs). by exists payload.
    + by destruct Hlast.
Qed.

Lemma game_segment_one_upload game_id failures evs :
  game_segment py_str self game_id failures evs ->
  count_uploads evs = (if (failures <? 3)%nat then 1 else 0).
Proof.
  intros (Hle & last & -> & Hlast).
  cbn [app]. change (count_uploads (Sleep (1 # 10) :: ?l)) with (count_uploads l).
  destruct (count_events_failed (boxscore_request self game_id) failures last Hle)
    as [_ ->].
  destruct (failures <? 3)%nat.
  - by destruct Hlast as (payload & ->).
  - by rewrite Hlast.
Qed.

Lemma game_segment_gets game_id failures evs :
  game_segment py_str self game_id failures evs ->
  count_gets evs = (if (failures <? 3)%nat then S failures else failures).
Proof.
  intros (Hle & last & -> & Hlast).
  cbn [app]. change (count_gets (Sleep (1 # 10) :: ?l)) with (count_gets l).
  destruct (count_events_failed (boxscore_request self game_id) failures last Hle)
    as [-> _].
  destruct (failures <? 3)%nat.
  - destruct Hlast as (payload & ->).
    change (count_gets [Get ?a; Upload ?b ?c ?d]) with 1. lia.
  - rewrite Hlast. change (count_gets []) with 0. lia.
Qed.

(** The run game by game. *)
Lemma game_loop game_ids w :
  exists w' segments,
    io_for_each game_ids (Stage.game_step py_str self env) w = (Ok tt, w') /\
    trace w' = trace w ++ concat segments /\
    game_by_game py_str self game_ids segments /\
    (forall bucket blob,
       holds_snapshot (store w) bucket blob -> holds_snapshot (store w') bucket blob) /\
    (healthy env ->
     Forall2 (fun game_id evs => game_segment py_str self game_id 0 evs)
       game_ids segments /\
     forall game_id, game_id ∈ game_ids ->
       holds_snapshot (store w') (output_bucket self) (blob_of py_str self game_id)) /\
    (unreachable env ->
     Forall2 (fun game_id evs => game_segment py_str self game_id 3 evs)
       game_ids segments /\
     store w' = store w).
Proof.
  revert w. induction game_ids as [|g gs IH]; intros w.
  - exists w, []. split; [done|]. split; [by rewrite app_nil_r|].
    split; [constructor|]. split; [done|]. split.
    + intros _. split; [constructor|]. by intros ? ?%elem_of_nil.
    + intros _. split; [constructor|done].
  - destruct (game_step_segment g w)
      as (failures & w1 & evs1 & Hg & Ht1 & Hseg & Hgets & Hups & Hstore).
    destruct (IH w1) as (w' & segments & Hrun & Ht & Hsegs & Hkeep & Hhealthy & Hdown).
    assert (forall bucket blob,
              holds_snapshot (store w) bucket blob ->
              holds_snapshot (store w1) bucket blob) as Hkeep1.
    { intros bucket blob H. destruct (failures <? 3)%nat.
      - destruct Hstore as (payload & ->). by apply holds_snapshot_stored.
      - by rewrite Hstore. }
    exists w', (evs1 :: segments).
    split; [|split; [|split; [|split; [|split]]]].
    + cbn [io_for_each]. rewrite io_bind_eq. by rewrite Hg.
    + rewrite Ht, Ht1. cbn [concat]. by rewrite <- app_assoc.
    + constructor; [|done]. split; [by exists failures|]. split; [done|].
      rewrite Hups. destruct (failures <? 3)%nat; lia.
    + intros bucket blob H. by apply Hkeep, Hkeep1.
    + intros Hh. destruct (Hhealthy Hh) as [Hsegs0 Hheld].
      destruct (game_step_healthy g w Hh) as (payload & Hg').
      rewrite Hg in Hg'. injection Hg' as Hw1.
      assert (failures = 0) as ->.
      { pose proof (game_segment_gets g failures evs1 Hseg) as Hcount.
        assert (evs1 = [Sleep (1 # 10); Get (boxscore_request self g);
                        Upload (output_bucket self) (blob_of py_str self g)
                          (bronze_layer_df payload)]) as Hevs.
        { rewrite Hw1 in Ht1. cbn [trace] in Ht1. by apply app_inv_head in Ht1. }
        rewrite Hevs in Hcount.
        change (count_gets [Sleep ?q; Get ?a; Upload ?b ?c ?d]) with 1 in Hcount.
        destruct (Nat.ltb_spec failures 3); lia. }
      split; [by constructor|].
      intros game_id [->|Hin]%elem_of_cons; [|by apply Hheld].
      apply Hkeep. rewrite Hw1. cbn [store]. eexists. apply raw_response_stored.
    + intros Hd. destruct (Hdown Hd) as [Hsegs3 Hs].
      destruct (game_step_unreachable g w Hd) as (evs & Hg' & _ & Hups').
      rewrite Hg in Hg'. injection Hg' as Hw1.
      assert (failures = 3) as ->.
      { assert (evs1 = evs) as Hevs.
        { rewrite Hw1 in Ht1. cbn [trace] in Ht1. by apply app_inv_head in Ht1. }
        rewrite Hevs, Hups' in Hups. destruct Hseg as [Hle _].
        destruct (Nat.ltb_spec failures 3); [discriminate|lia]. }
      split; [by constructor|]. rewrite Hs, Hw1. reflexivity.
Qed.



(** [get_nba_boxscores] raises what [get_game_ids] raises, before any
    request.  With the client that [__init__] builds it raises
    [PicklingError], again before any request, as soon as the scoreboard
    lists a game.  With a processor that the workers can receive it
    answers ["Processing complete"] with status 200 whatever became of
    the games, and (the batches taken in order) its events are, game by
    game in the order of the scoreboard, the pacing wait and the attempts
    of that game: between one and three requests, all for that game, and
    at most one upload, to that game's blob.  With an upstream that
    answers and a store that accepts, every game has one request and one
    upload and its snapshot is in the store afterwards; with an upstream
    that never answers the answer is the same, every game has three
    requests and no upload, and the store is unchanged. *)
Theorem get_nba_boxscores_outcome w :
  (forall e,
     get_game_ids self w = (Raise e, w) ->
     Stage.get_nba_boxscores py_str self env w = (Raise e, w)) /\
  (forall game_ids,
     get_game_ids self w = (Ok game_ids, w) ->
     (client_pickles self = false -> game_ids <> [] ->
      Stage.get_nba_boxscores py_str self env w = (Raise PicklingError, w)) /\
     (client_pickles self = true \/ game_ids = [] ->
      exists w' segments,
        Stage.get_nba_boxscores py_str self env w
        = (Ok ("Processing complete", 200%Z), w') /\
        new_events w w' = concat segments /\
        game_by_game py_str self game_ids segments /\
        (healthy env ->
         Forall2 (fun game_id evs => game_segment py_str self game_id 0 evs)
           game_ids segments /\
         forall game_id, game_id ∈ game_ids ->
           holds_snapshot (store w') (output_bucket self)
             (blob_of py_str self game_id)) /\
        (unreachable env ->
         Forall2 (fun game_id evs => game_segment py_str self game_id 3 evs)
           game_ids segments /\
         store w' = store w))).
Proof.
  split.
  - intros e Hids. rewrite get_nba_boxscores_eq. unfold batch_config.
    unfold mbind at 1. unfold io_bind at 1. by rewrite Hids.
  - intros game_ids Hids. split.
    + intros Hclient Hne. rewrite get_nba_boxscores_eq.
      by rewrite (batch_config_unpicklable w game_ids Hids Hclient Hne).
    + intros Hcan.
      destruct (game_loop game_ids w)
        as (w' & segments & Hrun & Ht & Hsegs & _ & Hhealthy & Hdown).
      exists w', segments. split; [|split; [by apply new_events_app|done]].
      rewrite get_nba_boxscores_eq. destruct Hcan as [Hclient| ->].
      * by rewrite (batch_config_run w game_ids Hids Hclient), Hrun.
      * rewrite (batch_config_no_game w Hids). cbn in Hrun. by injection Hrun as <-.
Qed.

End BoxscoreRun.

Lemma always_up_healthy : healthy always_up.
Proof.
  split; [|done]. intros n r. by exists ok_response, sample_boxscore.
Qed.



Lemma get_nba_boxscores_outcome_witness :
  Stage.get_nba_boxscores sample_str sample_boxscore_processor always_up empty_world
  = (Raise NotFound, empty_world) /\
  Stage.get_nba_boxscores sample_str deployed_boxscore_processor always_up
    (scoreboard_world sample_scoreboard)
  = (Raise PicklingError, scoreboard_world sample_scoreboard) /\
  (exists w' segments,
     Stage.get_nba_boxscores sample_str sample_boxscore_processor always_up
       (scoreboard_world sample_scoreboard)
     = (Ok ("Processing complete", 200%Z), w') /\
     new_events (scoreboard_world sample_scoreboard) w' = concat segments /\
     Forall2 (fun game_id evs =>
                game_segment sample_str sample_boxscore_processor game_id 0 evs)
       [PStr "0022400752"; PStr "0022400753"] segments /\
     holds_snapshot (store w') "boxscores"
       "year=2025/month=04/day=04/0022400753.parquet") /\
  (exists w' segments,
     Stage.get_nba_boxscores sample_str sample_boxscore_processor always_down
       (scoreboard_world sample_scoreboard)
     = (Ok ("Processing complete", 200%Z), w') /\
     new_events (scoreboard_world sample_scoreboard) w' = concat segments /\
     Forall2 (fun game_id evs =>
                game_segment sample_str sample_boxscore_processor game_id 3 evs)
       [PStr "0022400752"; PStr "0022400753"] segments /\
     store w' = store (scoreboard_world sample_scoreboard)).
Proof.
  split; [|split; [|split]].
  - destruct (get_nba_boxscores_outcome sample_str sample_boxscore_processor always_up
                empty_world) as [Hraise _].
    exact (Hraise NotFound eq_refl).
  - destruct (get_nba_boxscores_outcome sample_str deployed_boxscore_processor always_up
                (scoreboard_world sample_scoreboard)) as [_ Hrun].
    destruct (Hrun [PStr "0022400752"; PStr "0022400753"] eq_refl) as [Hpickle _].
    apply Hpickle; [reflexivity|discriminate].
  - destruct (get_nba_boxscores_outcome sample_str sample_boxscore_processor always_up
                (scoreboard_world sample_scoreboard)) as [_ Hrun].
    destruct (Hrun [PStr "0022400752"; PStr "0022400753"] eq_refl) as [_ Hok].
    destruct (Hok (or_introl eq_refl)) as (w' & segments & Hres & Hev & _ & Hhealthy & _).
    destruct (Hhealthy always_up_healthy) as (Hsegs & Hheld).
    exists w', segments. split; [exact Hres|]. split; [exact Hev|].
    split; [exact Hsegs|].
    apply (Hheld (PStr "0022400753")). right. left.
  - destruct (get_nba_boxscores_outcome sample_str sample_boxscore_processor always_down
                (scoreboard_world sample_scoreboard)) as [_ Hrun].
    destruct (Hrun [PStr "0022400752"; PStr "0022400753"] eq_refl) as [_ Hok].
    destruct (Hok (or_introl eq_refl)) as (w' & segments & Hres & Hev & _ & _ & Hdown).
    destruct (Hdown (fun _ _ => eq_refl)) as (Hsegs & Hs).
    exists w', segments. split; [exact Hres|]. split; [exact Hev|].
    split; [exact Hsegs|exact Hs].
Defined.

(** ** From the boxscore run to the silver stage *)

Lemma list_blobs_elem s bucket pfx blobs blob :
  list_blobs s bucket pfx = Ok blobs ->
  blob ∈ blobs <->
  startswith blob pfx = true /\ exists df, download_parquet s bucket blob = Ok df.
Proof.
  unfold list_blobs, download_parquet, gcs in *.
  destruct (s !! bucket) as [m|] eqn:Hm; [|discriminate].
  intros [= <-]. cbn [mbind option_bind].
  rewrite merge_sort_Permutation, list_elem_of_filter, list_elem_of_In, in_map_iff.
  split.
  - intros (Hp & [name df] & <- & Hin). split; [done|].
    apply list_elem_of_In, elem_of_map_to_list in Hin. cbn [fst]. rewrite Hin.
    by exists df.
  - intros (Hp & df & Hdf). split; [done|].
    destruct (m !! blob) as [df'|] eqn:Hb; [|discriminate].
    exists (blob, df'). split; [done|].
    by apply list_elem_of_In, elem_of_map_to_list.
Qed.

Lemma list_blobs_Raise s bucket pfx e :
  list_blobs s bucket pfx = Raise e -> e = NotFound /\ s !! bucket = None.
Proof.
  unfold list_blobs. destruct (s !! bucket); [discriminate|]. by intros [= <-].
Qed.

Lemma list_blobs_exists s bucket blob df pfx :
  download_parquet s bucket blob = Ok df -> exists blobs, list_blobs s bucket pfx = Ok blobs.
Proof.
  unfold list_blobs, download_parquet. destruct (s !! bucket); [by eexists|discriminate].
Qed.

Lemma snapshots_under_stored bucket blob payload s bucket' pfx :
  snapshots_under s bucket' pfx ->
  snapshots_under (stored bucket blob (bronze_layer_df payload) s) bucket' pfx.
Proof.
  intros H blob' df Hp Hd.
  destruct (decide ((bucket', blob') = (bucket, blob))) as [[= -> ->]|Hne].
  - exists payload. apply raw_response_stored.
  - rewrite download_stored_ne in Hd by done.
    apply holds_snapshot_stored. by apply (H blob' df).
Qed.

Lemma process_all_decoded s bucket blobs :
  (forall blob, blob ∈ blobs -> holds_snapshot s bucket blob) ->
  exists per_document,
    Forall2 (fun blob records => process_single_file s bucket blob = Ok records)
      blobs per_document.
Proof.
  induction blobs as [|b blobs IH]; intros Hdec; [by exists []|].
  destruct (Hdec b) as [data Hdata]; [by left|].
  destruct (process_single_file_decoded _ _ _ _ Hdata) as [records Hr].
  destruct IH as [per Hper]; [intros b' Hb'; apply Hdec; by right|].
  exists (records :: per). by constructor.
Qed.

Lemma process_yesterdays_games_of_blobs (silver : NBASilverProcessor) blobs per_document :
  list_blobs (storage_client silver) (bucket_name silver) (Silver.date_path silver)
  = Ok blobs ->
  Silver.client_pickles silver = true ->
  Forall2 (fun blob records =>
             process_single_file (storage_client silver) (bucket_name silver) blob
             = Ok records) blobs per_document ->
  process_yesterdays_games silver = Ok (concat per_document).
Proof.
  intros Hblobs Hclient Hper. unfold process_yesterdays_games. rewrite Hblobs. simpl.
  destruct blobs as [|b blobs].
  - by inversion Hper.
  - unfold Silver.Parallel. rewrite Hclient.
    rewrite (mapM_Forall2 _ _ _ Hper). simpl. by rewrite fold_left_app_concat.
Qed.

Lemma process_yesterdays_games_unpicklable (silver : NBASilverProcessor) blobs :
  list_blobs (storage_client silver) (bucket_name silver) (Silver.date_path silver)
  = Ok blobs ->
  Silver.client_pickles silver = false ->
  blobs <> [] ->
  process_yesterdays_games silver = Raise PicklingError.
Proof.
  intros Hblobs Hclient Hne. unfold process_yesterdays_games. rewrite Hblobs. simpl.
  destruct blobs as [|b blobs]; [done|]. unfold Silver.Parallel. by rewrite Hclient.
Qed.

Section Pipeline.
Context (py_str : pyval -> string) (self : NBABoxscoreProcessor) (env : environment).

(** The boxscore run changes the store only by storing snapshots in the
    output bucket. *)
Lemma game_loop_store_invariant (I : gcs -> Prop) game_ids w :
  (forall s blob payload,
     I s -> I (stored (output_bucket self) blob (bronze_layer_df payload) s)) ->
  I (store w) ->
  I (store (snd (io_for_each game_ids (Stage.game_step py_str self env) w))).
Proof.
  intros Hstep. revert w. induction game_ids as [|g gs IH]; intros w Hw; [done|].
  cbn [io_for_each]. rewrite io_bind_eq.
  destruct (process_game_with_retry_trace py_str self env tt g (log (Sleep (1 # 10)) w))
    as (failures & last & w1 & Hrun & _ & _ & Hlast).
  assert (Stage.game_step py_str self env g w = (Ok tt, w1)) as ->.
  { unfold Stage.game_step, mbind, io_bind, sleep. by rewrite Hrun. }
  apply IH. destruct (failures <? 3)%nat.
  - destruct Hlast as (payload & _ & ->). by apply Hstep.
  - by destruct Hlast as (_ & ->).
Qed.

(** The boxscore run writes nothing but snapshots to the output bucket:
    when the partition of that bucket held only snapshots before
    [get_nba_boxscores], it holds only snapshots after it, however the
    run ended.  The silver stage reading that partition then raises only
    [NotFound], for a bucket that does not exist, or [PicklingError],
    which it raises whenever a blob is listed and its client is the one
    [__init__] builds; no document of the partition fails to decode.
    When both processors can be handed to their workers, after a run
    with an upstream that answers and a store that accepts the silver
    stage lists the blob of every game id of the scoreboard and returns
    the records of all listed blobs. *)
Theorem boxscores_feed_silver w game_ids answer w' (silver : NBASilverProcessor) :
  get_game_ids self w = (Ok game_ids, w) ->
  snapshots_under (store w) (output_bucket self) (date_path self) ->
  Stage.get_nba_boxscores py_str self env w = (answer, w') ->
  storage_client silver = store w' ->
  bucket_name silver = output_bucket self ->
  Silver.date_path silver = date_path self ->
  snapshots_under (store w') (output_bucket self) (date_path self) /\
  (forall e,
     process_yesterdays_games silver = Raise e ->
     (e = NotFound /\ store w' !! output_bucket self = None) \/
     (e = PicklingError /\ Silver.client_pickles silver = false)) /\
  (forall blobs,
     list_blobs (store w') (output_bucket self) (date_path self) = Ok blobs ->
     blobs <> [] ->
     Silver.client_pickles silver = false ->
     process_yesterdays_games silver = Raise PicklingError) /\
  (healthy env ->
   client_pickles self = true ->
   Silver.client_pickles silver = true ->
   forall game_id, game_id ∈ game_ids ->
     exists blobs per_document,
       list_blobs (store w') (output_bucket self) (date_path self) = Ok blobs /\
       blob_of py_str self game_id ∈ blobs /\
       Forall2 (fun blob records =>
                  process_single_file (store w') (output_bucket self) blob = Ok records)
         blobs per_document /\
       process_yesterdays_games silver = Ok (concat per_document)).
Proof.
  intros Hids Hbefore Hrun Hclient Hbucket Hpath.
  assert (snapshots_under (store w') (output_bucket self) (date_path self)) as Hafter.
  { rewrite get_nba_boxscores_eq in Hrun.
    destruct (client_pickles self) eqn:Hpickles.
    - rewrite (batch_config_run py_str self env w game_ids Hids Hpickles) in Hrun.
      pose proof (game_loop_store_invariant
                    (fun s => snapshots_under s (output_bucket self) (date_path self))
                    game_ids w) as Hinv.
      destruct (io_for_each game_ids _ w) as [[[]|e] w2]; injection Hrun as Ha Hw;
        subst w'; apply Hinv; try done; intros; by apply snapshots_under_stored.
    - destruct game_ids as [|g gs].
      + rewrite (batch_config_no_game py_str self env w Hids) in Hrun.
        injection Hrun as _ <-. done.
      + rewrite (batch_config_unpicklable py_str self env w (g :: gs) Hids Hpickles)
          in Hrun by done.
        injection Hrun as _ <-. done. }
  assert (forall blobs,
            list_blobs (store w') (output_bucket self) (date_path self) = Ok blobs ->
            exists per_document,
              Forall2 (fun blob records =>
                  process_single_file (store w') (output_bucket self) blob = Ok records)
                blobs per_document) as Hreads.
  { intros blobs Hblobs.
    apply (process_all_decoded (store w') (output_bucket self) blobs).
    intros blob (Hp & df & Hdf)%(list_blobs_elem _ _ _ _ _ Hblobs).
    by apply (Hafter blob df). }
  assert (list_blobs (storage_client silver) (bucket_name silver)
            (Silver.date_path silver)
          = list_blobs (store w') (output_bucket self) (date_path self))
    as Hsame by (by rewrite Hclient, Hbucket, Hpath).
  split; [done|]. split; [|split].
  - intros e He.
    destruct (list_blobs (store w') (output_bucket self) (date_path self))
      as [blobs|e'] eqn:Hblobs.
    + destruct (Silver.client_pickles silver) eqn:Hpickles.
      * destruct (Hreads blobs eq_refl) as (per_document & Hper).
        rewrite (process_yesterdays_games_of_blobs silver blobs per_document) in He.
        -- discriminate.
        -- done.
        -- done.
        -- by rewrite Hclient, Hbucket.
      * destruct blobs as [|b blobs].
        -- unfold process_yesterdays_games in He. rewrite Hsame in He. discriminate.
        -- rewrite (process_yesterdays_games_unpicklable silver (b :: blobs)) in He
             by done.
           injection He as <-. by right.
    + left. unfold process_yesterdays_games in He.
      rewrite Hsame in He. simpl in He.
      injection He as <-. by apply (list_blobs_Raise _ _ _ _ Hblobs).
  - intros blobs Hblobs Hne Hpickles.
    apply (process_yesterdays_games_unpicklable silver blobs); [|done|done].
    by rewrite Hsame.
  - intros Hhealthy Hpickles Hsilver game_id Hin.
    rewrite get_nba_boxscores_eq in Hrun.
    rewrite (batch_config_run py_str self env w game_ids Hids Hpickles) in Hrun.
    destruct (game_loop py_str self env game_ids w)
      as (w2 & segments & Hloop & _ & _ & _ & Hh & _).
    destruct (Hh Hhealthy) as [_ Hheld].
    rewrite Hloop in Hrun. injection Hrun as Ha Hw. subst w'.
    destruct (Hheld game_id Hin) as [payload Hraw].
    assert (exists df, download_parquet (store w2) (output_bucket self)
                         (blob_of py_str self game_id) = Ok df) as [df Hdf].
    { unfold raw_response_of in Hraw.
      destruct (download_parquet _ _ _) as [df|]; [by exists df|discriminate]. }
    destruct (list_blobs (store w2) (output_bucket self) (date_path self))
      as [blobs|e'] eqn:Hblobs.
    + destruct (Hreads blobs eq_refl) as (per_document & Hper).
      exists blobs, per_document. split; [done|]. split; [|split; [done|]].
      * apply (list_blobs_elem _ _ _ _ _ Hblobs). split; [|by exists df].
        unfold blob_of. apply startswith_key.
      * apply (process_yesterdays_games_of_blobs silver blobs); [done|done|].
        by rewrite Hclient, Hbucket.
    + destruct (list_blobs_exists _ _ _ _ (date_path self) Hdf) as [blobs Hsome].
      congruence.
Qed.

End Pipeline.

Lemma boxscores_feed_silver_witness :
  let w := scoreboard_world sample_scoreboard in
  let w' := snd (Stage.get_nba_boxscores sample_str sample_boxscore_processor
                   always_up w) in
  snapshots_under (store w') "boxscores" "year=2025/month=04/day=04" /\
  (exists blobs per_document,
     list_blobs (store w') "boxscores" "year=2025/month=04/day=04" = Ok blobs /\
     blob_of sample_str sample_boxscore_processor (PStr "0022400753") ∈ blobs /\
     process_yesterdays_games (sample_processor (store w')) = Ok (concat per_document)) /\
  process_yesterdays_games (deployed_processor (store w')) = Raise PicklingError.
Proof.
  intros w w'.
  assert (snapshots_under (store w) (output_bucket sample_boxscore_processor)
            (date_path sample_boxscore_processor)) as Hbefore.
  { intros blob df _ H. vm_compute in H. discriminate. }
  destruct (boxscores_feed_silver sample_str sample_boxscore_processor always_up w
              [PStr "0022400752"; PStr "0022400753"]
              (fst (Stage.get_nba_boxscores sample_str sample_boxscore_processor
                      always_up w))
              w' (sample_processor (store w'))
              eq_refl Hbefore (surjective_pairing _) eq_refl eq_refl eq_refl)
    as (Hafter & _ & _ & Hhealthy).
  destruct (boxscores_feed_silver sample_str sample_boxscore_processor always_up w
              [PStr "0022400752"; PStr "0022400753"]
              (fst (Stage.get_nba_boxscores sample_str sample_boxscore_processor
                      always_up w))
              w' (deployed_processor (store w'))
              eq_refl Hbefore (surjective_pairing _) eq_refl eq_refl eq_refl)
    as (_ & _ & Hpickle & _).
  destruct (Hhealthy always_up_healthy eq_refl eq_refl (PStr "0022400753"))
    as (blobs & per_document & Hblobs & Hin & _ & Hok).
  { right. left. }
  split; [exact Hafter|]. split.
  - exists blobs, per_document. split; [exact Hblobs|]. split; [exact Hin|exact Hok].
  - apply (Hpickle blobs Hblobs); [|reflexivity].
    intros ->. by apply elem_of_nil in Hin.
Defined.

(** ** A scoreboard the boxscore stage cannot read *)

Lemma list_index_str_absent s l : PStr s ∉ l -> list_index_str s l = None.
Proof.
  induction l as [|x l IH]; intros Hs; [done|].
  apply not_elem_of_cons in Hs as [Hne Hs]. cbn [list_index_str].
  assert (py_eq_str x s = false) as ->.
  { destruct x; try done. simpl. destruct (String.eqb_spec s0 s) as [->|]; [|done].
    by destruct Hne. }
  by rewrite (IH Hs).
Qed.

Section ScoreboardErrors.
Context (py_str : pyval -> string) (self : NBABoxscoreProcessor) (env : environment).

Lemma get_nba_boxscores_raises w e :
  get_game_ids self w = (Raise e, w) ->
  Stage.get_nba_boxscores py_str self env w = (Raise e, w).
Proof.
  intros Hids. unfold Stage.get_nba_boxscores, batch_config.
  unfold mbind at 1. unfold io_bind at 1.
  unfold mbind at 1. unfold io_bind at 1. by rewrite Hids.
Qed.

Lemma get_game_ids_decoded w json_data :
  raw_response_of (store w) (input_bucket self)
    (date_path self ++ "/scoreboard.parquet")%string = Ok (Dumps json_data) ->
  get_game_ids self w
  = (result_sets ← py_getitem json_data "resultSets";
     rs ← py_iter result_sets;
     game_header ← next_game_header rs;
     match game_header with
     | Some game_header =>
         if truthy game_header then
           hs ← py_getitem game_header "headers";
           game_id_index ← py_index hs "GAME_ID";
           row_set ← py_getitem game_header "rowSet";
           rows ← py_iter row_set;
           mapM (fun row => py_getitem_int row game_id_index) rows
         else Ok []
     | None => Ok []
     end, w).
Proof.
  intros Hraw. unfold get_game_ids. f_equal.
  rewrite raw_response_of_unfold in Hraw.
  destruct (download_parquet _ _ _) as [df|]; simpl in *; [|discriminate].
  destruct (iloc df 0) as [row|]; simpl in *; [|discriminate].
  by rewrite Hraw.
Qed.

(** [get_game_ids] has no handler: a missing scoreboard blob, a
    [raw_response] that is not JSON, a document without [resultSets] and
    a [GameHeader] entry whose headers do not list [GAME_ID] each make
    [get_nba_boxscores] raise (the store's error, [JSONDecodeError],
    [KeyError], [ValueError]) before any request is sent. *)
Theorem scoreboard_errors_stop_the_run w :
  (forall e,
     download_parquet (store w) (input_bucket self)
       (date_path self ++ "/scoreboard.parquet")%string = Raise e ->
     Stage.get_nba_boxscores py_str self env w = (Raise e, w)) /\
  (forall s,
     raw_response_of (store w) (input_bucket self)
       (date_path self ++ "/scoreboard.parquet")%string = Ok (NotJson s) ->
     Stage.get_nba_boxscores py_str self env w = (Raise JSONDecodeError, w)) /\
  (forall json_data,
     raw_response_of (store w) (input_bucket self)
       (date_path self ++ "/scoreboard.parquet")%string = Ok (Dumps json_data) ->
     is_object json_data ->
     lacks_key json_data "resultSets" ->
     Stage.get_nba_boxscores py_str self env w = (Raise KeyError, w)) /\
  (forall json_data before game_header after headers,
     raw_response_of (store w) (input_bucket self)
       (date_path self ++ "/scoreboard.parquet")%string = Ok (Dumps json_data) ->
     object_at json_data "resultSets" (PList (before ++ game_header :: after)) ->
     Forall named_otherwise before ->
     object_at game_header "name" (PStr "GameHeader") ->
     object_at game_header "headers" (PList headers) ->
     PStr "GAME_ID" ∉ headers ->
     Stage.get_nba_boxscores py_str self env w = (Raise ValueError, w)).
Proof.
  split; [|split; [|split]].
  - intros e He. apply get_nba_boxscores_raises.
    unfold get_game_ids. by rewrite He.
  - intros s Hraw. apply get_nba_boxscores_raises.
    unfold get_game_ids. f_equal. rewrite raw_response_of_unfold in Hraw.
    destruct (download_parquet _ _ _) as [df|]; simpl in *; [|discriminate].
    destruct (iloc df 0) as [row|]; simpl in *; [|discriminate].
    by rewrite Hraw.
  - intros json_data Hraw [m ->] Hlacks. apply get_nba_boxscores_raises.
    rewrite (get_game_ids_decoded w _ Hraw). cbn [py_getitem].
    by rewrite (Hlacks m eq_refl).
  - intros json_data before game_header after headers Hraw (m & -> & Hrs) Hbefore
      Hname Hheaders Habsent.
    apply get_nba_boxscores_raises.
    rewrite (get_game_ids_decoded w _ Hraw). cbn [py_getitem]. rewrite Hrs.
    cbn [mbind result_bind py_iter]. rewrite next_game_header_first by done.
    cbn [mbind result_bind].
    destruct Hname as (gh & -> & Hname).
    destruct Hheaders as (gh' & [= <-] & Hheaders).
    assert (truthy (PDict gh) = true) as -> by (by destruct gh).
    cbn [py_getitem]. rewrite Hheaders.
    cbn [mbind result_bind py_index]. by rewrite (list_index_str_absent _ _ Habsent).
Qed.

(** The two fetch stages together: when the upstream answers the
    scoreboard request with a body that decodes to an object without
    [resultSets] (an error page, whatever the status code), the
    scoreboard stage stores it and returns [None], and the boxscore stage
    for the same bucket and day then raises [KeyError] before any
    request. *)
Theorem error_body_stops_boxscores scoreboard_env proxy_config bucket_name yesterday w
  response json_data :
  http_get scoreboard_env (length (trace w)) (scoreboard_request_of proxy_config yesterday)
  = Some response ->
  text response = Dumps json_data ->
  is_object json_data ->
  lacks_key json_data "resultSets" ->
  upload_fails scoreboard_env (S (length (trace w))) = false ->
  input_bucket self = bucket_name ->
  date_path self = Stage.date_path_of yesterday ->
  exists w',
    get_nba_scoreboard scoreboard_env proxy_config bucket_name yesterday w = (Ok None, w') /\
    Stage.get_nba_boxscores py_str self env w' = (Raise KeyError, w').
Proof.
  intros Hget Htext [m ->] Hlacks Hup Hbucket Hpath.
  rewrite (get_nba_scoreboard_first scoreboard_env proxy_config bucket_name yesterday w
             response (PDict m) Hget Htext Hup).
  eexists. split; [reflexivity|].
  apply get_nba_boxscores_raises.
  rewrite (get_game_ids_decoded _ (PDict m)).
  - cbn [py_getitem]. by rewrite (Hlacks m eq_refl).
  - rewrite Hbucket, Hpath. cbn [store]. apply raw_response_stored.
Qed.

End ScoreboardErrors.

Lemma scoreboard_errors_stop_the_run_witness :
  Stage.get_nba_boxscores sample_str sample_boxscore_processor always_up empty_world
  = (Raise NotFound, empty_world) /\
  Stage.get_nba_boxscores sample_str sample_boxscore_processor always_up
    (scoreboard_world error_page)
  = (Raise KeyError, scoreboard_world error_page) /\
  Stage.get_nba_boxscores sample_str sample_boxscore_processor always_up
    (scoreboard_world scoreboard_without_game_id)
  = (Raise ValueError, scoreboard_world scoreboard_without_game_id).
Proof.
  split; [|split].
  - destruct (scoreboard_errors_stop_the_run sample_str sample_boxscore_processor
                always_up empty_world) as (Hmissing & _).
    apply Hmissing. reflexivity.
  - destruct (scoreboard_errors_stop_the_run sample_str sample_boxscore_processor
                always_up (scoreboard_world error_page)) as (_ & _ & Hlacks & _).
    apply (Hlacks error_page).
    + vm_compute. reflexivity.
    + by eexists.
    + intros m [= <-]. reflexivity.
  - destruct (scoreboard_errors_stop_the_run sample_str sample_boxscore_processor
                always_up (scoreboard_world scoreboard_without_game_id))
      as (_ & _ & _ & Hheaders).
    eapply (Hheaders scoreboard_without_game_id [] _ [] [PStr "GAME_DATE_EST"]).
    + vm_compute. reflexivity.
    + eexists. split; reflexivity.
    + constructor.
    + eexists. split; reflexivity.
    + eexists. split; reflexivity.
    + intros Hin. apply list_elem_of_singleton in Hin. discriminate.
Defined.

Lemma error_body_stops_boxscores_witness :
  exists w',
    get_nba_scoreboard answers_503 [] "scoreboards" sample_partition empty_world
    = (Ok None, w') /\
    Stage.get_nba_boxscores sample_str sample_boxscore_processor always_up w'
    = (Raise KeyError, w').
Proof.
  apply (error_body_stops_boxscores sample_str sample_boxscore_processor always_up
           answers_503 [] "scoreboards" sample_partition empty_world
           {| status_code := 503; text := Dumps error_page |} error_page).
  - reflexivity.
  - reflexivity.
  - by eexists.
  - intros m [= <-]. reflexivity.
  - reflexivity.
  - reflexivity.
  - reflexivity.
Defined.
